(** * AutoTailor: the sign-in state machine and the generation lifecycle

    A shallow embedding of the Flask application of [src/app.py] over the
    tables of [src/models.py].  The relational store, the file system, the
    clock, the random source and the session cookie are explicit state; each
    route handler is a function from the request and that state to a response
    and the state afterwards. *)

From Stdlib Require Import ZArith Ascii.
From stdpp Require Import gmap strings list fin_maps.

Local Open Scope Z_scope.

(** ** Python text

    [str] values are modelled as ASCII text.  [isspace] is Python's
    [str.isspace] on that range: TAB..CR, FS..US and the space. *)

Module Str.

Definition isspace (c : ascii) : bool :=
  let n := N_of_ascii c in
  ((9 <=? n) && (n <=? 13) || (28 <=? n) && (n <=? 32))%N.

Fixpoint lstrip (s : string) : string :=
  match s with
  | EmptyString => EmptyString
  | String c s' => if isspace c then lstrip s' else s
  end.

Definition rstrip (s : string) : string :=
  String.rev (lstrip (String.rev s)).

(** [s.strip()] *)
Definition strip (s : string) : string := rstrip (lstrip s).

Definition lower_char (c : ascii) : ascii :=
  let n := N_of_ascii c in
  if ((65 <=? n) && (n <=? 90))%N then ascii_of_N (n + 32) else c.

(** [s.lower()] *)
Fixpoint lower (s : string) : string :=
  match s with
  | EmptyString => EmptyString
  | String c s' => String (lower_char c) (lower s')
  end.

(** [len(s)] *)
Definition len (s : string) : Z := Z.of_nat (String.length s).

(** [x or ""] for a nullable text value. *)
Definition or_empty (x : option string) : string := default "" x.

(** [x or y] for nullable text values: the empty string is falsy too. *)
Definition or_else (x y : option string) : option string :=
  match x with
  | Some s => if decide (s = "") then y else x
  | None => y
  end.

Definition digit_char (d : nat) : ascii :=
  match d with
  | 0%nat => "0" | 1%nat => "1" | 2%nat => "2" | 3%nat => "3" | 4%nat => "4"
  | 5%nat => "5" | 6%nat => "6" | 7%nat => "7" | 8%nat => "8" | _ => "9"
  end%char.

(** The [w] low decimal digits of [n], most significant first, in front
    of [acc]. *)
Fixpoint digits (w : nat) (n : Z) (acc : string) : string :=
  match w with
  | O => acc
  | S w' => digits w' (n / 10) (String (digit_char (Z.to_nat (n mod 10))) acc)
  end.

(** [f"{n:06d}"] for [0 <= n <= 999999], the range [signin] formats. *)
Definition format_06d (n : Z) : string := digits 6 n "".

End Str.

(** ** The random source and the clock

    [random.randint(a, b)] is a draw from the closed range; the embedding
    takes the raw entropy of the draw as an input of the request. *)

Definition randint (a b : Z) (entropy : Z) : Z := a + entropy mod (b - a + 1).

(** ** [datetime]

    A [datetime] is its wall-clock reading in microseconds and, when aware,
    its UTC offset in microseconds ([tzinfo]).  [timezone.utc] is offset 0. *)

Module DateTime.

Record datetime := mk_datetime {
  wall : Z;
  tzinfo : option Z
}.

Global Instance datetime_eq_dec : EqDecision datetime.
Proof. solve_decision. Defined.

Definition utc : Z := 0.

(** [datetime.now(timezone.utc)] when the clock reads [clock] microseconds
    of UTC. *)
Definition now_utc (clock : Z) : datetime :=
  {| wall := clock; tzinfo := Some utc |}.

(** [timedelta(minutes=m)] *)
Definition timedelta_minutes (m : Z) : Z := m * 60 * 1000000.

(** [d + delta] *)
Definition add (d : datetime) (delta : Z) : datetime :=
  {| wall := wall d + delta; tzinfo := tzinfo d |}.

(** [d.replace(tzinfo=tz)] *)
Definition replace_tzinfo (d : datetime) (tz : Z) : datetime :=
  {| wall := wall d; tzinfo := Some tz |}.

(** [a >= b]: aware values compare as instants, naive values as wall-clock
    readings, and mixing the two raises [TypeError] ([None]). *)
Definition ge (a b : datetime) : option bool :=
  match tzinfo a, tzinfo b with
  | Some oa, Some ob => Some (wall b - ob <=? wall a - oa)
  | None, None => Some (wall b <=? wall a)
  | _, _ => None
  end.

(** The instant a stored timestamp denotes when a value without zone
    information is read as UTC. *)
Definition instant_utc (d : datetime) : Z := wall d - default utc (tzinfo d).

End DateTime.
Import DateTime.

(** ** The tables of [models.py]

    Every table is a finite map from the integer primary key to the row. *)

Record User := mk_User {
  user_email : string;
  verified : Z;
  verify_code : option string;
  verify_expiry : option datetime
}.

(** [full_name] is [NOT NULL]; the other text columns are nullable. *)
Record Profile := mk_Profile {
  profile_user_id : Z;
  full_name : string;
  city : option string;
  email : option string;
  phone : option string;
  linkedin : option string;
  github : option string;
  about : option string;
  gemini_api_key : option string
}.

Record GeneratedResume := mk_GeneratedResume {
  resume_user_id : Z;
  job_url : string;
  created_at : datetime;
  pdf_path : string;
  docx_path : string;
  pdf_name : string;
  docx_name : string;
  coverage_json : option string
}.

Global Instance User_eq_dec : EqDecision User.
Proof. solve_decision. Defined.
Global Instance Profile_eq_dec : EqDecision Profile.
Proof. solve_decision. Defined.
Global Instance GeneratedResume_eq_dec : EqDecision GeneratedResume.
Proof. solve_decision. Defined.

Record DB := mk_DB {
  users : gmap Z User;
  profiles : gmap Z Profile;
  resumes : gmap Z GeneratedResume
}.

Inductive Exn :=
  | MultipleResultsFound
  | TypeError
  | ValueError
  | OSError (path : string)
  | RendererError (code : Z).

(** [Query.one_or_none()] over the rows a filter selected. *)
Definition one_or_none {A} (rows : list (Z * A)) : Exn + option (Z * A) :=
  match rows with
  | [] => inr None
  | [r] => inr (Some r)
  | _ => inl MultipleResultsFound
  end.

(** [sess.query(User).filter(User.email == e)] *)
Definition users_by_email (e : string) (m : gmap Z User) : list (Z * User) :=
  map_to_list (filter (λ kv, user_email kv.2 = e) m).

(** [sess.query(Profile).filter(Profile.user_id == uid)] *)
Definition profiles_by_user (uid : Z) (m : gmap Z Profile) : list (Z * Profile) :=
  map_to_list (filter (λ kv, profile_user_id kv.2 = uid) m).

(** The key an insert receives: one more than the largest key in use. *)
Definition next_id {A} (m : gmap Z A) : Z :=
  1 + foldr Z.max 0 (map_to_list m).*1.

(** ** The file system the artifacts live in

    Absolute POSIX paths map to files or directories; [locked] holds the
    paths on which removal or writing raises [OSError] (permissions, a busy
    mount). *)

Module OS.

Inductive Node :=
  | File (content : string)
  | Dir.

Global Instance Node_eq_dec : EqDecision Node.
Proof. solve_decision. Defined.

Record FS := mk_FS {
  nodes : gmap string Node;
  locked : gset string
}.

Definition is_slash (c : ascii) : bool := bool_decide (c = "/"%char).

Fixpoint drop_to_slash (s : string) : string :=
  match s with
  | EmptyString => EmptyString
  | String c s' => if is_slash c then s else drop_to_slash s'
  end.

Fixpoint lstrip_slashes (s : string) : string :=
  match s with
  | EmptyString => EmptyString
  | String c s' => if is_slash c then lstrip_slashes s' else s
  end.

(** [os.path.dirname(p)]: the text up to the last slash, without trailing
    slashes unless it consists of slashes only. *)
Definition dirname (p : string) : string :=
  let head := String.rev (drop_to_slash (String.rev p)) in
  match lstrip_slashes head with
  | EmptyString => head
  | _ => String.rev (lstrip_slashes (String.rev head))
  end.

Definition starts_with_slash (s : string) : bool :=
  match s with
  | String c _ => is_slash c
  | EmptyString => false
  end.

(** [os.path.join(a, b)] *)
Definition join (a b : string) : string :=
  if starts_with_slash b then b
  else if bool_decide (a = "") || starts_with_slash (String.rev a) then a +:+ b
  else a +:+ "/" +:+ b.

(** [os.path.exists(p)] *)
Definition exists_ (fs : FS) (p : string) : bool :=
  bool_decide (is_Some (nodes fs !! p)).

(** [os.path.isdir(p)] *)
Definition isdir (fs : FS) (p : string) : bool :=
  bool_decide (nodes fs !! p = Some Dir).

(** [os.listdir(d)]: the entries directly below [d]. *)
Definition listdir (fs : FS) (d : string) : list string :=
  filter (λ p, dirname p = d ∧ p ≠ d) (elements (dom (nodes fs))).

(** [os.remove(p)] *)
Definition remove (fs : FS) (p : string) : Exn + FS :=
  if bool_decide (p ∈ locked fs) then inl (OSError p)
  else match nodes fs !! p with
       | Some (File _) => inr {| nodes := delete p (nodes fs); locked := locked fs |}
       | _ => inl (OSError p)
       end.

(** [os.rmdir(d)] *)
Definition rmdir (fs : FS) (d : string) : Exn + FS :=
  if bool_decide (d ∈ locked fs) then inl (OSError d)
  else match nodes fs !! d, listdir fs d with
       | Some Dir, [] => inr {| nodes := delete d (nodes fs); locked := locked fs |}
       | _, _ => inl (OSError d)
       end.

(** [tempfile.mkdtemp(prefix=...)] with the random suffix it drew; a name
    already taken is reported as the error [mkdtemp] ends with when its
    retries are exhausted. *)
Definition mkdtemp (fs : FS) (prefix suffix : string) : Exn + (string * FS) :=
  let d := "/tmp/" +:+ prefix +:+ suffix in
  if exists_ fs d then inl (OSError d)
  else inr (d, {| nodes := <[d := Dir]> (nodes fs); locked := locked fs |}).

(** [with open(p, "wb") as f: f.write(data)] *)
Definition write_file (fs : FS) (p data : string) : Exn + FS :=
  if bool_decide (p ∈ locked fs) then inl (OSError p)
  else match nodes fs !! p, nodes fs !! dirname p with
       | Some Dir, _ => inl (OSError p)
       | _, Some Dir => inr {| nodes := <[p := File data]> (nodes fs); locked := locked fs |}
       | _, _ => inl (OSError p)
       end.

End OS.

(** ** Requests, responses and the state a request runs in *)

Inductive Method := GET | POST.

Global Instance Method_eq_dec : EqDecision Method.
Proof. solve_decision. Defined.

(** A request: its method, whether it carries the CSRF token [FlaskForm]
    checks, the query string and the posted form. *)
Record Request := mk_Request {
  method : Method;
  csrf_ok : bool;
  args : gmap string string;
  form : gmap string string
}.

(** What the outside world supplies while the request runs: the clock (in
    microseconds of UTC), the entropy of the random draw and the suffix
    [mkdtemp] picks. *)
Record Env := mk_Env {
  clock : Z;
  entropy : Z;
  tmp_suffix : string
}.

Inductive Endpoint :=
  | ep_index
  | ep_signin
  | ep_verify (email : string)
  | ep_profile
  | ep_tailor
  | ep_result (id : Z).

Inductive Response :=
  | Redirect (target : Endpoint)
  | RenderTemplate (name : string)
  | SendFile (path download_name : string)
  | Abort (status : Z)
  | ServerError (e : Exn).

(** The keys of the profile snapshot handed to the renderer. *)
Record ProfileDict := mk_ProfileDict {
  pd_full_name : string;
  pd_city : option string;
  pd_email : option string;
  pd_phone : option string;
  pd_linkedin : option string;
  pd_github : option string;
  pd_about : option string;
  pd_gemini_api_key : option string
}.

(** [stdout] is the console [signin] prints the code to; [renderer_calls]
    records every invocation of the renderer, oldest first. *)
Record World := mk_World {
  db : DB;
  fs : OS.FS;
  stdout : list string;
  renderer_calls : list (ProfileDict * string)
}.

(** The user id Flask-Login keeps in the session cookie. *)
Definition Session := option Z.

Record Outcome := mk_Outcome {
  response : Response;
  flashed : list string;
  session_after : Session;
  world_after : World
}.

Definition set_db (w : World) (d : DB) : World :=
  {| db := d; fs := fs w; stdout := stdout w; renderer_calls := renderer_calls w |}.

Definition set_fs (w : World) (f : OS.FS) : World :=
  {| db := db w; fs := f; stdout := stdout w; renderer_calls := renderer_calls w |}.

Definition print (w : World) (line : string) : World :=
  {| db := db w; fs := fs w; stdout := stdout w ++ [line];
     renderer_calls := renderer_calls w |}.

Definition log_renderer_call (w : World) (p : ProfileDict) (url : string) : World :=
  {| db := db w; fs := fs w; stdout := stdout w;
     renderer_calls := renderer_calls w ++ [(p, url)] |}.

Definition set_users (d : DB) (m : gmap Z User) : DB :=
  {| users := m; profiles := profiles d; resumes := resumes d |}.

Definition set_profiles (d : DB) (m : gmap Z Profile) : DB :=
  {| users := users d; profiles := m; resumes := resumes d |}.

Definition set_resumes (d : DB) (m : gmap Z GeneratedResume) : DB :=
  {| users := users d; profiles := profiles d; resumes := m |}.

(** A response that leaves the session and the world as they were. *)
Definition reply (r : Response) (msgs : list string) (sess : Session) (w : World) : Outcome :=
  {| response := r; flashed := msgs; session_after := sess; world_after := w |}.

(** [load_user]: the account the session cookie resolves to. *)
Definition current_user (sess : Session) (w : World) : option (Z * User) :=
  uid ← sess; u ← users (db w) !! uid; Some (uid, u).

(** What the renderer returns: the two documents, their file names and the
    coverage payload, opaque to the application ([None] when the key is
    missing). *)
Record RenderResult (Coverage : Type) := mk_RenderResult {
  r_pdf : string;
  r_docx : string;
  r_pdf_name : string;
  r_docx_name : string;
  r_coverage : option Coverage
}.

Arguments mk_RenderResult {Coverage}.
Arguments r_pdf {Coverage}.
Arguments r_docx {Coverage}.
Arguments r_pdf_name {Coverage}.
Arguments r_docx_name {Coverage}.
Arguments r_coverage {Coverage}.

(** ** WTForms validators *)

(** [DataRequired()]: the data is present and not blank. *)
Definition DataRequired (data : option string) : bool :=
  match data with
  | Some s => negb (bool_decide (Str.strip s = ""))
  | None => false
  end.

(** [Length(min, max)] on [len(data or "")]. *)
Definition Length (lo : Z) (hi : option Z) (data : option string) : bool :=
  let n := Str.len (Str.or_empty data) in
  (lo <=? n) && match hi with Some h => n <=? h | None => true end.

Definition Length_max (hi : Z) (data : option string) : bool :=
  Length 0 (Some hi) data.

(** ** The stub renderer of [adapters/resume_engine.py]

    The conversions to PDF and DOCX bytes ([weasyprint], [python-docx]), the
    host name [urlparse] extracts and the date stamp of [utcnow] are taken
    as given; the text and the file names are built as the module builds
    them. *)

Module ResumeEngine.

(** [s.split()]: the maximal runs of non-whitespace; [cur] is the run being
    read, last character first. *)
Fixpoint split_go (cur : string) (s : string) : list string :=
  match s with
  | EmptyString =>
      match cur with
      | EmptyString => []
      | _ => [String.rev cur]
      end
  | String c s' =>
      if Str.isspace c then
        match cur with
        | EmptyString => split_go "" s'
        | _ => String.rev cur :: split_go "" s'
        end
      else split_go (String c cur) s'
  end.

Definition split (s : string) : list string := split_go "" s.

(** [sep.join(parts)] *)
Fixpoint join (sep : string) (parts : list string) : string :=
  match parts with
  | [] => ""
  | [x] => x
  | x :: rest => x +:+ sep +:+ join sep rest
  end.

(** [(x or "").strip()], kept when it is not empty. *)
Definition present (x : option string) : list string :=
  let v := Str.strip (Str.or_empty x) in
  if bool_decide (v = "") then [] else [v].

(** [_build_text(profile, jd_url)] *)
Definition _build_text (profile : ProfileDict) (jd_url : string) : string :=
  let name := Str.strip (pd_full_name profile) in
  let contact :=
    present (pd_city profile) ++ present (pd_email profile)
    ++ present (pd_phone profile) ++ present (pd_linkedin profile)
    ++ present (pd_github profile) in
  let about := Str.strip (Str.or_empty (pd_about profile)) in
  let lines :=
    (if bool_decide (name = "") then [] else [name])
    ++ (match contact with [] => [] | _ => [join " | " contact] end)
    ++ [""]
    ++ (if bool_decide (about = "") then [] else ["Summary"; about; ""])
    ++ ["(Stub) Tailored for: " +:+ jd_url; "";
        "Experience";
        "• Contributed to team projects with clear communication and documentation.";
        "• Applied standard problem-solving and data handling techniques where appropriate."] in
  join (String "010" "") lines.

(** The name as it goes into the file names: trimmed, ["Resume"] when that
    leaves nothing, its words joined by underscores. *)
Definition name_safe (full_name : string) : string :=
  let name := Str.strip full_name in
  let name := if bool_decide (name = "") then "Resume" else name in
  join "_" (split name).

Definition filename (full_name host today ext : string) : string :=
  "Resume_" +:+ name_safe full_name +:+ "_" +:+ host +:+ "_" +:+ today +:+ ext.

Section Renderer.

Variable Coverage : Type.

(** [_to_pdf_bytes] and [_to_docx_bytes]; [urlparse(url).hostname], which
    may raise and may be [None]; [utcnow().strftime("%Y%m%d")] at a clock
    reading; and the fixed coverage payload. *)
Variable to_pdf_bytes : string → Exn + string.
Variable to_docx_bytes : string → Exn + string.
Variable urlparse_hostname : string → Exn + option string.
Variable strftime_Ymd : Z → string.
Variable stub_coverage : Coverage.

Definition generate_both (profile : ProfileDict) (jd_url : string) (clock : Z)
    : Exn + RenderResult Coverage :=
  let text := _build_text profile jd_url in
  match to_pdf_bytes text with
  | inl e => inl e
  | inr pdf_bytes =>
      match to_docx_bytes text with
      | inl e => inl e
      | inr docx_bytes =>
          match urlparse_hostname jd_url with
          | inl e => inl e
          | inr hostname =>
              let host := Str.or_empty (Str.or_else hostname (Some "job")) in
              let today := strftime_Ymd clock in
              inr {| r_pdf := pdf_bytes;
                     r_docx := docx_bytes;
                     r_pdf_name := filename (pd_full_name profile) host today ".pdf";
                     r_docx_name := filename (pd_full_name profile) host today ".docx";
                     r_coverage := Some stub_coverage |}
          end
      end
  end.

End Renderer.

End ResumeEngine.

(** ** Start-up: the optional columns of [profiles]

    [create_app] inspects the [profiles] table, adds the columns [about] and
    [gemini_api_key] it does not see, and inspects again.  [cols] are the
    columns the table has; an inspection may fail. *)

Module Startup.

Inductive Failure :=
  | InspectFailed
  | DuplicateColumn (c : string).

(** [ALTER TABLE profiles ADD COLUMN c ...]: refused when the table has the
    column already. *)
Definition add_column (cols : Failure + gset string) (c : string)
    : Failure + gset string :=
  match cols with
  | inl e => inl e
  | inr s => if bool_decide (c ∈ s) then inl (DuplicateColumn c)
             else inr ({[ c ]} ∪ s)
  end.

Record Probes := mk_Probes {
  HAS_PROFILE_ABOUT : bool;
  HAS_PROFILE_GEMINI : bool;
  columns : gset string
}.

Definition probe (first_inspect_ok second_inspect_ok : bool) (cols : gset string)
    : Failure + Probes :=
  let profile_cols : gset string := if first_inspect_ok then cols else ∅ in
  let to_add :=
    (if bool_decide ("about" ∈ profile_cols) then [] else ["about"])
    ++ (if bool_decide ("gemini_api_key" ∈ profile_cols) then []
        else ["gemini_api_key"]) in
  match to_add with
  | [] =>
      inr {| HAS_PROFILE_ABOUT := bool_decide ("about" ∈ profile_cols);
             HAS_PROFILE_GEMINI := bool_decide ("gemini_api_key" ∈ profile_cols);
             columns := cols |}
  | _ =>
      match foldl add_column (inr cols) to_add with
      | inl e => inl e
      | inr cols' =>
          if second_inspect_ok then
            inr {| HAS_PROFILE_ABOUT := bool_decide ("about" ∈ cols');
                   HAS_PROFILE_GEMINI := bool_decide ("gemini_api_key" ∈ cols');
                   columns := cols' |}
          else inl InspectFailed
      end
  end.

End Startup.

(** ** The route handlers of [create_app] *)

Section App.

(** [email_validator.validate_email], the check behind WTForms' [Email()]. *)
Variable validate_email : string → bool.

(** Whether the database backend hands [DateTime(timezone=True)] columns
    back with their zone ([true]) or, as SQLite does, as naive values. *)
Variable tz_aware_backend : bool.

(** The two schema probes [create_app] computes at start-up. *)
Variable HAS_PROFILE_ABOUT : bool.
Variable HAS_PROFILE_GEMINI : bool.

(** The renderer, [adapters.resume_engine.generate_both], is a black box:
    from the profile snapshot, the job URL and the clock it reads for the
    file names it returns the two documents, or raises. *)
Variable Coverage : Type.
Variable generate_both : ProfileDict → string → Z → Exn + RenderResult Coverage.

(** [json.dumps] of the coverage payload ([None]: the key is missing and the
    empty object is dumped); whether [json.loads] and [urlparse(..).hostname]
    return on a text. *)
Variable json_dumps : option Coverage → string.
Variable json_loads_ok : string → bool.
Variable urlparse_ok : string → bool.

(** [Email()]: absent data is invalid. *)
Definition Email (data : option string) : bool :=
  match data with
  | Some s => validate_email s
  | None => false
  end.

(** What a committed timestamp reads as in a later request. *)
Definition persist_datetime (d : datetime) : datetime :=
  if tz_aware_backend then d else {| wall := wall d; tzinfo := None |}.

(** [form.validate_on_submit()]: a submitted request whose fields validate. *)
Definition validate_on_submit (req : Request) (fields_ok : bool) : bool :=
  bool_decide (method req = POST) && csrf_ok req && fields_ok.

(** *** [/signin] *)

Definition SigninForm_validate (req : Request) : bool :=
  let email := form req !! "email" in
  DataRequired email && Email email && Length_max 255 email.

Definition set_code (u : User) (code : option string) (expiry : option datetime) : User :=
  {| user_email := user_email u; verified := verified u;
     verify_code := code; verify_expiry := expiry |}.

Definition signin (env : Env) (req : Request) (sess : Session) (w : World) : Outcome :=
  if validate_on_submit req (SigninForm_validate req) then
    let email := Str.lower (Str.strip (Str.or_empty (form req !! "email"))) in
    match one_or_none (users_by_email email (users (db w))) with
    | inl e => reply (ServerError e) [] sess w
    | inr found =>
        let '(uid, user) :=
          match found with
          | Some r => r
          | None => (next_id (users (db w)),
                     {| user_email := email; verified := 0;
                        verify_code := None; verify_expiry := None |})
          end in
        let code := Str.format_06d (randint 0 999999 (entropy env)) in
        let expiry := add (now_utc (clock env)) (timedelta_minutes 10) in
        let user := set_code user (Some code) (Some (persist_datetime expiry)) in
        let w := set_db w (set_users (db w) (<[uid := user]> (users (db w)))) in
        let w := print w ("[DEV] Verification code: " +:+ code) in
        reply (Redirect (ep_verify email)) [] sess w
    end
  else reply (RenderTemplate "signin.html") [] sess w.

(** *** [/verify] *)

(** The data of the hidden [email] field: the posted value, or else the
    default the handler seeds the form with. *)
Definition verify_email_field (req : Request) : option string :=
  match form req !! "email" with
  | Some v => Some v
  | None => Some (Str.or_empty (Str.or_else (args req !! "email") (form req !! "email")))
  end.

Definition VerifyForm_validate (req : Request) : bool :=
  let email := verify_email_field req in
  let code := form req !! "code" in
  DataRequired email && Email email && Length_max 255 email
  && DataRequired code && Length 6 (Some 6) code.

Definition MSG_INVALID_CODE : string := "Invalid or expired code".

Definition mark_verified (u : User) : User :=
  {| user_email := user_email u; verified := 1;
     verify_code := None; verify_expiry := None |}.

(** [not prof or not (prof.full_name or "").strip()] *)
Definition profile_incomplete (prof : option (Z * Profile)) : bool :=
  match prof with
  | Some (_, p) => bool_decide (Str.strip (full_name p) = "")
  | None => true
  end.

Definition verify (env : Env) (req : Request) (sess : Session) (w : World) : Outcome :=
  if validate_on_submit req (VerifyForm_validate req) then
    let email := Str.lower (Str.strip (Str.or_empty (verify_email_field req))) in
    let code := Str.strip (Str.or_empty (form req !! "code")) in
    let invalid := reply (Redirect ep_signin) [MSG_INVALID_CODE] sess w in
    match one_or_none (users_by_email email (users (db w))) with
    | inl e => reply (ServerError e) [] sess w
    | inr None => invalid
    | inr (Some (uid, user)) =>
        let now := now_utc (clock env) in
        let expiry :=
          match verify_expiry user with
          | Some d => match tzinfo d with
                      | None => Some (replace_tzinfo d utc)
                      | Some _ => Some d
                      end
          | None => None
          end in
        if bool_decide (verify_code user = Some code) then
          match expiry with
          | None => invalid
          | Some d =>
              match ge d now with
              | None => reply (ServerError TypeError) [] sess w
              | Some false => invalid
              | Some true =>
                  let w := set_db w (set_users (db w)
                             (<[uid := mark_verified user]> (users (db w)))) in
                  let sess := Some uid in
                  match one_or_none (profiles_by_user uid (profiles (db w))) with
                  | inl e => reply (ServerError e) [] sess w
                  | inr prof =>
                      if profile_incomplete prof
                      then reply (Redirect ep_profile) [] sess w
                      else reply (Redirect ep_tailor) [] sess w
                  end
              end
          end
        else invalid
    end
  else reply (RenderTemplate "verify.html") [] sess w.

(** *** [@login_required] *)

Definition LOGIN_MESSAGE : string := "Please log in to access this page.".

Definition login_required (handler : Z * User → Outcome)
    (sess : Session) (w : World) : Outcome :=
  match current_user sess w with
  | Some cu => handler cu
  | None => reply (Redirect ep_signin) [LOGIN_MESSAGE] sess w
  end.

(** *** [/profile] *)

Record ProfileForm := mk_ProfileForm {
  f_full_name : option string;
  f_city : option string;
  f_email : option string;
  f_phone : option string;
  f_web : option string;
  f_about : option string;
  f_gemini_api_key : option string
}.

(** [ProfileForm(obj=None)]: the fields bound to the posted form. *)
Definition ProfileForm_bind (req : Request) : ProfileForm :=
  {| f_full_name := form req !! "full_name";
     f_city := form req !! "city";
     f_email := form req !! "email";
     f_phone := form req !! "phone";
     f_web := form req !! "web";
     f_about := form req !! "about";
     f_gemini_api_key := form req !! "gemini_api_key" |}.

(** The assignments [form.<field>.data = prof.<column>] the handler makes
    when a profile exists. *)
Definition ProfileForm_prefill (f : ProfileForm) (cu : Z * User) (prof : Profile) : ProfileForm :=
  {| f_full_name := Some (full_name prof);
     f_city := city prof;
     f_email := Str.or_else (email prof) (Some (user_email cu.2));
     f_phone := phone prof;
     f_web := Str.or_else (linkedin prof) (github prof);
     f_about := if HAS_PROFILE_ABOUT then about prof else f_about f;
     f_gemini_api_key :=
       if HAS_PROFILE_GEMINI then gemini_api_key prof else f_gemini_api_key f |}.

Definition ProfileForm_validate (f : ProfileForm) : bool :=
  DataRequired (f_full_name f) && Length_max 255 (f_full_name f)
  && Length_max 255 (f_city f)
  && Email (f_email f) && Length_max 255 (f_email f)
  && Length_max 64 (f_phone f)
  && Length_max 255 (f_web f)
  && Length_max 5000 (f_about f)
  && Length_max 255 (f_gemini_api_key f).

Definition stripped (x : option string) : option string :=
  Some (Str.strip (Str.or_empty x)).

(** [Profile(user_id=current_user.id, **data)] and the optional columns. *)
Definition Profile_create (uid : Z) (f : ProfileForm) : Profile :=
  {| profile_user_id := uid;
     full_name := Str.strip (Str.or_empty (f_full_name f));
     city := stripped (f_city f);
     email := stripped (f_email f);
     phone := stripped (f_phone f);
     linkedin := stripped (f_web f);
     github := None;
     about := if HAS_PROFILE_ABOUT then stripped (f_about f) else None;
     gemini_api_key :=
       if HAS_PROFILE_GEMINI then stripped (f_gemini_api_key f) else None |}.

(** [setattr(prof, k, v)] for every key of [data] and the optional columns. *)
Definition Profile_update (prof : Profile) (f : ProfileForm) : Profile :=
  {| profile_user_id := profile_user_id prof;
     full_name := Str.strip (Str.or_empty (f_full_name f));
     city := stripped (f_city f);
     email := stripped (f_email f);
     phone := stripped (f_phone f);
     linkedin := stripped (f_web f);
     github := None;
     about := if HAS_PROFILE_ABOUT then stripped (f_about f) else about prof;
     gemini_api_key :=
       if HAS_PROFILE_GEMINI then stripped (f_gemini_api_key f)
       else gemini_api_key prof |}.

Definition MSG_SAVED : string := "Saved".

Definition profile_body (req : Request) (sess : Session) (w : World)
    (cu : Z * User) : Outcome :=
  match one_or_none (profiles_by_user cu.1 (profiles (db w))) with
  | inl e => reply (ServerError e) [] sess w
  | inr prof =>
      let f := ProfileForm_bind req in
      let f := match prof with
               | Some (_, p) => ProfileForm_prefill f cu p
               | None => f
               end in
      if validate_on_submit req (ProfileForm_validate f) then
        let '(pid, row) :=
          match prof with
          | None => (next_id (profiles (db w)), Profile_create cu.1 f)
          | Some (pid, p) => (pid, Profile_update p f)
          end in
        let w := set_db w (set_profiles (db w) (<[pid := row]> (profiles (db w)))) in
        reply (Redirect ep_tailor) [MSG_SAVED] sess w
      else reply (RenderTemplate "profile.html") [] sess w
  end.

Definition profile (req : Request) (sess : Session) (w : World) : Outcome :=
  login_required (profile_body req sess w) sess w.

(** *** [/tailor] *)

Definition MSG_PROFILE_INCOMPLETE : string :=
  "Please complete your profile (full name is required).".
Definition MSG_MISSING_URL : string := "Paste a job posting URL.".
Definition MSG_RENDER_FAILED : string :=
  "Failed to generate resume. Check server dependencies (WeasyPrint).".

Definition TailorForm_validate (req : Request) : bool :=
  let url := form req !! "url" in
  DataRequired url && Length_max 2000 url.

Definition profile_dict (cu : Z * User) (prof : Profile) : ProfileDict :=
  {| pd_full_name := full_name prof;
     pd_city := city prof;
     pd_email := Str.or_else (email prof) (Some (user_email cu.2));
     pd_phone := phone prof;
     pd_linkedin := linkedin prof;
     pd_github := github prof;
     pd_about := if HAS_PROFILE_ABOUT then about prof else None;
     pd_gemini_api_key :=
       if HAS_PROFILE_GEMINI then gemini_api_key prof else None |}.

(** The part of [tailor] after a successful render: the scratch directory,
    the two files and the metadata row. *)
Definition store_resume (env : Env) (sess : Session) (w : World)
    (cu : Z * User) (url : string) (result : RenderResult Coverage) : Outcome :=
  match OS.mkdtemp (fs w) "autotailor_" (tmp_suffix env) with
  | inl e => reply (ServerError e) [] sess w
  | inr (tmpdir, fs1) =>
      let pdf := OS.join tmpdir (r_pdf_name result) in
      let docx := OS.join tmpdir (r_docx_name result) in
      match OS.write_file fs1 pdf (r_pdf result) with
      | inl e => reply (ServerError e) [] sess (set_fs w fs1)
      | inr fs2 =>
          match OS.write_file fs2 docx (r_docx result) with
          | inl e => reply (ServerError e) [] sess (set_fs w fs2)
          | inr fs3 =>
              let row :=
                {| resume_user_id := cu.1;
                   job_url := url;
                   created_at := persist_datetime (now_utc (clock env));
                   pdf_path := pdf;
                   docx_path := docx;
                   pdf_name := r_pdf_name result;
                   docx_name := r_docx_name result;
                   coverage_json := Some (json_dumps (r_coverage result)) |} in
              let rid := next_id (resumes (db w)) in
              let w := set_fs w fs3 in
              let w := set_db w (set_resumes (db w) (<[rid := row]> (resumes (db w)))) in
              reply (Redirect (ep_result rid)) [] sess w
          end
      end
  end.

Definition tailor_body (env : Env) (req : Request) (sess : Session) (w : World)
    (cu : Z * User) : Outcome :=
  match one_or_none (profiles_by_user cu.1 (profiles (db w))) with
  | inl e => reply (ServerError e) [] sess w
  | inr prof =>
      if profile_incomplete prof
      then reply (Redirect ep_profile) [MSG_PROFILE_INCOMPLETE] sess w
      else
        match prof with
        | None => reply (Redirect ep_profile) [MSG_PROFILE_INCOMPLETE] sess w
        | Some (_, p) =>
            if validate_on_submit req (TailorForm_validate req) then
              let url := Str.strip (Str.or_empty (form req !! "url")) in
              if bool_decide (url = "")
              then reply (RenderTemplate "tailor.html") [MSG_MISSING_URL] sess w
              else
                let pd := profile_dict cu p in
                let w := log_renderer_call w pd url in
                match generate_both pd url (clock env) with
                | inl _ =>
                    reply (RenderTemplate "tailor.html") [MSG_RENDER_FAILED] sess w
                | inr result => store_resume env sess w cu url result
                end
            else reply (RenderTemplate "tailor.html") [] sess w
        end
  end.

Definition tailor (env : Env) (req : Request) (sess : Session) (w : World) : Outcome :=
  login_required (tailor_body env req sess w) sess w.

(** *** [/result/<int:id>] *)

Definition result_body (id : Z) (sess : Session) (w : World) (cu : Z * User) : Outcome :=
  match resumes (db w) !! id with
  | None => reply (Abort 404) [] sess w
  | Some row =>
      if bool_decide (resume_user_id row ≠ cu.1) then reply (Abort 404) [] sess w
      else if negb (json_loads_ok (Str.or_empty
                      (Str.or_else (coverage_json row) (Some "{}"))))
      then reply (ServerError ValueError) [] sess w
      else if negb (urlparse_ok (job_url row))
      then reply (ServerError ValueError) [] sess w
      else reply (RenderTemplate "result.html") [] sess w
  end.

Definition result (id : Z) (sess : Session) (w : World) : Outcome :=
  login_required (result_body id sess w) sess w.

(** *** [/delete/<int:id>] *)

Definition MSG_DELETED : string := "Deleted resume".

(** [try: if p and os.path.exists(p): os.remove(p) / except Exception: pass] *)
Definition try_remove (fs : OS.FS) (p : string) : OS.FS :=
  if negb (bool_decide (p = "")) && OS.exists_ fs p then
    match OS.remove fs p with
    | inr fs' => fs'
    | inl _ => fs
    end
  else fs.

(** The guarded removal of the scratch directory once it is empty. *)
Definition try_rmdir (fs : OS.FS) (pdf : string) : OS.FS :=
  let d := OS.dirname pdf in
  if negb (bool_decide (d = "")) && OS.isdir fs d
     && bool_decide (length (OS.listdir fs d) = 0%nat) then
    match OS.rmdir fs d with
    | inr fs' => fs'
    | inl _ => fs
    end
  else fs.

Definition delete_resume_body (id : Z) (req : Request) (sess : Session) (w : World)
    (cu : Z * User) : Outcome :=
  if negb (validate_on_submit req true) then reply (Abort 400) [] sess w
  else
    match resumes (db w) !! id with
    | None => reply (Abort 404) [] sess w
    | Some row =>
        if bool_decide (resume_user_id row ≠ cu.1) then reply (Abort 404) [] sess w
        else
          let fs1 := foldl try_remove (fs w) [pdf_path row; docx_path row] in
          let fs2 := try_rmdir fs1 (pdf_path row) in
          let w := set_fs w fs2 in
          let w := set_db w (set_resumes (db w) (delete id (resumes (db w)))) in
          reply (Redirect ep_tailor) [MSG_DELETED] sess w
    end.

Definition delete_resume (id : Z) (req : Request) (sess : Session) (w : World) : Outcome :=
  login_required (delete_resume_body id req sess w) sess w.

(** *** [/download/<int:id>/<kind>]

    [send_file] belongs to the web framework; the response records the path
    and the download name the handler passes to it. *)

Definition download_body (id : Z) (kind : string) (sess : Session) (w : World)
    (cu : Z * User) : Outcome :=
  match resumes (db w) !! id with
  | None => reply (Abort 404) [] sess w
  | Some row =>
      if bool_decide (resume_user_id row ≠ cu.1) then reply (Abort 404) [] sess w
      else if bool_decide (kind = "pdf")
      then reply (SendFile (pdf_path row) (pdf_name row)) [] sess w
      else if bool_decide (kind = "docx")
      then reply (SendFile (docx_path row) (docx_name row)) [] sess w
      else reply (Abort 404) [] sess w
  end.

Definition download (id : Z) (kind : string) (sess : Session) (w : World) : Outcome :=
  login_required (download_body id kind sess w) sess w.

(** *** [/] and [/logout] *)

Definition index (sess : Session) (w : World) : Outcome :=
  match current_user sess w with
  | Some _ => reply (Redirect ep_tailor) [] sess w
  | None => reply (Redirect ep_signin) [] sess w
  end.

Definition logout (sess : Session) (w : World) : Outcome :=
  match current_user sess w with
  | Some _ => reply (Redirect ep_signin) [] None w
  | None => reply (Redirect ep_signin) [] sess w
  end.

(** *** The URL map *)

Inductive Route :=
  | r_index
  | r_signin
  | r_verify
  | r_profile
  | r_tailor
  | r_result (id : Z)
  | r_delete_resume (id : Z)
  | r_download (id : Z) (kind : string)
  | r_logout.

(** The methods each rule accepts ([GET] alone unless the route says more). *)
Definition allows (r : Route) (m : Method) : bool :=
  match r, m with
  | (r_signin | r_verify | r_profile | r_tailor), _ => true
  | r_delete_resume _, POST => true
  | r_delete_resume _, GET => false
  | _, GET => true
  | _, POST => false
  end.

(** One request, routed to its handler. *)
Definition dispatch (r : Route) (env : Env) (req : Request)
    (sess : Session) (w : World) : Outcome :=
  if allows r (method req) then
    match r with
    | r_index => index sess w
    | r_signin => signin env req sess w
    | r_verify => verify env req sess w
    | r_profile => profile req sess w
    | r_tailor => tailor env req sess w
    | r_result id => result id sess w
    | r_delete_resume id => delete_resume id req sess w
    | r_download id kind => download id kind sess w
    | r_logout => logout sess w
    end
  else reply (Abort 405) [] sess w.

(** A run of requests against the application, each with the session cookie
    its client presents. *)
Fixpoint run (steps : list (Route * Env * Request * Session)) (w : World) : World :=
  match steps with
  | [] => w
  | (r, env, req, sess) :: rest => run rest (world_after (dispatch r env req sess w))
  end.

(** ** How the outcomes read in the vocabulary of the specification *)

(** [invalid-credential]: back to the sign-in page with the one message that
    does not say why. *)
Definition invalid_credential (o : Outcome) : Prop :=
  response o = Redirect ep_signin ∧ flashed o = [MSG_INVALID_CODE].

(** A successful verification: the session is bound to the account and the
    client is sent on to the profile or the tailor page. *)
Definition logged_in_as (uid : Z) (o : Outcome) : Prop :=
  session_after o = Some uid
  ∧ (response o = Redirect ep_profile ∨ response o = Redirect ep_tailor)
  ∧ flashed o = [].

(** The normalisation both handlers apply to the e-mail they are given. *)
Definition normalize_email (e : string) : string := Str.lower (Str.strip e).

(** A column whose values identify the row. *)
Definition unique_on {A B} (key : A → B) (m : gmap Z A) : Prop :=
  ∀ i j a b, m !! i = Some a → m !! j = Some b → key a = key b → i = j.

(** The [UNIQUE] constraints of the schema: [users.email] and
    [profiles.user_id]. *)
Definition db_wf (d : DB) : Prop :=
  unique_on user_email (users d) ∧ unique_on profile_user_id (profiles d).

(** The decision of [verify] once its query found the account [u]. *)
Definition code_accepted (u : User) (code : string) (clock : Z) : bool :=
  bool_decide (verify_code u = Some code)
  && match verify_expiry u with
     | Some d => clock <=? instant_utc d
     | None => false
     end.

(** What one request can do to the accounts table: nothing, store a code
    and an expiry on an account (a new one when the key is free), or mark an
    account verified. *)
Inductive users_step (m : gmap Z User) : gmap Z User → Prop :=
  | step_unchanged : users_step m m
  | step_issue uid u code expiry :
      m !! uid = Some u ∨ m !! uid = None ∧ verified u = 0 →
      users_step m (<[uid := set_code u (Some code) (Some expiry)]> m)
  | step_verified uid u :
      m !! uid = Some u →
      users_step m (<[uid := mark_verified u]> m).

(** The pairing of the one-time code and its expiry on every account. *)
Definition code_expiry_paired (u : User) : Prop :=
  is_Some (verify_code u) ↔ is_Some (verify_expiry u).

Definition account_invariant (w : World) : Prop :=
  ∀ uid u, users (db w) !! uid = Some u → code_expiry_paired u.

(** [profile-incomplete]: sent to the profile page with the message that the
    full name is required. *)
Definition profile_incomplete_failure (o : Outcome) : Prop :=
  response o = Redirect ep_profile ∧ flashed o = [MSG_PROFILE_INCOMPLETE].

(** [render-failed]: the tailor page again, with the failure message. *)
Definition render_failed (o : Outcome) : Prop :=
  response o = RenderTemplate "tailor.html" ∧ flashed o = [MSG_RENDER_FAILED].

(** [not-found] *)
Definition not_found (o : Outcome) : Prop := response o = Abort 404.

(** ** Sample data for the concrete runs *)

(** A stand-in for the e-mail validator: an at sign somewhere. *)
Fixpoint has_at (s : string) : bool :=
  match s with
  | EmptyString => false
  | String c s' => bool_decide (c = "@"%char) || has_at s'
  end.

(** A renderer that always raises. *)
Definition failing_renderer (_ : ProfileDict) (_ : string) (_ : Z)
    : Exn + RenderResult unit :=
  inl (RendererError 1).

Definition post (fields : gmap string string) : Request :=
  {| method := POST; csrf_ok := true; args := ∅; form := fields |}.

Definition empty_fs : OS.FS := {| OS.nodes := ∅; OS.locked := ∅ |}.

Definition world_of (d : DB) (f : OS.FS) : World :=
  {| db := d; fs := f; stdout := []; renderer_calls := [] |}.

Definition empty_world : World :=
  world_of {| users := ∅; profiles := ∅; resumes := ∅ |} empty_fs.

Definition jane_pending : User :=
  {| user_email := "jane@x.com"; verified := 0;
     verify_code := Some "123456";
     verify_expiry := Some {| wall := 1000; tzinfo := None |} |}.

Definition jane_verified : User :=
  {| user_email := "jane@x.com"; verified := 1;
     verify_code := None; verify_expiry := None |}.

Definition jane_profile (name : string) : Profile :=
  {| profile_user_id := 1; full_name := name;
     city := Some "Oslo"; email := Some "jane@x.com"; phone := Some "555";
     linkedin := Some "https://old.example/jane"; github := None;
     about := Some "Engineer"; gemini_api_key := None |}.

Definition jane_resume : GeneratedResume :=
  {| resume_user_id := 1; job_url := "https://boards.example.com/job/42";
     created_at := {| wall := 5; tzinfo := None |};
     pdf_path := "/tmp/autotailor_a1/Resume_Jane.pdf";
     docx_path := "/tmp/autotailor_a1/Resume_Jane.docx";
     pdf_name := "Resume_Jane.pdf"; docx_name := "Resume_Jane.docx";
     coverage_json := Some "{}" |}.

Definition pending_world : World :=
  world_of {| users := {[ 1 := jane_pending ]}; profiles := ∅; resumes := ∅ |}
           empty_fs.

Definition jane_world (name : string) (f : OS.FS) : World :=
  world_of {| users := {[ 1 := jane_verified ]};
              profiles := {[ 1 := jane_profile name ]};
              resumes := {[ 7 := jane_resume ]} |} f.

(** The PDF is there but cannot be removed; the DOCX is already gone. *)
Definition stuck_fs : OS.FS :=
  {| OS.nodes := {[ "/tmp/autotailor_a1" := OS.Dir;
                    "/tmp/autotailor_a1/Resume_Jane.pdf" := OS.File "%PDF" ]};
     OS.locked := {[ "/tmp/autotailor_a1/Resume_Jane.pdf" ]} |}.

Definition signin_jane : Request := post {[ "email" := " Jane@X.com " ]}.

Definition verify_jane (code : string) : Request :=
  post {[ "email" := "jane@x.com"; "code" := code ]}.

Definition at_time (t : Z) (e : Z) : Env :=
  {| clock := t; entropy := e; tmp_suffix := "a1" |}.

Definition tailor_jane : Request :=
  post {[ "url" := "https://boards.example.com/job/42" ]}.

Definition sample_run : list (Route * Env * Request * Session) :=
  [ (r_signin, at_time 0 42, signin_jane, None);
    (r_verify, at_time 5 0, verify_jane "000042", None);
    (r_signin, at_time 20 7, signin_jane, Some 1);
    (r_logout, at_time 30 0, post ∅, Some 1) ].

Definition save_jane (web : string) : Request :=
  post {[ "full_name" := "Jane Doe"; "email" := "jane@x.com"; "web" := web ]}.

(** A renderer that returns fixed documents under the conventional names. *)
Definition fixed_renderer (_ : ProfileDict) (_ : string) (_ : Z)
    : Exn + RenderResult unit :=
  inr {| r_pdf := "%PDF"; r_docx := "PK";
         r_pdf_name := "Resume_Jane_Doe_boards.example.com_20260101.pdf";
         r_docx_name := "Resume_Jane_Doe_boards.example.com_20260101.docx";
         r_coverage := Some () |}.

(** A decimal digit, and a text made of decimal digits only. *)
Definition is_digit (c : ascii) : bool :=
  let n := N_of_ascii c in ((48 <=? n) && (n <=? 57))%N.

Fixpoint all_digits (s : string) : bool :=
  match s with
  | EmptyString => true
  | String c s' => is_digit c && all_digits s'
  end.

(** The account has a profile whose full name is not blank. *)
Definition has_complete_profile (d : DB) (uid : Z) : Prop :=
  ∃ pid p, profiles d !! pid = Some p ∧ profile_user_id p = uid
           ∧ Str.strip (full_name p) ≠ "".

Global Instance Exn_eq_dec : EqDecision Exn.
Proof. solve_decision. Defined.

(** The exception a request ended in, if it did. *)
Definition raised (o : Outcome) : option Exn :=
  match response o with
  | ServerError e => Some e
  | _ => None
  end.

(** The routes behind [@login_required]. *)
Definition login_protected (r : Route) : bool :=
  match r with
  | r_profile | r_tailor | r_result _ | r_delete_resume _ | r_download _ _ => true
  | _ => false
  end.

(** The routes whose handlers only read. *)
Definition read_only (r : Route) : bool :=
  match r with
  | r_index | r_result _ | r_download _ _ | r_logout => true
  | _ => false
  end.

(** The account owns a record with this id. *)
Definition owns (d : DB) (uid id : Z) : Prop :=
  ∃ row, resumes d !! id = Some row ∧ resume_user_id row = uid.

(** A file name without a slash in it. *)
Fixpoint no_slash (s : string) : bool :=
  match s with
  | EmptyString => true
  | String c s' => negb (OS.is_slash c) && no_slash s'
  end.

(** The scratch directory [tailor] creates when [mkdtemp] draws [suffix]. *)
Definition scratch_dir (suffix : string) : string :=
  "/tmp/" +:+ "autotailor_" +:+ suffix.

(** Every character of the text satisfies [P]. *)
Fixpoint all_chars (P : ascii → bool) (s : string) : bool :=
  match s with
  | EmptyString => true
  | String c s' => P c && all_chars P s'
  end.

(** A text without whitespace. *)
Definition no_space (s : string) : bool :=
  all_chars (λ c, negb (Str.isspace c)) s.

(** Stand-ins for the conversions, the host and the date stamp of the stub
    renderer. *)
Definition sample_pdf (text : string) : Exn + string := inr ("%PDF " +:+ text).
Definition sample_docx (text : string) : Exn + string := inr ("PK " +:+ text).
Definition sample_host (_ : string) : Exn + option string :=
  inr (Some "boards.example.com").
Definition sample_stamp (_ : Z) : string := "20260101".

Definition bob_verified : User :=
  {| user_email := "bob@x.com"; verified := 1;
     verify_code := None; verify_expiry := None |}.

(** Jane with a profile and one record, Bob with neither. *)
Definition two_accounts_world : World :=
  world_of {| users := {[ 1 := jane_verified; 2 := bob_verified ]};
              profiles := {[ 1 := jane_profile "Jane Doe" ]};
              resumes := {[ 7 := jane_resume ]} |} empty_fs.

(** Jane verified, without a profile yet. *)
Definition fresh_jane_world : World :=
  world_of {| users := {[ 1 := jane_verified ]}; profiles := ∅; resumes := ∅ |}
           empty_fs.

(** * Properties *)

(** ** Text *)

Lemma isspace_digit_char d : Str.isspace (Str.digit_char d) = false.
Proof. do 10 (destruct d as [|d]; [reflexivity|]). reflexivity. Qed.

Lemma strip_6 c1 c2 c3 c4 c5 c6 :
  Str.isspace c1 = false → Str.isspace c6 = false →
  let s := String c1 (String c2 (String c3 (String c4 (String c5 (String c6 ""))))) in
  Str.strip s = s.
Proof.
  intros H1 H6 s. unfold s, Str.strip, Str.rstrip. cbn [Str.lstrip]. rewrite H1.
  unfold String.rev. cbn [String.rev_app Str.lstrip]. rewrite H6. reflexivity.
Qed.

Lemma format_06d_shape n :
  ∃ c1 c2 c3 c4 c5 c6,
    Str.format_06d n
    = String c1 (String c2 (String c3 (String c4 (String c5 (String c6 "")))))
    ∧ Str.isspace c1 = false ∧ Str.isspace c6 = false.
Proof.
  unfold Str.format_06d. cbn [Str.digits].
  do 6 eexists. split; [reflexivity|]. split; apply isspace_digit_char.
Qed.

Lemma strip_format_06d n : Str.strip (Str.format_06d n) = Str.format_06d n.
Proof.
  destruct (format_06d_shape n) as (c1&c2&c3&c4&c5&c6&->&H1&H6).
  by apply strip_6.
Qed.

Lemma len_format_06d n : Str.len (Str.format_06d n) = 6.
Proof. destruct (format_06d_shape n) as (c1&c2&c3&c4&c5&c6&->&_). reflexivity. Qed.

Lemma format_06d_nonempty n : Str.format_06d n ≠ "".
Proof. destruct (format_06d_shape n) as (c1&c2&c3&c4&c5&c6&->&_). done. Qed.

(** The draw [signin] makes is always in the six-digit range. *)
Lemma randint_range e : 0 ≤ randint 0 999999 e ≤ 999999.
Proof. unfold randint. pose proof (Z.mod_pos_bound e (999999 - 0 + 1)). lia. Qed.

Lemma digit_char_inj d1 d2 :
  (d1 < 10)%nat → (d2 < 10)%nat → Str.digit_char d1 = Str.digit_char d2 → d1 = d2.
Proof.
  intros H1 H2.
  do 10 (destruct d1 as [|d1]; [do 10 (destruct d2 as [|d2]; [done|]); lia|]).
  lia.
Qed.

Lemma digit_mod_inj a b :
  Str.digit_char (Z.to_nat (a mod 10)) = Str.digit_char (Z.to_nat (b mod 10)) →
  a mod 10 = b mod 10.
Proof.
  intros H. pose proof (Z.mod_pos_bound a 10). pose proof (Z.mod_pos_bound b 10).
  apply digit_char_inj in H; lia.
Qed.

(** Distinct draws print as distinct codes. *)
Lemma format_06d_inj a b :
  0 ≤ a < 1000000 → 0 ≤ b < 1000000 →
  Str.format_06d a = Str.format_06d b → a = b.
Proof.
  intros Ha Hb H. unfold Str.format_06d in H. cbn [Str.digits] in H.
  injection H as H5 H4 H3 H2 H1 H0.
  apply digit_mod_inj in H0, H1, H2, H3, H4, H5.
  Z.to_euclidean_division_equations. lia.
Qed.

(** X24: the zero-padded six-digit print of a draw loses nothing: two
    sign-in draws print as different codes exactly when the drawn numbers
    differ. *)
Lemma issued_codes_differ_iff e1 e2 :
  Str.format_06d (randint 0 999999 e1) ≠ Str.format_06d (randint 0 999999 e2)
  ↔ randint 0 999999 e1 ≠ randint 0 999999 e2.
Proof.
  pose proof (randint_range e1). pose proof (randint_range e2).
  split; intros Hne Heq; apply Hne; [by rewrite Heq|].
  apply format_06d_inj; [lia..|done].
Qed.

(** ** Queries over a uniquely keyed column *)

Lemma next_id_fresh {A} (m : gmap Z A) : m !! next_id m = None.
Proof.
  destruct (m !! next_id m) as [a|] eqn:E; [|done]. exfalso.
  apply elem_of_map_to_list in E.
  assert (Hin : next_id m ∈ (map_to_list m).*1).
  { apply list_elem_of_fmap. by exists (next_id m, a). }
  assert (Hle : ∀ (l : list Z) k, k ∈ l → k ≤ foldr Z.max 0 l).
  { clear. induction l as [|x l IH]; intros k Hk.
    - by apply elem_of_nil in Hk.
    - apply elem_of_cons in Hk as [->|Hk]; cbn; [lia|].
      specialize (IH _ Hk). lia. }
  apply Hle in Hin. unfold next_id in Hin. lia.
Qed.

Section Select.
Context {A B : Type} `{EqDecision B} (key : A → B).

Lemma select_unique (m : gmap Z A) i a :
  unique_on key m → m !! i = Some a →
  map_to_list (filter (λ kv : Z * A, key kv.2 = key a) m) = [(i, a)].
Proof.
  intros Hu Hi.
  assert (filter (λ kv : Z * A, key kv.2 = key a) m = {[ i := a ]}) as ->.
  { apply map_eq. intros j. destruct (decide (i = j)) as [<-|Hne].
    - rewrite lookup_singleton_eq. by apply map_lookup_filter_Some.
    - rewrite lookup_singleton_ne by done. apply map_lookup_filter_None.
      destruct (m !! j) as [b|] eqn:Hj; [right|by left].
      intros b' [= <-] Hk. cbn in Hk. apply Hne. symmetry. eauto. }
  apply map_to_list_singleton.
Qed.

Lemma select_none (m : gmap Z A) b :
  (∀ i a, m !! i = Some a → key a ≠ b) →
  map_to_list (filter (λ kv : Z * A, key kv.2 = b) m) = [].
Proof.
  intros Hn. apply map_to_list_empty_iff, map_eq. intros j.
  rewrite lookup_empty. apply map_lookup_filter_None.
  destruct (m !! j) as [a|] eqn:Hj; [right|by left].
  intros a' [= <-]. cbn. eauto.
Qed.

(** Over a uniquely keyed column [one_or_none] never raises: it yields the
    row with the key, or none when no row has it. *)
Lemma select_cases (m : gmap Z A) b :
  unique_on key m →
  (one_or_none (map_to_list (filter (λ kv : Z * A, key kv.2 = b) m)) = inr None
   ∧ ∀ i a, m !! i = Some a → key a ≠ b)
  ∨ ∃ i a, m !! i = Some a ∧ key a = b
      ∧ one_or_none (map_to_list (filter (λ kv : Z * A, key kv.2 = b) m))
        = inr (Some (i, a)).
Proof.
  intros Hu.
  destruct (decide (Exists (λ ia : Z * A, key ia.2 = b) (map_to_list m)))
    as [Hex|Hno].
  - right. apply Exists_exists in Hex as ([i a] & Hin & Hk). cbn in Hk.
    apply elem_of_map_to_list in Hin. exists i, a. split_and!; [done..|].
    subst b. by rewrite (select_unique m i a).
  - left. assert (Hn : ∀ i a, m !! i = Some a → key a ≠ b).
    { intros i a Hi Hk. apply Hno, Exists_exists. exists (i, a).
      split; [|done]. by apply elem_of_map_to_list. }
    split; [|done]. by rewrite select_none.
Qed.

Lemma unique_on_insert (m : gmap Z A) i a :
  unique_on key m →
  (∀ j b, m !! j = Some b → key b = key a → j = i) →
  unique_on key (<[i := a]> m).
Proof.
  intros Hu Hi j k x y Hj Hk Hxy.
  destruct (decide (j = i)) as [->|Hji], (decide (k = i)) as [->|Hki];
    simplify_map_eq; eauto.
  symmetry. eauto.
Qed.

Lemma unique_on_empty : unique_on key (∅ : gmap Z A).
Proof. intros i j a b Hi. by rewrite lookup_empty in Hi. Qed.

Lemma unique_on_singleton i a : unique_on key ({[ i := a ]} : gmap Z A).
Proof.
  intros j k x y Hj Hk _.
  apply lookup_singleton_Some in Hj as [<- _].
  by apply lookup_singleton_Some in Hk as [<- _].
Qed.

End Select.

(** ** Sign-in and verification *)

Lemma lookup_after_upsert {A B} `{EqDecision B} (key : A → B) (m : gmap Z A) i a :
  unique_on key m →
  (∀ j b, m !! j = Some b → key b = key a → j = i) →
  unique_on key (<[i := a]> m)
  ∧ one_or_none (map_to_list (filter (λ kv : Z * A, key kv.2 = key a) (<[i := a]> m)))
    = inr (Some (i, a)).
Proof.
  intros Hu Hi. pose proof (unique_on_insert key m i a Hu Hi) as Hu'.
  split; [done|]. rewrite (select_unique key _ i a); [done|done|].
  apply lookup_insert_eq.
Qed.

(** The row [signin] writes for a valid request: the account with the
    normalised e-mail, created when missing, with a fresh code and expiry. *)
Lemma signin_valid env req sess w :
  db_wf (db w) →
  validate_on_submit req (SigninForm_validate req) = true →
  let e := normalize_email (Str.or_empty (form req !! "email")) in
  let code := Str.format_06d (randint 0 999999 (entropy env)) in
  let expiry := persist_datetime (add (now_utc (clock env)) (timedelta_minutes 10)) in
  ∃ uid u,
    user_email u = e
    ∧ (∀ j b, users (db w) !! j = Some b → user_email b = e → j = uid)
    ∧ (users (db w) !! uid = Some u
       ∨ users (db w) !! uid = None ∧ verified u = 0)
    ∧ signin env req sess w
      = reply (Redirect (ep_verify e)) [] sess
          (print (set_db w (set_users (db w)
                    (<[uid := set_code u (Some code) (Some expiry)]> (users (db w)))))
                 ("[DEV] Verification code: " +:+ code)).
Proof.
  intros [Hu _] Hv e code expiry. unfold signin. rewrite Hv.
  fold (normalize_email (Str.or_empty (form req !! "email"))). fold e.
  unfold users_by_email.
  destruct (select_cases user_email (users (db w)) e Hu)
    as [[-> Hnone]|(i & a & Hi & Ha & ->)].
  - exists (next_id (users (db w))),
      {| user_email := e; verified := 0; verify_code := None; verify_expiry := None |}.
    split_and!; [reflexivity| |right|reflexivity].
    + intros j b Hj Hb. by destruct (Hnone j b Hj).
    + split; [apply next_id_fresh|reflexivity].
  - exists i, a. split_and!; [done| |by left|reflexivity].
    intros j b Hj Hb. apply (Hu j i b a); congruence.
Qed.

Lemma ge_expiry_now (d : datetime) clock :
  ge (match tzinfo d with None => replace_tzinfo d utc | Some _ => d end)
     (now_utc clock)
  = Some (clock <=? instant_utc d).
Proof.
  unfold ge, instant_utc, now_utc, replace_tzinfo, utc.
  destruct d as [wl [off|]]; cbn; f_equal; f_equal; lia.
Qed.

Lemma verify_valid env req sess w :
  db_wf (db w) →
  validate_on_submit req (VerifyForm_validate req) = true →
  let e := normalize_email (Str.or_empty (verify_email_field req)) in
  let code := Str.strip (Str.or_empty (form req !! "code")) in
  let o := verify env req sess w in
  (invalid_credential o ∧ world_after o = w ∧ session_after o = sess
   ∧ ∀ uid u, users (db w) !! uid = Some u → user_email u = e →
       code_accepted u code (clock env) = false)
  ∨ ∃ uid u,
      users (db w) !! uid = Some u ∧ user_email u = e
      ∧ code_accepted u code (clock env) = true
      ∧ logged_in_as uid o
      ∧ world_after o
        = set_db w (set_users (db w) (<[uid := mark_verified u]> (users (db w)))).
Proof.
  intros [Hu Hp] Hv e code o. unfold o, verify. rewrite Hv.
  fold (normalize_email (Str.or_empty (verify_email_field req))). fold e. fold code.
  unfold users_by_email.
  destruct (select_cases user_email (users (db w)) e Hu)
    as [[-> Hnone]|(i & a & Hi & Ha & ->)].
  - left. split_and!; [done..|]. intros uid u Hl He. by destruct (Hnone uid u Hl).
  - assert (Hsame : ∀ uid u, users (db w) !! uid = Some u → user_email u = e → u = a).
    { intros uid u Hl He. assert (uid = i) by (apply (Hu uid i u a); congruence).
      congruence. }
    unfold code_accepted.
    destruct (bool_decide (verify_code a = Some code)) eqn:Hc.
    2:{ left. split_and!; [done..|]. intros uid u Hl He.
        rewrite (Hsame uid u Hl He), Hc. done. }
    destruct (verify_expiry a) as [d|] eqn:Hd.
    2:{ left. split_and!; [done..|]. intros uid u Hl He.
        rewrite (Hsame uid u Hl He), Hc, Hd. done. }
    assert (Hge : ge (match tzinfo d with None => replace_tzinfo d utc | Some _ => d end)
                     (now_utc (clock env)) = Some (clock env <=? instant_utc d))
      by apply ge_expiry_now.
    pose proof (select_cases profile_user_id (profiles (db w)) i Hp) as Hq.
    destruct (tzinfo d) eqn:Htz; rewrite Hge.
    all: destruct (clock env <=? instant_utc d) eqn:Hle.
    all: try (left; split_and!; [done..|]; intros uid u Hl He;
              rewrite (Hsame uid u Hl He), Hc, Hd, Hle; done).
    all: right; exists i, a; rewrite Hc, Hd, Hle.
    all: cbn [db set_db profiles set_users]; unfold profiles_by_user.
    all: destruct Hq as [[-> _]|(pi & pa & _ & _ & ->)].
    all: try destruct (profile_incomplete (Some (pi, pa))).
    all: unfold logged_in_as; cbn; split_and!; auto.
Qed.

(** After a valid sign-in request the one account with the normalised
    e-mail holds the code that was printed and its expiry, and the unique
    constraints still hold. *)
Lemma signin_issues env req sess w :
  db_wf (db w) →
  validate_on_submit req (SigninForm_validate req) = true →
  let e := normalize_email (Str.or_empty (form req !! "email")) in
  let code := Str.format_06d (randint 0 999999 (entropy env)) in
  let expiry := persist_datetime (add (now_utc (clock env)) (timedelta_minutes 10)) in
  let w' := world_after (signin env req sess w) in
  db_wf (db w')
  ∧ profiles (db w') = profiles (db w)
  ∧ resumes (db w') = resumes (db w)
  ∧ stdout w' = stdout w ++ ["[DEV] Verification code: " +:+ code]
  ∧ ∃ uid u',
      users (db w') !! uid = Some u'
      ∧ user_email u' = e
      ∧ verify_code u' = Some code
      ∧ verify_expiry u' = Some expiry
      ∧ ∀ j b, users (db w') !! j = Some b → user_email b = e → j = uid.
Proof.
  intros Hwf Hv e code expiry w'.
  destruct (signin_valid env req sess w Hwf Hv) as (uid & u & He & Huniq & _ & Heq).
  fold e code expiry in He, Huniq, Heq. unfold w'. rewrite Heq. cbn.
  destruct Hwf as [Hu Hp].
  set (u' := set_code u (Some code) (Some expiry)).
  assert (He' : user_email u' = e) by done.
  destruct (lookup_after_upsert user_email (users (db w)) uid u' Hu) as [Hu' _].
  { intros j b Hj Hb. apply (Huniq j b Hj). congruence. }
  split_and!; [by split|done..|].
  exists uid, u'. split_and!; [apply lookup_insert_eq|done..|].
  intros j b Hj Hb. apply (Hu' j uid b u'); [done|apply lookup_insert_eq|congruence].
Qed.

(** The expiry [signin] stores denotes the instant ten minutes after the
    request, whichever way the backend hands timestamps back. *)
Lemma persisted_expiry_instant clock :
  instant_utc (persist_datetime (add (now_utc clock) (timedelta_minutes 10)))
  = clock + 600000000.
Proof.
  unfold persist_datetime, instant_utc, add, now_utc, timedelta_minutes, utc.
  destruct tz_aware_backend; cbn; lia.
Qed.

Lemma mark_verified_wf w uid u :
  db_wf (db w) → users (db w) !! uid = Some u →
  db_wf (db (set_db w (set_users (db w) (<[uid := mark_verified u]> (users (db w)))))).
Proof.
  intros [Hu Hp] Hl. split; [|done]. cbn.
  apply unique_on_insert; [done|]. intros j b Hj Hb.
  apply (Hu j uid b u); done.
Qed.

Lemma invalid_not_logged_in uid o : invalid_credential o → logged_in_as uid o → False.
Proof. intros [Hr _] (_ & [Hr'|Hr'] & _); congruence. Qed.

(** C1 (amended): after two valid sign-in requests for the same e-mail, a
    verification request that submits the first code is answered
    invalid-credential and changes nothing, provided the second code drawn
    differs from the first. *)
Theorem second_request_code_invalidates_first
    env1 env2 env3 req vreq sess1 sess2 sess3 w :
  db_wf (db w) →
  validate_on_submit req (SigninForm_validate req) = true →
  validate_on_submit vreq (VerifyForm_validate vreq) = true →
  normalize_email (Str.or_empty (verify_email_field vreq))
  = normalize_email (Str.or_empty (form req !! "email")) →
  let first_code := Str.format_06d (randint 0 999999 (entropy env1)) in
  let second_code := Str.format_06d (randint 0 999999 (entropy env2)) in
  Str.strip (Str.or_empty (form vreq !! "code")) = first_code →
  first_code ≠ second_code →
  let w1 := world_after (signin env1 req sess1 w) in
  let w2 := world_after (signin env2 req sess2 w1) in
  let o := verify env3 vreq sess3 w2 in
  invalid_credential o ∧ world_after o = w2 ∧ session_after o = sess3.
Proof.
  intros Hwf Hv Hvv He first_code second_code Hc Hne w1 w2 o.
  destruct (signin_issues env1 req sess1 w Hwf Hv) as (Hwf1 & _).
  destruct (signin_issues env2 req sess2 w1 Hwf1 Hv)
    as (Hwf2 & _ & _ & _ & uid & u' & Hl & Hmail & Hcode & _ & Huniq).
  fold w1 in Hwf1. fold w2 in Hwf2, Hl, Huniq. fold second_code in Hcode.
  destruct (verify_valid env3 vreq sess3 w2 Hwf2 Hvv)
    as [(Hinv & Hw & Hs & _)|(uid' & u & Hl' & Hmail' & Hacc & _)]; [done|].
  exfalso. rewrite He in Hmail'. rewrite Hc in Hacc.
  assert (uid' = uid) as -> by eauto.
  assert (u = u') as -> by congruence.
  unfold code_accepted in Hacc. rewrite Hcode in Hacc.
  rewrite bool_decide_eq_false_2 in Hacc; [done|congruence].
Qed.

(** C2: with the stored code submitted, verification succeeds exactly when
    the clock has not passed the stored expiry, a stored expiry without
    zone information being read as UTC; past it the answer is
    invalid-credential and nothing changes. *)
Theorem verify_succeeds_until_expiry env req sess w uid u d :
  db_wf (db w) →
  validate_on_submit req (VerifyForm_validate req) = true →
  users (db w) !! uid = Some u →
  user_email u = normalize_email (Str.or_empty (verify_email_field req)) →
  verify_code u = Some (Str.strip (Str.or_empty (form req !! "code"))) →
  verify_expiry u = Some d →
  let o := verify env req sess w in
  (logged_in_as uid o ↔ clock env ≤ instant_utc d)
  ∧ (invalid_credential o ∧ world_after o = w ↔ instant_utc d < clock env).
Proof.
  intros Hwf Hv Hl Hmail Hcode Hd o.
  assert (Hacc : code_accepted u (Str.strip (Str.or_empty (form req !! "code")))
                   (clock env) = bool_decide (clock env ≤ instant_utc d)).
  { unfold code_accepted. rewrite Hcode, Hd, bool_decide_eq_true_2 by done.
    cbn. destruct (Z.leb_spec (clock env) (instant_utc d)).
    - by rewrite bool_decide_eq_true_2.
    - rewrite bool_decide_eq_false_2; [done|lia]. }
  destruct (verify_valid env req sess w Hwf Hv)
    as [(Hinv & Hw & _ & Hno)|(uid' & u0 & Hl' & Hmail' & Hyes & Hin & _)].
  - specialize (Hno uid u Hl Hmail). rewrite Hacc in Hno.
    apply bool_decide_eq_false in Hno. split; split; try done; try lia.
    intros Hin. destruct (invalid_not_logged_in uid o Hinv Hin).
  - destruct Hwf as [Hu _].
    assert (uid' = uid) as -> by (apply (Hu uid' uid u0 u); congruence).
    assert (u0 = u) as -> by congruence.
    rewrite Hacc in Hyes. apply bool_decide_eq_true in Hyes.
    split; split; try done; try lia.
    intros [Hinv _]. destruct (invalid_not_logged_in uid o Hinv Hin).
Qed.

(** C3: a verification request either fails, leaving the world and the
    session untouched (and, when the form validates, answering
    invalid-credential whatever the reason), or succeeds, and then the
    account is verified with code and expiry both cleared, so that the same
    request repeated at any later time fails. *)
Theorem verify_atomic_and_single_use env req sess w :
  db_wf (db w) →
  let o := verify env req sess w in
  (world_after o = w ∧ session_after o = sess
   ∧ (validate_on_submit req (VerifyForm_validate req) = true → invalid_credential o))
  ∨ ∃ uid u,
      users (db w) !! uid = Some u
      ∧ logged_in_as uid o
      ∧ users (db (world_after o))
        = <[uid := {| user_email := user_email u; verified := 1;
                      verify_code := None; verify_expiry := None |}]> (users (db w))
      ∧ profiles (db (world_after o)) = profiles (db w)
      ∧ resumes (db (world_after o)) = resumes (db w)
      ∧ ∀ env' sess',
          let o' := verify env' req sess' (world_after o) in
          invalid_credential o' ∧ world_after o' = world_after o
          ∧ session_after o' = sess'.
Proof.
  intros Hwf o.
  destruct (validate_on_submit req (VerifyForm_validate req)) eqn:Hv.
  2:{ left. subst o. unfold verify. rewrite Hv. by split_and!. }
  destruct (verify_valid env req sess w Hwf Hv)
    as [(Hinv & Hw & Hs & _)|(uid & u & Hl & Hmail & _ & Hin & Hw)];
    subst o; [by left|right].
  exists uid, u. split_and!; [done..|by rewrite Hw|by rewrite Hw|by rewrite Hw|].
  intros env' sess' o'.
  set (w' := world_after (verify env req sess w)) in *.
  pose proof (mark_verified_wf w uid u Hwf Hl) as Hwf'. rewrite <- Hw in Hwf'.
  destruct (verify_valid env' req sess' w' Hwf' Hv)
    as [(Hinv' & Hw' & Hs' & _)|(uid' & u' & Hl' & Hmail' & Hacc & _)];
    [done|exfalso].
  destruct Hwf' as [Hu' _].
  assert (Hl2 : users (db w') !! uid = Some (mark_verified u)).
  { rewrite Hw. apply lookup_insert_eq. }
  assert (uid' = uid) as ->.
  { apply (Hu' uid' uid u' (mark_verified u)); [done..|]. by rewrite Hmail'. }
  assert (u' = mark_verified u) as -> by congruence.
  unfold code_accepted in Hacc. by cbn in Hacc.
Qed.

(** X3: the code a sign-in request issues is good for ten minutes, on either
    kind of backend: submitted for the same e-mail it signs the client in up
    to and including the instant of expiry, and is refused after it. *)
Lemma issued_code_lifetime env env' req vreq sess sess' w :
  db_wf (db w) →
  validate_on_submit req (SigninForm_validate req) = true →
  validate_on_submit vreq (VerifyForm_validate vreq) = true →
  normalize_email (Str.or_empty (verify_email_field vreq))
  = normalize_email (Str.or_empty (form req !! "email")) →
  Str.strip (Str.or_empty (form vreq !! "code"))
  = Str.format_06d (randint 0 999999 (entropy env)) →
  let o := verify env' vreq sess' (world_after (signin env req sess w)) in
  ((∃ uid, logged_in_as uid o) ↔ clock env' ≤ clock env + 600000000)
  ∧ (invalid_credential o ↔ clock env + 600000000 < clock env').
Proof.
  intros Hwf Hv Hvv Hmail Hcode o.
  destruct (signin_issues env req sess w Hwf Hv)
    as (Hwf1 & _ & _ & _ & uid & u' & Hl & He & Hc & Hx & Huniq).
  set (w1 := world_after (signin env req sess w)) in *.
  assert (Hacc : code_accepted u' (Str.strip (Str.or_empty (form vreq !! "code")))
                   (clock env') = (clock env' <=? clock env + 600000000)).
  { unfold code_accepted. rewrite Hc, Hx, Hcode, bool_decide_eq_true_2 by done.
    cbn. by rewrite persisted_expiry_instant. }
  destruct (verify_valid env' vreq sess' w1 Hwf1 Hvv)
    as [(Hinv & _ & _ & Hno)|(uid' & u & Hl' & Hmail' & Hyes & Hin & _)].
  - rewrite Hmail in Hno. specialize (Hno uid u' Hl He). rewrite Hacc in Hno.
    apply Z.leb_gt in Hno. split; split; try done; try lia.
    intros [i Hin]. destruct (invalid_not_logged_in i o Hinv Hin).
  - rewrite Hmail in Hmail'. assert (uid' = uid) as -> by eauto.
    assert (u = u') as -> by congruence.
    rewrite Hacc in Hyes. apply Z.leb_le in Hyes.
    split; split; try done; try lia; [by exists uid|].
    intros Hinv. destruct (invalid_not_logged_in uid o Hinv Hin).
Qed.

(** ** What a request can do to the accounts table *)

Lemma one_or_none_lookup {A} (P : Z * A → Prop) `{∀ x, Decision (P x)}
    (m : gmap Z A) i a :
  one_or_none (map_to_list (filter P m)) = inr (Some (i, a)) → m !! i = Some a.
Proof.
  intros Hq. destruct (map_to_list (filter P m)) as [|r [|r' l]] eqn:Hl;
    simplify_eq/=.
  assert (Hin : (i, a) ∈ map_to_list (filter P m)) by (rewrite Hl; set_solver).
  apply elem_of_map_to_list, map_lookup_filter_Some in Hin. tauto.
Qed.

Lemma signin_users_step env req sess w :
  users_step (users (db w)) (users (db (world_after (signin env req sess w)))).
Proof.
  unfold signin. destruct (validate_on_submit _ _); [|constructor].
  destruct (one_or_none _) as [e|[[i a]|]] eqn:Hq; cbn; [constructor|..].
  - apply step_issue. left. by apply one_or_none_lookup in Hq.
  - apply step_issue. right. split; [apply next_id_fresh|done].
Qed.

Lemma verify_users_step env req sess w :
  users_step (users (db w)) (users (db (world_after (verify env req sess w)))).
Proof.
  unfold verify. destruct (validate_on_submit _ _); [|constructor].
  destruct (one_or_none (users_by_email _ _)) as [e|[[i a]|]] eqn:Hq; cbn;
    [constructor| |constructor].
  apply one_or_none_lookup in Hq.
  repeat case_match; cbn; first [by apply step_verified|apply step_unchanged].
Qed.

Lemma store_resume_users env sess w cu url result :
  users (db (world_after (store_resume env sess w cu url result))) = users (db w).
Proof. unfold store_resume. by repeat case_match. Qed.

(** Only [signin] and [verify] write to the accounts table. *)
Lemma dispatch_users_step r env req sess w :
  users_step (users (db w)) (users (db (world_after (dispatch r env req sess w)))).
Proof.
  unfold dispatch. destruct (allows r (method req)); [|constructor].
  destruct r; auto using signin_users_step, verify_users_step.
  all: unfold index, profile, tailor, result, delete_resume, download, logout,
         login_required, profile_body, tailor_body, result_body,
         delete_resume_body, download_body.
  all: repeat case_match; cbn; rewrite ?store_resume_users; constructor.
Qed.

Lemma run_users_ind (P : gmap Z User → Prop) :
  (∀ m m', users_step m m' → P m → P m') →
  ∀ steps w, P (users (db w)) → P (users (db (run steps w))).
Proof.
  intros Hstep steps. induction steps as [|[[[r env] req] sess] rest IH];
    intros w Hw; [done|]. cbn. apply IH.
  eapply Hstep; [apply dispatch_users_step|done].
Qed.

(** ** The pairing of code and expiry *)

Lemma users_step_rows m m' uid u' :
  users_step m m' → m' !! uid = Some u' →
  m !! uid = Some u'
  ∨ is_Some (verify_code u') ∧ is_Some (verify_expiry u')
  ∨ verify_code u' = None ∧ verify_expiry u' = None.
Proof.
  intros Hs Hl. destruct Hs as [|uid0 u code expiry _|uid0 u _]; [by left|..];
    (destruct (decide (uid0 = uid)) as [->|Hne];
     [rewrite lookup_insert_eq in Hl; simplify_eq; right
     |rewrite lookup_insert_ne in Hl by done; by left]).
  - left. cbn. eauto.
  - right. done.
Qed.

(** C8: every request keeps the one-time code and its expiry paired on every
    account, over any run of requests; any account row a request writes has
    both set or both null; a valid sign-in request sets both on the account
    it addresses and a successful verification clears both. *)
Theorem code_and_expiry_stay_paired steps r env req sess w :
  account_invariant w →
  account_invariant (run steps w)
  ∧ (let w' := world_after (dispatch r env req sess w) in
     account_invariant w'
     ∧ ∀ uid u', users (db w') !! uid = Some u' →
         users (db w) !! uid = Some u'
         ∨ is_Some (verify_code u') ∧ is_Some (verify_expiry u')
         ∨ verify_code u' = None ∧ verify_expiry u' = None)
  ∧ (db_wf (db w) → validate_on_submit req (SigninForm_validate req) = true →
     ∃ uid u', users (db (world_after (signin env req sess w))) !! uid = Some u'
       ∧ user_email u' = normalize_email (Str.or_empty (form req !! "email"))
       ∧ is_Some (verify_code u') ∧ is_Some (verify_expiry u'))
  ∧ (db_wf (db w) → validate_on_submit req (VerifyForm_validate req) = true →
     ∀ uid, logged_in_as uid (verify env req sess w) →
     ∃ u', users (db (world_after (verify env req sess w))) !! uid = Some u'
       ∧ verify_code u' = None ∧ verify_expiry u' = None).
Proof.
  intros Hinv.
  assert (Hpres : ∀ m m', users_step m m' →
            (∀ uid u, m !! uid = Some u → code_expiry_paired u) →
            (∀ uid u, m' !! uid = Some u → code_expiry_paired u)).
  { intros m m' Hs Hm uid u Hl.
    destruct (users_step_rows m m' uid u Hs Hl) as [Hold|[[Hc He]|[Hc He]]];
      [by eapply Hm|done|].
    unfold code_expiry_paired. rewrite Hc, He. done. }
  split_and!.
  - unfold account_invariant.
    by apply (run_users_ind
      (λ m, ∀ uid u, m !! uid = Some u → code_expiry_paired u)).
  - intros w'. split.
    + unfold account_invariant. eapply Hpres; [apply dispatch_users_step|done].
    + intros uid u'. apply users_step_rows, dispatch_users_step.
  - intros Hwf Hv.
    destruct (signin_issues env req sess w Hwf Hv)
      as (_ & _ & _ & _ & uid & u' & Hl & Hm & Hc & He & _).
    exists uid, u'. rewrite Hc, He. eauto.
  - intros Hwf Hv uid Hin.
    destruct (verify_valid env req sess w Hwf Hv)
      as [(Hbad & _)|(uid' & u & Hl & _ & _ & Hin' & Hw)].
    { destruct (invalid_not_logged_in uid _ Hbad Hin). }
    assert (uid' = uid) as ->.
    { destruct Hin as [Hs _], Hin' as [Hs' _]. congruence. }
    exists (mark_verified u). rewrite Hw. cbn. by rewrite lookup_insert_eq.
Qed.

(** ** The verified flag *)

Lemma users_step_verified m m' uid u :
  users_step m m' → m !! uid = Some u →
  ∃ u', m' !! uid = Some u' ∧ user_email u' = user_email u
        ∧ (verified u = 1 → verified u' = 1).
Proof.
  intros Hs Hl. destruct Hs as [|uid0 u0 code expiry Hor|uid0 u0 Hl0]; [eauto|..];
    (destruct (decide (uid0 = uid)) as [->|Hne];
     [rewrite lookup_insert_eq|rewrite lookup_insert_ne by done; eauto]).
  - destruct Hor as [Hl0|[Hl0 _]]; [|congruence].
    assert (u0 = u) as -> by congruence. eexists; split_and!; done.
  - assert (u0 = u) as -> by congruence. eexists; split_and!; done.
Qed.

(** C10: an account whose verified flag is set keeps it set, and keeps its
    e-mail, over any run of requests; in particular a valid sign-in request
    for a verified account stores a fresh code and expiry on it and leaves
    the flag as it was. *)
Theorem verified_flag_is_never_reset steps env req sess w uid u :
  users (db w) !! uid = Some u →
  verified u = 1 →
  (∃ u', users (db (run steps w)) !! uid = Some u'
         ∧ verified u' = 1 ∧ user_email u' = user_email u)
  ∧ (db_wf (db w) →
     validate_on_submit req (SigninForm_validate req) = true →
     user_email u = normalize_email (Str.or_empty (form req !! "email")) →
     users (db (world_after (signin env req sess w))) !! uid
     = Some {| user_email := user_email u;
               verified := 1;
               verify_code :=
                 Some (Str.format_06d (randint 0 999999 (entropy env)));
               verify_expiry :=
                 Some (persist_datetime
                         (add (now_utc (clock env)) (timedelta_minutes 10))) |}).
Proof.
  intros Hl Hv. split.
  - pose proof (run_users_ind
      (λ m, ∃ u', m !! uid = Some u' ∧ verified u' = 1
                  ∧ user_email u' = user_email u)) as Hrun.
    apply Hrun; [|by exists u].
    intros m m' Hs (u1 & Hl1 & Hv1 & He1).
    destruct (users_step_verified m m' uid u1 Hs Hl1) as (u2 & Hl2 & He2 & Hv2).
    exists u2. split_and!; [done|auto|congruence].
  - intros Hwf Hvalid Hmail.
    destruct (signin_valid env req sess w Hwf Hvalid)
      as (uid' & u0 & He & Huniq & Hor & ->).
    assert (uid = uid') as <- by eauto.
    assert (u0 = u) as -> by (destruct Hor as [?|[? _]]; congruence).
    cbn. rewrite lookup_insert_eq. unfold set_code. by rewrite Hv.
Qed.

(** ** Generation *)

(** C4: when the account has no profile, or only one whose full name is
    blank once trimmed, [tailor] answers profile-incomplete whatever the
    request and the other profile fields are, and the world is left as it
    was: the renderer is not called, no row is added, no file is written. *)
Theorem generate_requires_full_name env req sess w uid u :
  db_wf (db w) →
  current_user sess w = Some (uid, u) →
  (∀ pid p, profiles (db w) !! pid = Some p → profile_user_id p = uid →
     Str.strip (full_name p) = "") →
  let o := tailor env req sess w in
  profile_incomplete_failure o
  ∧ world_after o = w
  ∧ renderer_calls (world_after o) = renderer_calls w
  ∧ resumes (db (world_after o)) = resumes (db w)
  ∧ fs (world_after o) = fs w.
Proof.
  intros [_ Hp] Hcu Hblank o. subst o.
  unfold tailor, login_required. rewrite Hcu. unfold tailor_body, profiles_by_user.
  cbn [fst].
  destruct (select_cases profile_user_id (profiles (db w)) uid Hp)
    as [[-> _]|(pid & p & Hl & Hk & ->)]; cbn [profile_incomplete].
  - by split_and!.
  - rewrite bool_decide_eq_true_2 by eauto. by split_and!.
Qed.

Lemma DataRequired_strip data :
  DataRequired data = true → Str.strip (Str.or_empty data) ≠ "".
Proof.
  destruct data as [s|]; cbn; [|done].
  intros H%negb_true_iff. by apply bool_decide_eq_false in H.
Qed.

(** C5: when the renderer raises on the snapshot and the URL of a valid
    generation request, [tailor] answers render-failed and neither the
    database nor the file system changes: no row and no artifact file is
    created. *)
Theorem renderer_failure_leaves_no_trace env req sess w uid u pid p e :
  db_wf (db w) →
  current_user sess w = Some (uid, u) →
  profiles (db w) !! pid = Some p →
  profile_user_id p = uid →
  Str.strip (full_name p) ≠ "" →
  validate_on_submit req (TailorForm_validate req) = true →
  generate_both (profile_dict (uid, u) p)
    (Str.strip (Str.or_empty (form req !! "url"))) (clock env) = inl e →
  let o := tailor env req sess w in
  render_failed o
  ∧ db (world_after o) = db w
  ∧ fs (world_after o) = fs w
  ∧ session_after o = sess.
Proof.
  intros [_ Hp] Hcu Hl Hk Hname Hv Hgen o. subst o.
  unfold tailor, login_required. rewrite Hcu. unfold tailor_body, profiles_by_user.
  cbn [fst]. subst uid.
  rewrite (select_unique profile_user_id (profiles (db w)) pid p Hp Hl).
  cbn [one_or_none profile_incomplete].
  rewrite bool_decide_eq_false_2 by done. rewrite Hv.
  assert (Hurl : Str.strip (Str.or_empty (form req !! "url")) ≠ "").
  { apply DataRequired_strip. unfold validate_on_submit, TailorForm_validate in Hv.
    apply andb_prop in Hv as [_ Hf]. by apply andb_prop in Hf as [Hd _]. }
  rewrite bool_decide_eq_false_2 by done. rewrite Hgen. by split_and!.
Qed.

(** ** Deletion and download *)

(** C6: deleting an owned record removes its metadata row and answers with
    the success redirect whatever the state of the file system is: files
    already missing, or files and directories whose removal raises, never
    change the outcome. *)
Theorem delete_removes_record_despite_files id req sess w uid u row :
  validate_on_submit req true = true →
  current_user sess w = Some (uid, u) →
  resumes (db w) !! id = Some row →
  resume_user_id row = uid →
  let o := delete_resume id req sess w in
  response o = Redirect ep_tailor
  ∧ flashed o = [MSG_DELETED]
  ∧ resumes (db (world_after o)) = delete id (resumes (db w))
  ∧ resumes (db (world_after o)) !! id = None
  ∧ users (db (world_after o)) = users (db w)
  ∧ profiles (db (world_after o)) = profiles (db w)
  ∧ session_after o = sess.
Proof.
  intros Hv Hcu Hl Hown o. subst o.
  unfold delete_resume, login_required. rewrite Hcu.
  unfold delete_resume_body. rewrite Hv, Hl. cbn [negb fst].
  rewrite bool_decide_eq_false_2 by (intros Hne; by apply Hne).
  cbn. split_and!; try done. apply lookup_delete_eq.
Qed.

(** C7: for a signed-in account, [download] answers not-found exactly when
    the id names no record, or the record belongs to another account, or the
    kind is neither [pdf] nor [docx]; otherwise it sends the stored path
    under the stored download name of that kind.  Nothing changes. *)
Theorem download_not_found_iff id kind sess w uid u :
  current_user sess w = Some (uid, u) →
  let o := download id kind sess w in
  (not_found o ↔
     resumes (db w) !! id = None
     ∨ (∃ row, resumes (db w) !! id = Some row ∧ resume_user_id row ≠ uid)
     ∨ (kind ≠ "pdf" ∧ kind ≠ "docx"))
  ∧ (∀ row, resumes (db w) !! id = Some row → resume_user_id row = uid →
       (kind = "pdf" → response o = SendFile (pdf_path row) (pdf_name row))
       ∧ (kind = "docx" → response o = SendFile (docx_path row) (docx_name row)))
  ∧ world_after o = w
  ∧ session_after o = sess.
Proof using Type.
  clear. intros Hcu o. subst o. unfold download, login_required, not_found.
  rewrite Hcu. unfold download_body. cbn [fst].
  destruct (resumes (db w) !! id) as [row|] eqn:Hl.
  2:{ split_and!; [|done..]. split; [by left|done]. }
  destruct (decide (resume_user_id row = uid)) as [Hown|Hother].
  2:{ rewrite bool_decide_eq_true_2 by done. split_and!; [|naive_solver|done..].
      split; [|done]. intros _. right. left. by exists row. }
  rewrite bool_decide_eq_false_2 by (intros Hne; by apply Hne).
  destruct (decide (kind = "pdf")) as [->|Hpdf].
  { rewrite bool_decide_eq_true_2 by done. cbn.
    split_and!; [|naive_solver|done..]. split; [done|].
    intros [?|[(r & ? & ?)|[? _]]]; simplify_eq. }
  rewrite (bool_decide_eq_false_2 (kind = "pdf")) by done.
  destruct (decide (kind = "docx")) as [->|Hdocx].
  { rewrite bool_decide_eq_true_2 by done. cbn.
    split_and!; [|naive_solver|done..]. split; [done|].
    intros [?|[(r & ? & ?)|[_ ?]]]; simplify_eq. }
  rewrite bool_decide_eq_false_2 by done. cbn.
  split_and!; [|naive_solver|done..]. split; [|done]. intros _. by right; right.
Qed.

(** ** The unique constraints are kept *)

Lemma store_resume_tables env sess w cu url result :
  users (db (world_after (store_resume env sess w cu url result))) = users (db w)
  ∧ profiles (db (world_after (store_resume env sess w cu url result)))
    = profiles (db w).
Proof. unfold store_resume. by repeat case_match. Qed.

Lemma profile_wf req sess w :
  db_wf (db w) → db_wf (db (world_after (profile req sess w))).
Proof.
  intros [Hu Hp]. unfold profile, login_required.
  destruct (current_user sess w) as [[uid u]|]; [|done].
  unfold profile_body, profiles_by_user. cbn [fst].
  destruct (select_cases profile_user_id (profiles (db w)) uid Hp)
    as [[-> Hnone]|(pid & p & Hl & Hk & ->)];
    (destruct (validate_on_submit _ _); [|done]); cbn; (split; [done|]);
    apply unique_on_insert; try done.
  - intros j b Hj Hb. by destruct (Hnone j b Hj).
  - intros j b Hj Hb. apply (Hp j pid b p); [done..|]. by rewrite Hb.
Qed.

(** Every request keeps [users.email] and [profiles.user_id] unique, so the
    constraints hold in every world reached from the empty database. *)
Lemma dispatch_wf r env req sess w :
  db_wf (db w) → db_wf (db (world_after (dispatch r env req sess w))).
Proof.
  intros Hwf. unfold dispatch. destruct (allows r (method req)); [|done].
  destruct r.
  - unfold index. by case_match.
  - destruct (validate_on_submit req (SigninForm_validate req)) eqn:Hv.
    + by destruct (signin_issues env req sess w Hwf Hv) as [? _].
    + unfold signin. by rewrite Hv.
  - destruct (validate_on_submit req (VerifyForm_validate req)) eqn:Hv.
    + destruct (verify_valid env req sess w Hwf Hv)
        as [(_ & -> & _)|(uid & u & Hl & _ & _ & _ & ->)]; [done|].
      by apply mark_verified_wf.
    + unfold verify. by rewrite Hv.
  - by apply profile_wf.
  - destruct Hwf as [Hu Hp]. unfold tailor, login_required, tailor_body.
    repeat case_match; cbn; try done.
    split; [rewrite (proj1 (store_resume_tables _ _ _ _ _ _))
           |rewrite (proj2 (store_resume_tables _ _ _ _ _ _))]; done.
  - unfold result, login_required, result_body. by repeat case_match.
  - unfold delete_resume, login_required, delete_resume_body. by repeat case_match.
  - unfold download, login_required, download_body. by repeat case_match.
  - unfold logout. by case_match.
Qed.

Lemma run_wf steps w : db_wf (db w) → db_wf (db (run steps w)).
Proof.
  revert w. induction steps as [|[[[r env] req] sess] rest IH]; intros w Hwf;
    [done|]. cbn. by apply IH, dispatch_wf.
Qed.

(** ** Saving the profile *)

(** What a successful save writes: one profile row of the account, with
    [github] null.  When the account had no profile the row takes the
    submitted web link, trimmed; when it had one, the handler has replaced
    every field of the form by the stored column before it validates and
    reads them, so the row takes the stored [linkedin], or else the stored
    [github], trimmed. *)
Lemma profile_save_link_fields req sess w uid u :
  db_wf (db w) →
  current_user sess w = Some (uid, u) →
  let o := profile req sess w in
  response o = Redirect ep_tailor →
  flashed o = [MSG_SAVED]
  ∧ ∃ pid row,
      profiles (db (world_after o)) = <[pid := row]> (profiles (db w))
      ∧ profile_user_id row = uid
      ∧ github row = None
      ∧ ((profiles (db w) !! pid = None
          ∧ linkedin row = Some (Str.strip (Str.or_empty (form req !! "web"))))
         ∨ ∃ old, profiles (db w) !! pid = Some old
             ∧ linkedin row
               = Some (Str.strip (Str.or_empty
                         (Str.or_else (linkedin old) (github old))))).
Proof.
  intros [_ Hp] Hcu o. subst o. unfold profile, login_required. rewrite Hcu.
  unfold profile_body, profiles_by_user. cbn [fst].
  destruct (select_cases profile_user_id (profiles (db w)) uid Hp)
    as [[-> _]|(pid & p & Hl & Hk & ->)].
  - destruct (validate_on_submit _ _); [|done]. intros _. split; [done|].
    eexists _, _. split_and!; [reflexivity..|]. left.
    split; [apply next_id_fresh|done].
  - destruct (validate_on_submit _ _); [|done]. intros _. split; [done|].
    eexists _, _. split_and!; [reflexivity|done|reflexivity|]. right.
    exists p. by split.
Qed.

(** ** More on text: trimming and case folding *)

Lemma rev_app_snoc v c acc :
  String.rev_app (v +:+ String c "") acc = String c (String.rev_app v acc).
Proof.
  revert acc. induction v as [|a v IH]; intros acc; [reflexivity|].
  change (String a v +:+ String c "") with (String a (v +:+ String c "")).
  cbn [String.rev_app]. by rewrite IH.
Qed.

Lemma rev_app_rev s acc : String.rev (String.rev_app s acc) = String.rev_app acc s.
Proof.
  revert acc. induction s as [|c s IH]; intros acc; [reflexivity|].
  cbn [String.rev_app]. by rewrite IH.
Qed.

Lemma rev_involutive s : String.rev (String.rev s) = s.
Proof. unfold String.rev at 2. by rewrite rev_app_rev. Qed.

Lemma rev_app_ends_with t v c :
  ∃ v', String.rev_app t (v +:+ String c "") = v' +:+ String c "".
Proof.
  revert v. induction t as [|a t IH]; intros v; [by exists v|].
  cbn [String.rev_app].
  change (String a (v +:+ String c "")) with (String a v +:+ String c "").
  apply IH.
Qed.

Lemma lstrip_idem s : Str.lstrip (Str.lstrip s) = Str.lstrip s.
Proof.
  induction s as [|c s IH]; [reflexivity|]. cbn [Str.lstrip].
  destruct (Str.isspace c) eqn:Hc; [done|]. cbn [Str.lstrip]. by rewrite Hc.
Qed.

Lemma lstrip_head s :
  Str.lstrip s = ""
  ∨ ∃ c t, Str.lstrip s = String c t ∧ Str.isspace c = false.
Proof.
  induction s as [|c s IH]; [by left|]. cbn [Str.lstrip].
  destruct (Str.isspace c) eqn:Hc; [done|]. right. by exists c, s.
Qed.

Lemma lstrip_ends_with v c :
  Str.isspace c = false →
  ∃ v', Str.lstrip (v +:+ String c "") = v' +:+ String c "".
Proof.
  intros Hc. induction v as [|a v IH].
  - exists "". change ("" +:+ String c "") with (String c "").
    cbn [Str.lstrip]. by rewrite Hc.
  - change (String a v +:+ String c "") with (String a (v +:+ String c "")).
    cbn [Str.lstrip]. destruct (Str.isspace a); [done|]. by exists (String a v).
Qed.

Lemma rstrip_head c t :
  Str.isspace c = false → ∃ t', Str.rstrip (String c t) = String c t'.
Proof.
  intros Hc. unfold Str.rstrip, String.rev at 2. cbn [String.rev_app].
  destruct (rev_app_ends_with t "" c) as [v Hv].
  change ("" +:+ String c "") with (String c "") in Hv. rewrite Hv.
  destruct (lstrip_ends_with v c Hc) as [v' ->].
  unfold String.rev. rewrite rev_app_snoc. by eexists.
Qed.

Lemma rstrip_idem s : Str.rstrip (Str.rstrip s) = Str.rstrip s.
Proof. unfold Str.rstrip. by rewrite rev_involutive, lstrip_idem. Qed.

(** Trimming twice is trimming once. *)
Lemma strip_idem s : Str.strip (Str.strip s) = Str.strip s.
Proof.
  unfold Str.strip. destruct (lstrip_head s) as [->|(c & t & -> & Hc)];
    [reflexivity|].
  destruct (rstrip_head c t Hc) as [t' Ht]. rewrite Ht.
  cbn [Str.lstrip]. rewrite Hc, <- Ht. apply rstrip_idem.
Qed.

Lemma isspace_lower_char c : Str.isspace (Str.lower_char c) = Str.isspace c.
Proof. by destruct c as [[] [] [] [] [] [] [] []]. Qed.

Lemma lower_char_idem c : Str.lower_char (Str.lower_char c) = Str.lower_char c.
Proof. by destruct c as [[] [] [] [] [] [] [] []]. Qed.

Lemma lower_idem s : Str.lower (Str.lower s) = Str.lower s.
Proof. induction s as [|c s IH]; [done|]. cbn. by rewrite lower_char_idem, IH. Qed.

Lemma lstrip_lower s : Str.lstrip (Str.lower s) = Str.lower (Str.lstrip s).
Proof.
  induction s as [|c s IH]; [done|]. cbn [Str.lower Str.lstrip].
  rewrite isspace_lower_char. by destruct (Str.isspace c).
Qed.

Lemma rev_app_lower s acc :
  String.rev_app (Str.lower s) (Str.lower acc) = Str.lower (String.rev_app s acc).
Proof.
  revert acc. induction s as [|c s IH]; intros acc; [done|].
  cbn [Str.lower String.rev_app]. by rewrite <- IH.
Qed.

Lemma strip_lower s : Str.strip (Str.lower s) = Str.lower (Str.strip s).
Proof.
  assert (Hrev : ∀ t, String.rev (Str.lower t) = Str.lower (String.rev t)).
  { intros t. unfold String.rev. by rewrite <- rev_app_lower. }
  unfold Str.strip, Str.rstrip. by rewrite lstrip_lower, Hrev, lstrip_lower, Hrev.
Qed.

(** Normalising a normalised e-mail changes nothing. *)
Lemma normalize_email_idem e :
  normalize_email (normalize_email e) = normalize_email e.
Proof.
  unfold normalize_email. by rewrite strip_lower, lower_idem, strip_idem.
Qed.

(** ** More on sign-in and verification *)

Lemma is_digit_digit_char d : is_digit (Str.digit_char d) = true.
Proof. do 10 (destruct d as [|d]; [reflexivity|]). reflexivity. Qed.

Lemma all_digits_format_06d n : all_digits (Str.format_06d n) = true.
Proof.
  unfold Str.format_06d. cbn [Str.digits all_digits].
  by rewrite !is_digit_digit_char.
Qed.

(** X1: a valid sign-in request writes the one account with the normalised
    e-mail and nothing else: every other account row, the profiles, the
    records, the files and the session stay as they were; an account is
    added, unverified and under a free key, exactly when none had that
    e-mail, and an existing account keeps its key and its verified flag. *)
Theorem signin_touches_one_account env req sess w :
  db_wf (db w) →
  validate_on_submit req (SigninForm_validate req) = true →
  let e := normalize_email (Str.or_empty (form req !! "email")) in
  let o := signin env req sess w in
  let w' := world_after o in
  response o = Redirect (ep_verify e)
  ∧ session_after o = sess
  ∧ profiles (db w') = profiles (db w)
  ∧ resumes (db w') = resumes (db w)
  ∧ fs w' = fs w
  ∧ renderer_calls w' = renderer_calls w
  ∧ (∀ j b, user_email b ≠ e →
       users (db w') !! j = Some b ↔ users (db w) !! j = Some b)
  ∧ ((∃ j b, users (db w) !! j = Some b ∧ user_email b = e
             ∧ ∃ b', users (db w') !! j = Some b'
                     ∧ verified b' = verified b ∧ user_email b' = e
                     ∧ dom (users (db w')) = dom (users (db w)))
     ∨ ((∀ j b, users (db w) !! j = Some b → user_email b ≠ e)
        ∧ ∃ j b', users (db w) !! j = None
                  ∧ users (db w') !! j = Some b'
                  ∧ verified b' = 0 ∧ user_email b' = e
                  ∧ size (users (db w')) = S (size (users (db w))))).
Proof.
  intros Hwf Hv e o w'.
  destruct (signin_valid env req sess w Hwf Hv)
    as (uid & u & He & Huniq & Hor & Heq).
  subst w' o. rewrite Heq. cbn. fold e in He, Huniq |- *.
  split_and!; try done.
  - intros j b Hb. destruct (decide (j = uid)) as [->|Hne].
    + rewrite lookup_insert_eq. split.
      * intros [= <-]. by destruct Hb.
      * intros Hl. exfalso. apply Hb. destruct Hor as [Hu|[Hu _]]; congruence.
    + by rewrite lookup_insert_ne.
  - destruct Hor as [Hu|[Hu Hver]].
    + left. exists uid, u. split_and!; [done..|].
      eexists. rewrite lookup_insert_eq. split_and!; [done..|].
      rewrite dom_insert_L. apply elem_of_dom_2 in Hu.
      apply subseteq_union_1_L. by apply singleton_subseteq_l.
    + right. split.
      * intros j b Hj Hb. assert (j = uid) as -> by eauto. congruence.
      * exists uid. eexists. rewrite lookup_insert_eq.
        split_and!; [done..|]. by apply map_size_insert_None.
Qed.

(** X2: the code a valid sign-in request issues is six decimal digits: it
    is the text printed on the console and stored on the account, trimming
    leaves it as it is, and it passes the validators of the verification
    form's code field. *)
Theorem issued_code_is_six_digits env req sess w :
  db_wf (db w) →
  validate_on_submit req (SigninForm_validate req) = true →
  let w' := world_after (signin env req sess w) in
  ∃ code uid u',
    stdout w' = stdout w ++ ["[DEV] Verification code: " +:+ code]
    ∧ users (db w') !! uid = Some u'
    ∧ user_email u' = normalize_email (Str.or_empty (form req !! "email"))
    ∧ verify_code u' = Some code
    ∧ String.length code = 6%nat
    ∧ all_digits code = true
    ∧ Str.strip code = code
    ∧ DataRequired (Some code) && Length 6 (Some 6) (Some code) = true.
Proof.
  intros Hwf Hv w'.
  destruct (signin_issues env req sess w Hwf Hv)
    as (_ & _ & _ & Hout & uid & u' & Hl & He & Hc & _).
  eexists _, uid, u'. split_and!; [exact Hout|done..| | | |].
  - pose proof (len_format_06d (randint 0 999999 (entropy env))) as Hlen.
    unfold Str.len in Hlen. lia.
  - apply all_digits_format_06d.
  - apply strip_format_06d.
  - unfold DataRequired, Length, Str.or_empty. cbn [default].
    unfold id. rewrite strip_format_06d, len_format_06d.
    rewrite bool_decide_eq_false_2 by apply format_06d_nonempty. reflexivity.
Qed.

(** X4: the address a valid sign-in request puts in its redirect is already
    normal, so that posting it back to the verification form addresses the
    account the code was issued for. *)
Theorem signin_redirect_email_is_normal env req sess w :
  db_wf (db w) →
  validate_on_submit req (SigninForm_validate req) = true →
  ∃ e uid u',
    response (signin env req sess w) = Redirect (ep_verify e)
    ∧ normalize_email e = e
    ∧ users (db (world_after (signin env req sess w))) !! uid = Some u'
    ∧ user_email u' = normalize_email e
    ∧ verify_code u'
      = Some (Str.format_06d (randint 0 999999 (entropy env))).
Proof.
  intros Hwf Hv.
  destruct (signin_issues env req sess w Hwf Hv)
    as (_ & _ & _ & _ & uid & u' & Hl & He & Hc & _).
  destruct (signin_valid env req sess w Hwf Hv) as (? & ? & _ & _ & _ & Heq).
  eexists _, uid, u'. split_and!; [by rewrite Heq| |done| |done].
  - apply normalize_email_idem.
  - by rewrite normalize_email_idem.
Qed.

Lemma one_or_none_raises {A} (rows : list (Z * A)) e :
  one_or_none rows = inl e → e = MultipleResultsFound.
Proof. destruct rows as [|r [|r' rows]]; cbn; congruence. Qed.

(** X5: the stored-timestamp coercion does its job: whatever the accounts
    table holds, aware or naive expiries alike, [verify] never ends in the
    [TypeError] of comparing a naive with an aware [datetime]; the one
    exception it can end in is the query finding several rows. *)
Theorem verify_never_raises_type_error env req sess w :
  raised (verify env req sess w) = None
  ∨ raised (verify env req sess w) = Some MultipleResultsFound.
Proof.
  unfold verify. destruct (validate_on_submit _ _); [|by left].
  destruct (one_or_none (users_by_email _ _)) as [e|[[uid u]|]] eqn:Hq;
    [right|..|by left].
  { apply one_or_none_raises in Hq. by subst e. }
  destruct (bool_decide (verify_code u = _)); [|by left].
  destruct (verify_expiry u) as [d|]; [|by left].
  pose proof (ge_expiry_now d (clock env)) as Hge.
  destruct (tzinfo d); rewrite Hge;
    (destruct (clock env <=? instant_utc d); [|by left]);
    cbn [db set_db profiles set_users];
    (destruct (one_or_none (profiles_by_user _ _)) as [e|prof] eqn:Hp;
     [right; apply one_or_none_raises in Hp; by subst e
     |left; by destruct (profile_incomplete prof)]).
Qed.

(** ** The gate in front of generation *)

Lemma TailorForm_url req :
  validate_on_submit req (TailorForm_validate req) = true →
  Str.strip (Str.or_empty (form req !! "url")) ≠ "".
Proof.
  intros Hv. apply DataRequired_strip.
  unfold validate_on_submit, TailorForm_validate in Hv.
  apply andb_prop in Hv as [_ Hf]. by apply andb_prop in Hf as [Hd _].
Qed.

(** What [tailor] does for an account whose profile is complete. *)
Lemma tailor_with_profile env req sess w uid u pid p :
  db_wf (db w) →
  current_user sess w = Some (uid, u) →
  profiles (db w) !! pid = Some p →
  profile_user_id p = uid →
  Str.strip (full_name p) ≠ "" →
  tailor env req sess w
  = if validate_on_submit req (TailorForm_validate req) then
      let url := Str.strip (Str.or_empty (form req !! "url")) in
      let w1 := log_renderer_call w (profile_dict (uid, u) p) url in
      match generate_both (profile_dict (uid, u) p) url (clock env) with
      | inl _ => reply (RenderTemplate "tailor.html") [MSG_RENDER_FAILED] sess w1
      | inr result => store_resume env sess w1 (uid, u) url result
      end
    else reply (RenderTemplate "tailor.html") [] sess w.
Proof.
  intros [_ Hp] Hcu Hl Hk Hname.
  unfold tailor, login_required. rewrite Hcu. unfold tailor_body, profiles_by_user.
  cbn [fst]. subst uid.
  rewrite (select_unique profile_user_id (profiles (db w)) pid p Hp Hl).
  cbn [one_or_none profile_incomplete].
  rewrite bool_decide_eq_false_2 by done.
  destruct (validate_on_submit req (TailorForm_validate req)) eqn:Hv; [|done].
  by rewrite bool_decide_eq_false_2 by by apply TailorForm_url.
Qed.

Lemma store_resume_response env sess w cu url result :
  (∃ rid, response (store_resume env sess w cu url result) = Redirect (ep_result rid))
  ∨ ∃ p, response (store_resume env sess w cu url result) = ServerError (OSError p).
Proof.
  unfold store_resume, OS.mkdtemp, OS.write_file.
  repeat case_match; simplify_eq; cbn; eauto.
Qed.

Lemma complete_or_not d uid :
  unique_on profile_user_id (profiles d) →
  has_complete_profile d uid
  ∨ ∀ pid p, profiles d !! pid = Some p → profile_user_id p = uid →
      Str.strip (full_name p) = "".
Proof.
  intros Hp.
  destruct (select_cases profile_user_id (profiles d) uid Hp)
    as [[_ Hnone]|(pid & p & Hl & Hk & _)].
  - right. intros pid p Hl Hk. by destruct (Hnone pid p Hl).
  - destruct (decide (Str.strip (full_name p) = "")) as [Hb|Hb].
    + right. intros pid' p' Hl' Hk'.
      assert (pid' = pid) as -> by (apply (Hp pid' pid p' p); congruence).
      congruence.
    + left. by exists pid, p.
Qed.

Lemma tailor_without_profile env req sess w uid u :
  db_wf (db w) →
  current_user sess w = Some (uid, u) →
  (∀ pid p, profiles (db w) !! pid = Some p → profile_user_id p = uid →
     Str.strip (full_name p) = "") →
  tailor env req sess w
  = reply (Redirect ep_profile) [MSG_PROFILE_INCOMPLETE] sess w.
Proof.
  intros [_ Hp] Hcu Hblank.
  unfold tailor, login_required. rewrite Hcu. unfold tailor_body, profiles_by_user.
  cbn [fst].
  destruct (select_cases profile_user_id (profiles (db w)) uid Hp)
    as [[-> _]|(pid & p & Hl & Hk & ->)]; cbn [profile_incomplete]; [done|].
  by rewrite bool_decide_eq_true_2 by eauto.
Qed.

(** X6: for a signed-in account [tailor] answers profile-incomplete exactly
    when the account has no profile with a non-blank full name; with such a
    profile it goes on to render the page, to generate, or to fail on the
    file system, and never sends the client back to the profile page. *)
Theorem tailor_gate_iff env req sess w uid u :
  db_wf (db w) →
  current_user sess w = Some (uid, u) →
  let o := tailor env req sess w in
  (profile_incomplete_failure o ↔
     ∀ pid p, profiles (db w) !! pid = Some p → profile_user_id p = uid →
       Str.strip (full_name p) = "")
  ∧ (response o = Redirect ep_profile ↔ profile_incomplete_failure o).
Proof.
  intros Hwf Hcu o.
  assert (Hno : has_complete_profile (db w) uid → response o ≠ Redirect ep_profile).
  { intros (pid & p & Hl & Hk & Hname). subst o.
    rewrite (tailor_with_profile env req sess w uid u pid p) by done.
    destruct (validate_on_submit _ _); [|done]. cbn zeta.
    destruct (generate_both _ _ _) as [e|res]; [done|].
    by destruct (store_resume_response env sess
                   (log_renderer_call w (profile_dict (uid, u) p)
                      (Str.strip (Str.or_empty (form req !! "url"))))
                   (uid, u) (Str.strip (Str.or_empty (form req !! "url"))) res)
      as [[rid ->]|[q ->]]. }
  destruct (complete_or_not (db w) uid (proj2 Hwf)) as [Hc|Hb].
  - specialize (Hno Hc). destruct Hc as (pid & p & Hl & Hk & Hname).
    split; split; try (by intros [Hr _]); try done.
    intros Hall. destruct Hname. eauto.
  - pose proof (tailor_without_profile env req sess w uid u Hwf Hcu Hb) as Heq.
    subst o. rewrite Heq. by split; split.
Qed.

Lemma profile_incomplete_spec d uid prof :
  unique_on profile_user_id (profiles d) →
  one_or_none (profiles_by_user uid (profiles d)) = inr prof →
  if profile_incomplete prof
  then ∀ pid p, profiles d !! pid = Some p → profile_user_id p = uid →
         Str.strip (full_name p) = ""
  else has_complete_profile d uid.
Proof.
  intros Hp Hq. unfold profiles_by_user in Hq.
  destruct (select_cases profile_user_id (profiles d) uid Hp)
    as [[Hn Hnone]|(pid & p & Hl & Hk & Hs)].
  - rewrite Hn in Hq. injection Hq as <-. cbn.
    intros pid p Hl Hk. by destruct (Hnone pid p Hl).
  - rewrite Hs in Hq. injection Hq as <-. cbn. case_bool_decide as Hb.
    + intros pid' p' Hl' Hk'.
      assert (pid' = pid) as -> by (apply (Hp pid' pid p' p); congruence).
      congruence.
    + by exists pid, p.
Qed.

Lemma verify_success_response env req sess w uid :
  db_wf (db w) →
  validate_on_submit req (VerifyForm_validate req) = true →
  logged_in_as uid (verify env req sess w) →
  (has_complete_profile (db w) uid
   ∧ response (verify env req sess w) = Redirect ep_tailor)
  ∨ ((∀ pid p, profiles (db w) !! pid = Some p → profile_user_id p = uid →
        Str.strip (full_name p) = "")
     ∧ response (verify env req sess w) = Redirect ep_profile).
Proof.
  intros [Hu Hp] Hv. unfold verify. rewrite Hv. unfold users_by_email.
  destruct (select_cases user_email (users (db w))
              (Str.lower (Str.strip (Str.or_empty (verify_email_field req)))) Hu)
    as [[-> _]|(i & a & _ & _ & ->)].
  { intros (_ & [?|?] & _); done. }
  destruct (bool_decide (verify_code a = _)); [|intros (_ & [?|?] & _); done].
  destruct (verify_expiry a) as [d|]; [|intros (_ & [?|?] & _); done].
  pose proof (ge_expiry_now d (clock env)) as Hge.
  destruct (tzinfo d); rewrite Hge;
    (destruct (clock env <=? instant_utc d); [|intros (_ & [?|?] & _); done]);
    cbn [db set_db profiles set_users];
    (destruct (one_or_none (profiles_by_user i (profiles (db w))))
       as [e|prof] eqn:Hq; [intros (_ & [?|?] & _); done|]);
    pose proof (profile_incomplete_spec (db w) i prof Hp Hq) as Hspec;
    (destruct (profile_incomplete prof); intros ([= <-] & _); [by right|by left]).
Qed.

(** X7: a successful verification sends the client to the tailor page
    exactly when the account has a profile with a non-blank full name, and
    to the profile page otherwise; so the page it is sent to is the one a
    following [tailor] request in the new session would not turn away
    from. *)
Theorem verify_routes_by_profile env req sess w uid env' req' :
  db_wf (db w) →
  validate_on_submit req (VerifyForm_validate req) = true →
  let o := verify env req sess w in
  logged_in_as uid o →
  let o' := tailor env' req' (session_after o) (world_after o) in
  (response o = Redirect ep_tailor ↔ has_complete_profile (db w) uid)
  ∧ (response o = Redirect ep_profile ↔ profile_incomplete_failure o')
  ∧ (response o = Redirect ep_tailor → response o' ≠ Redirect ep_profile).
Proof.
  intros Hwf Hv o Hin o'.
  destruct (verify_valid env req sess w Hwf Hv)
    as [(Hbad & _)|(uid' & u & Hl & _ & _ & Hin' & Hw)].
  { destruct (invalid_not_logged_in uid _ Hbad Hin). }
  assert (uid' = uid) as ->.
  { destruct Hin as [Hs _], Hin' as [Hs' _]. fold o in Hs'. congruence. }
  pose proof (mark_verified_wf w uid u Hwf Hl) as Hwf'. rewrite <- Hw in Hwf'.
  assert (Hcu : current_user (session_after o) (world_after o)
                = Some (uid, mark_verified u)).
  { destruct Hin as [-> _]. subst o. rewrite Hw. unfold current_user. cbn.
    by rewrite lookup_insert_eq. }
  assert (Hprof : profiles (db (world_after o)) = profiles (db w)).
  { subst o. by rewrite Hw. }
  destruct (verify_success_response env req sess w uid Hwf Hv Hin)
    as [[Hc Hr]|[Hb Hr]]; fold o in Hr.
  - destruct Hc as (pid & p & Hlp & Hk & Hname).
    assert (Hno : response o' ≠ Redirect ep_profile).
    { subst o'. rewrite <- Hprof in Hlp.
      rewrite (tailor_with_profile env' req' _ _ uid (mark_verified u) pid p)
        by done.
      destruct (validate_on_submit req' _); [|done]. cbn zeta.
      destruct (generate_both _ _ _) as [e|res]; [done|].
      match goal with |- response (store_resume ?a ?b ?c ?d ?e ?f) ≠ _ =>
        by destruct (store_resume_response a b c d e f) as [[rid ->]|[q ->]]
      end. }
    rewrite Hr. split_and!; [|split; [done|]|done].
    + split; [|done]. intros _. by exists pid, p.
    + intros [Hbad _]. by destruct Hno.
  - rewrite <- Hprof in Hb.
    pose proof (tailor_without_profile env' req' (session_after o)
                  (world_after o) uid _ Hwf' Hcu Hb) as Heq.
    fold o' in Heq. rewrite Hr, Heq. split_and!; [|done|done].
    split; [done|]. intros (pid & p & Hlp & Hk & Hname).
    rewrite <- Hprof in Hlp. destruct Hname. eauto.
Qed.

(** ** Errors and sessions *)


(** X9: without a session that resolves to an account, every route behind
    [@login_required] (the profile page, generation, the result page,
    deletion and download) answers with the redirect to the sign-in page and
    its message, and changes nothing. *)
Theorem protected_routes_require_login r env req sess w :
  current_user sess w = None →
  login_protected r = true →
  allows r (method req) = true →
  dispatch r env req sess w = reply (Redirect ep_signin) [LOGIN_MESSAGE] sess w.
Proof.
  intros Hcu Hr Ha. unfold dispatch. rewrite Ha.
  destruct r; try done;
    unfold profile, tailor, result, delete_resume, download, login_required;
    by rewrite Hcu.
Qed.

(** X10: after [logout] the session resolves to no account, whatever it
    held before, and the world is as it was; the index page then leads to
    sign-in, as it leads to the tailor page for a signed-in account. *)
Theorem logout_ends_the_session sess w :
  let o := logout sess w in
  current_user (session_after o) (world_after o) = None
  ∧ world_after o = w
  ∧ response o = Redirect ep_signin
  ∧ response (index (session_after o) (world_after o)) = Redirect ep_signin
  ∧ (response (index sess w) = Redirect ep_tailor ↔ is_Some (current_user sess w)).
Proof.
  unfold logout, index.
  destruct (current_user sess w) as [cu|] eqn:Hcu;
    cbn [session_after world_after response reply]; rewrite ?Hcu;
    split_and!; try done; split; try done; by intros [? ?].
Qed.

(** X11: the pages that only read never change the world: the index, the
    result page, download and logout leave database, files, console and
    renderer log as they were, and so does any request with a method its
    route does not accept, which is answered 405. *)
Theorem reading_routes_change_nothing r env req sess w :
  read_only r = true ∨ allows r (method req) = false →
  world_after (dispatch r env req sess w) = w
  ∧ (allows r (method req) = false →
     dispatch r env req sess w = reply (Abort 405) [] sess w).
Proof.
  intros Hr. unfold dispatch. split; [|by intros ->].
  destruct (allows r (method req)); [|done].
  destruct Hr as [Hr|Hr]; [|done].
  destruct r; try done;
    unfold index, result, download, logout, login_required, result_body,
      download_body; by repeat case_match.
Qed.

(** ** The lifecycle of a record *)

(** X12: the result page, download and deletion apply one and the same
    ownership rule: for a signed-in account (and, for deletion, a request
    carrying the CSRF token) each answers not-found exactly when the account
    does not own a record with that id. *)
Theorem ownership_rule_is_shared id kind req sess w uid u :
  current_user sess w = Some (uid, u) →
  validate_on_submit req true = true →
  kind = "pdf" ∨ kind = "docx" →
  (not_found (result id sess w) ↔ ¬ owns (db w) uid id)
  ∧ (not_found (download id kind sess w) ↔ ¬ owns (db w) uid id)
  ∧ (not_found (delete_resume id req sess w) ↔ ¬ owns (db w) uid id).
Proof.
  intros Hcu Hv Hkind.
  unfold result, download, delete_resume, login_required, not_found, owns.
  rewrite Hcu. unfold result_body, download_body, delete_resume_body.
  rewrite Hv. cbn [negb fst].
  destruct (resumes (db w) !! id) as [row|] eqn:Hl.
  2:{ split_and!; (split; [intros _ (row & ? & _); done|done]). }
  destruct (decide (resume_user_id row = uid)) as [Hown|Hother].
  - rewrite bool_decide_eq_false_2 by (intros Hne; by apply Hne).
    assert (Hyes : ∃ row0, Some row = Some row0 ∧ resume_user_id row0 = uid)
      by by exists row.
    split_and!; (split; [|by intros Hno; destruct Hno]).
    + by repeat case_match.
    + by destruct Hkind as [-> | ->].
    + done.
  - rewrite bool_decide_eq_true_2 by done.
    split_and!; (split; [intros _ (row0 & [= <-] & ?); done|done]).
Qed.

Lemma try_remove_nodes f p :
  OS.locked (try_remove f p) = OS.locked f
  ∧ (OS.nodes (try_remove f p) = OS.nodes f
     ∨ OS.nodes (try_remove f p) = delete p (OS.nodes f)).
Proof.
  unfold try_remove, OS.remove. repeat case_match; simplify_eq; cbn; auto.
Qed.

Lemma try_rmdir_nodes f p :
  OS.locked (try_rmdir f p) = OS.locked f
  ∧ (OS.nodes (try_rmdir f p) = OS.nodes f
     ∨ OS.nodes (try_rmdir f p) = delete (OS.dirname p) (OS.nodes f)).
Proof.
  unfold try_rmdir, OS.rmdir. repeat case_match; simplify_eq; cbn; auto.
Qed.

(** X13: what deletion never does.  For a signed-in account it removes no
    row other than the one addressed, and that one only for its owner and
    with the CSRF token (400 without the token, 404 for a record of another
    account or none, the world untouched in both cases); on the file system
    it creates and rewrites nothing, and no path other than the record's two
    artifacts and the directory of its PDF can disappear. *)
Theorem delete_removes_nothing_else id req sess w uid u :
  current_user sess w = Some (uid, u) →
  let o := delete_resume id req sess w in
  let w' := world_after o in
  (validate_on_submit req true = false → o = reply (Abort 400) [] sess w)
  ∧ (validate_on_submit req true = true → ¬ owns (db w) uid id →
     o = reply (Abort 404) [] sess w)
  ∧ users (db w') = users (db w)
  ∧ profiles (db w') = profiles (db w)
  ∧ (∀ j, j ≠ id → resumes (db w') !! j = resumes (db w) !! j)
  ∧ OS.locked (fs w') = OS.locked (fs w)
  ∧ (∀ q n, OS.nodes (fs w') !! q = Some n → OS.nodes (fs w) !! q = Some n)
  ∧ (∀ row, resumes (db w) !! id = Some row →
     ∀ q, q ≠ pdf_path row → q ≠ docx_path row →
          q ≠ OS.dirname (pdf_path row) →
          OS.nodes (fs w') !! q = OS.nodes (fs w) !! q).
Proof using Type.
  clear. intros Hcu o w'. subst w' o.
  unfold delete_resume, login_required. rewrite Hcu. unfold delete_resume_body.
  destruct (validate_on_submit req true) eqn:Hv; cbn [negb].
  2:{ by split_and!. }
  destruct (resumes (db w) !! id) as [row|] eqn:Hl.
  2:{ split_and!; try done. }
  cbn [fst]. case_bool_decide as Hown.
  { split_and!; try done. }
  cbn [world_after reply db fs set_db set_fs set_resumes users profiles resumes
       foldl].
  destruct (try_remove_nodes (fs w) (pdf_path row)) as [Hk1 Hn1].
  destruct (try_remove_nodes (try_remove (fs w) (pdf_path row)) (docx_path row))
    as [Hk2 Hn2].
  destruct (try_rmdir_nodes
              (try_remove (try_remove (fs w) (pdf_path row)) (docx_path row))
              (pdf_path row)) as [Hk3 Hn3].
  split_and!; try done.
  - intros _ Hno. destruct Hno. by exists row.
  - intros j Hj. by rewrite lookup_delete_ne.
  - congruence.
  - intros q n.
    destruct Hn3 as [-> | ->], Hn2 as [-> | ->], Hn1 as [-> | ->];
      rewrite ?lookup_delete_Some; tauto.
  - intros row0 [= <-] q Hq1 Hq2 Hq3.
    destruct Hn3 as [-> | ->], Hn2 as [-> | ->], Hn1 as [-> | ->];
      by rewrite ?lookup_delete_ne.
Qed.


(** ** Paths *)

Lemma app_assoc_s a b c : (a +:+ b) +:+ c = a +:+ (b +:+ c).
Proof.
  induction a as [|x a IH]; [done|].
  change (String x a +:+ b) with (String x (a +:+ b)).
  change (String x (a +:+ b) +:+ c) with (String x ((a +:+ b) +:+ c)).
  by rewrite IH.
Qed.

Lemma app_empty_r a : a +:+ "" = a.
Proof.
  induction a as [|x a IH]; [done|].
  change (String x a +:+ "") with (String x (a +:+ "")). by rewrite IH.
Qed.

Lemma rev_app_acc s acc : String.rev_app s acc = String.rev s +:+ acc.
Proof.
  revert acc. induction s as [|c s IH]; intros acc; [done|].
  unfold String.rev. cbn [String.rev_app]. rewrite (IH (String c "")), IH.
  by rewrite app_assoc_s.
Qed.

Lemma rev_cons c s : String.rev (String c s) = String.rev s +:+ String c "".
Proof. unfold String.rev at 1. cbn [String.rev_app]. apply rev_app_acc. Qed.

Lemma rev_append a b : String.rev (a +:+ b) = String.rev b +:+ String.rev a.
Proof.
  induction a as [|c a IH].
  - change ("" +:+ b) with b. by rewrite app_empty_r.
  - change (String c a +:+ b) with (String c (a +:+ b)).
    by rewrite !rev_cons, IH, app_assoc_s.
Qed.

Lemma no_slash_app a b : no_slash (a +:+ b) = no_slash a && no_slash b.
Proof.
  induction a as [|c a IH]; [done|].
  change (String c a +:+ b) with (String c (a +:+ b)).
  cbn [no_slash]. rewrite IH. by destruct (OS.is_slash c).
Qed.

Lemma no_slash_rev s : no_slash (String.rev s) = no_slash s.
Proof.
  induction s as [|c s IH]; [done|].
  rewrite rev_cons, no_slash_app, IH. cbn [no_slash].
  destruct (OS.is_slash c), (no_slash s); done.
Qed.

Lemma drop_to_slash_prefix x y :
  no_slash x = true →
  OS.drop_to_slash (x +:+ String "/" y) = String "/" y.
Proof.
  induction x as [|c x IH]; [done|]. cbn [no_slash]. intros [Hc Hx]%andb_prop.
  change (String c x +:+ String "/" y) with (String c (x +:+ String "/" y)).
  cbn [OS.drop_to_slash]. apply negb_true_iff in Hc. rewrite Hc. auto.
Qed.

Lemma no_slash_head a b :
  no_slash a = true → a ≠ "" → OS.starts_with_slash (a +:+ b) = false.
Proof.
  destruct a as [|c a]; [done|]. cbn [no_slash]. intros [Hc _]%andb_prop _.
  by apply negb_true_iff in Hc.
Qed.

Lemma lstrip_slashes_id s :
  OS.starts_with_slash s = false → OS.lstrip_slashes s = s.
Proof. destruct s as [|c s]; [done|]. cbn. by intros ->. Qed.

Lemma lstrip_slashes_slash s :
  OS.lstrip_slashes (String "/" s) = OS.lstrip_slashes s.
Proof. reflexivity. Qed.

Lemma slashes_comm s acc :
  OS.lstrip_slashes s = "" → s +:+ String "/" acc = String "/" (s +:+ acc).
Proof.
  induction s as [|c s IH]; [done|]. cbn [OS.lstrip_slashes].
  unfold OS.is_slash. case_bool_decide as Hc; [|done]. subst c. intros Hs.
  change (String "/" s +:+ String "/" acc) with (String "/" (s +:+ String "/" acc)).
  by rewrite IH.
Qed.

Lemma slashes_rev s : OS.lstrip_slashes s = "" → String.rev s = s.
Proof.
  induction s as [|c s IH]; [done|]. intros Hs. pose proof Hs as Hs'.
  cbn [OS.lstrip_slashes] in Hs'. unfold OS.is_slash in Hs'.
  case_bool_decide as Hc; [|done]. subst c.
  rewrite rev_cons, IH by done. rewrite slashes_comm by done.
  by rewrite app_empty_r.
Qed.

(** Joining a slash-free name to a directory and taking the directory part
    again gives the directory back. *)
Lemma dirname_join d n :
  d ≠ "" → OS.starts_with_slash (String.rev d) = false → no_slash n = true →
  OS.join d n = d +:+ "/" +:+ n
  ∧ OS.dirname (d +:+ "/" +:+ n) = d.
Proof.
  intros Hd Hend Hn. split.
  - unfold OS.join.
    assert (OS.starts_with_slash n = false) as ->.
    { destruct n as [|c n]; [done|]. cbn in Hn |- *.
      apply andb_prop in Hn as [Hc _]. by apply negb_true_iff in Hc. }
    rewrite bool_decide_eq_false_2 by done. by rewrite Hend.
  - unfold OS.dirname.
    assert (Hhead : String.rev (OS.drop_to_slash (String.rev (d +:+ "/" +:+ n)))
                    = d +:+ "/").
    { rewrite rev_append. change ("/" +:+ n) with (String "/" n).
      rewrite rev_cons, app_assoc_s.
      change (String "/" "" +:+ String.rev d) with (String "/" (String.rev d)).
      rewrite drop_to_slash_prefix by by rewrite no_slash_rev.
      by rewrite rev_cons, rev_involutive. }
    rewrite Hhead.
    assert (Hrev : String.rev (d +:+ "/") = String "/" (String.rev d)).
    { by rewrite rev_append. }
    destruct (OS.lstrip_slashes (d +:+ "/")) eqn:Hall.
    + exfalso. apply slashes_rev in Hall as Hr. rewrite Hrev in Hr.
      rewrite <- Hr, lstrip_slashes_slash, (lstrip_slashes_id _ Hend) in Hall.
      apply Hd. by rewrite <- (rev_involutive d), Hall.
    + rewrite Hrev, lstrip_slashes_slash, (lstrip_slashes_id _ Hend).
      apply rev_involutive.
Qed.

Lemma scratch_dir_shape sfx :
  no_slash sfx = true →
  scratch_dir sfx ≠ ""
  ∧ OS.starts_with_slash (String.rev (scratch_dir sfx)) = false.
Proof.
  intros Hs. split; [done|]. unfold scratch_dir.
  rewrite <- app_assoc_s, rev_append.
  destruct sfx as [|c sfx]; [done|].
  apply no_slash_head.
  - by rewrite no_slash_rev.
  - rewrite rev_cons. by destruct (String.rev sfx).
Qed.

Lemma app_neq_self d x : x ≠ "" → d +:+ x ≠ d.
Proof.
  intros Hx Heq. apply Hx. rewrite <- (app_empty_r d) in Heq at 2.
  by apply (inj (String.app d)) in Heq.
Qed.

(** ** Generation *)

(** The record [tailor] adds for a rendered result stored under [d]. *)
Lemma store_resume_ok env sess w cu url res :
  let d := scratch_dir (tmp_suffix env) in
  let pdf := d +:+ "/" +:+ r_pdf_name res in
  let docx := d +:+ "/" +:+ r_docx_name res in
  no_slash (tmp_suffix env) = true →
  no_slash (r_pdf_name res) = true →
  no_slash (r_docx_name res) = true →
  OS.nodes (fs w) !! d = None →
  (∀ q, OS.dirname q = d → OS.nodes (fs w) !! q = None) →
  pdf ∉ OS.locked (fs w) →
  docx ∉ OS.locked (fs w) →
  store_resume env sess w cu url res
  = reply (Redirect (ep_result (next_id (resumes (db w))))) [] sess
      (set_db
         (set_fs w
            {| OS.nodes := <[docx := OS.File (r_docx res)]>
                             (<[pdf := OS.File (r_pdf res)]>
                                (<[d := OS.Dir]> (OS.nodes (fs w))));
               OS.locked := OS.locked (fs w) |})
         (set_resumes (db w)
            (<[next_id (resumes (db w)) :=
                 {| resume_user_id := cu.1; job_url := url;
                    created_at := persist_datetime (now_utc (clock env));
                    pdf_path := pdf; docx_path := docx;
                    pdf_name := r_pdf_name res; docx_name := r_docx_name res;
                    coverage_json := Some (json_dumps (r_coverage res)) |}]>
               (resumes (db w))))).
Proof.
  intros d pdf docx Hs Hpn Hdn Hd Hunder Hpl Hdl.
  destruct (scratch_dir_shape _ Hs) as [Hne Hend]. fold d in Hne, Hend.
  destruct (dirname_join d _ Hne Hend Hpn) as [Hjp Hdp].
  destruct (dirname_join d _ Hne Hend Hdn) as [Hjd Hdd].
  fold pdf in Hjp, Hdp. fold docx in Hjd, Hdd.
  assert (Hpd : d ≠ pdf) by (symmetry; by apply app_neq_self).
  assert (Hdd' : d ≠ docx) by (symmetry; by apply app_neq_self).
  unfold store_resume, OS.mkdtemp, OS.exists_.
  change ("/tmp/" +:+ "autotailor_" +:+ tmp_suffix env) with d.
  rewrite bool_decide_eq_false_2 by (rewrite Hd; by intros [? ?]).
  rewrite Hjp, Hjd. unfold OS.write_file. cbn [OS.locked OS.nodes].
  rewrite (bool_decide_eq_false_2 (pdf ∈ _)) by done.
  rewrite Hdp, lookup_insert_eq, lookup_insert_ne, (Hunder pdf Hdp) by done.
  cbn [OS.locked OS.nodes].
  rewrite (bool_decide_eq_false_2 (docx ∈ _)) by done.
  rewrite Hdd, (lookup_insert_ne _ pdf d) by done. rewrite lookup_insert_eq.
  destruct (decide (pdf = docx)) as [Heq|Hneq].
  - rewrite <- Heq, lookup_insert_eq. reflexivity.
  - rewrite !lookup_insert_ne, (Hunder docx Hdd) by done. reflexivity.
Qed.

Lemma keeps_insert {A} (m m' : gmap string A) k v :
  (∀ q n, m !! q = Some n → is_Some (m' !! q)) →
  ∀ q n, m !! q = Some n → is_Some (<[k := v]> m' !! q).
Proof.
  intros Hm q n Hq. destruct (decide (k = q)) as [->|Hne].
  - rewrite lookup_insert_eq. eauto.
  - rewrite lookup_insert_ne by done. eauto.
Qed.

Lemma keeps_refl {A} (m : gmap string A) :
  ∀ q n, m !! q = Some n → is_Some (m !! q).
Proof. eauto. Qed.

Lemma store_resume_frame env sess w cu url res :
  let o := store_resume env sess w cu url res in
  let w' := world_after o in
  users (db w') = users (db w)
  ∧ profiles (db w') = profiles (db w)
  ∧ stdout w' = stdout w
  ∧ renderer_calls w' = renderer_calls w
  ∧ session_after o = sess
  ∧ flashed o = []
  ∧ OS.locked (fs w') = OS.locked (fs w)
  ∧ (∀ q n, OS.nodes (fs w) !! q = Some n → is_Some (OS.nodes (fs w') !! q))
  ∧ ((∃ row, response o = Redirect (ep_result (next_id (resumes (db w))))
             ∧ resumes (db w') = <[next_id (resumes (db w)) := row]> (resumes (db w))
             ∧ resume_user_id row = cu.1
             ∧ job_url row = url
             ∧ pdf_name row = r_pdf_name res
             ∧ docx_name row = r_docx_name res
             ∧ OS.nodes (fs w') !! docx_path row = Some (OS.File (r_docx res)))
     ∨ (db w' = db w ∧ ∃ q, response o = ServerError (OSError q))).
Proof.
  unfold store_resume, OS.mkdtemp, OS.write_file.
  repeat case_match; simplify_eq; cbn;
    (split_and!; [done..| |]);
    first [ by repeat first [apply keeps_refl | apply keeps_insert]
          | by right; eauto
          | left; eexists; split_and!; try reflexivity; cbn;
            apply lookup_insert_eq ].
Qed.

Lemma one_or_none_holds {A} (P : Z * A → Prop) `{∀ x, Decision (P x)}
    (m : gmap Z A) i a :
  one_or_none (map_to_list (filter P m)) = inr (Some (i, a)) →
  m !! i = Some a ∧ P (i, a).
Proof.
  intros Hq. destruct (map_to_list (filter P m)) as [|r [|r' l]] eqn:Hl;
    simplify_eq/=.
  assert (Hin : (i, a) ∈ map_to_list (filter P m)) by (rewrite Hl; set_solver).
  by apply elem_of_map_to_list, map_lookup_filter_Some in Hin.
Qed.

(** X15: generation only ever adds: a [tailor] request leaves accounts,
    profiles, console and session as they were, keeps every existing record
    and every existing path of the file system, and changes the database
    exactly when it answers with the redirect to the new record, which then
    sits under a key that was free, belongs to the signed-in account and
    carries the trimmed URL; on every other answer, file-system failures
    included, the database is unchanged. *)
Theorem tailor_only_adds_a_record env req sess w :
  let o := tailor env req sess w in
  let w' := world_after o in
  users (db w') = users (db w)
  ∧ profiles (db w') = profiles (db w)
  ∧ stdout w' = stdout w
  ∧ session_after o = sess
  ∧ OS.locked (fs w') = OS.locked (fs w)
  ∧ (∀ q n, OS.nodes (fs w) !! q = Some n → is_Some (OS.nodes (fs w') !! q))
  ∧ (∀ id row, resumes (db w) !! id = Some row → resumes (db w') !! id = Some row)
  ∧ ((∃ rid row uid u,
        response o = Redirect (ep_result rid)
        ∧ current_user sess w = Some (uid, u)
        ∧ resumes (db w) !! rid = None
        ∧ resumes (db w') = <[rid := row]> (resumes (db w))
        ∧ resume_user_id row = uid
        ∧ job_url row = Str.strip (Str.or_empty (form req !! "url")))
     ∨ (db w' = db w ∧ ∀ rid, response o ≠ Redirect (ep_result rid))).
Proof.
  unfold tailor, login_required.
  destruct (current_user sess w) as [[uid u]|] eqn:Hcu.
  2:{ cbn. split_and!; eauto. }
  unfold tailor_body.
  destruct (one_or_none _) as [e|prof]; [cbn; split_and!; eauto|].
  destruct (profile_incomplete prof); [cbn; split_and!; eauto|].
  destruct prof as [[pid p]|]; [|cbn; split_and!; eauto].
  destruct (validate_on_submit _ _); [|cbn; split_and!; eauto].
  case_bool_decide; [cbn; split_and!; eauto|].
  destruct (generate_both _ _ _) as [e|res]; [cbn; split_and!; eauto|].
  match goal with |- context [store_resume ?a ?b ?c ?d ?e ?f] =>
    destruct (store_resume_frame a b c d e f)
      as (Hu & Hp & Hout & _ & Hs & _ & Hlk & Hkeep & Hcase)
  end.
  cbn zeta in *. cbn [db fs stdout log_renderer_call] in *.
  split_and!; try done.
  - destruct Hcase as [(row & _ & -> & _)|[-> _]]; [|done].
    intros id row0 Hl. rewrite lookup_insert_ne; [done|].
    intros <-. by rewrite next_id_fresh in Hl.
  - destruct Hcase as [(row & Hr & Hrows & Hown & Hurl & _)|[Hdb [q Hr]]].
    + left. exists (next_id (resumes (db w))), row, uid, u.
      split_and!; try done. apply next_id_fresh.
    + right. split; [done|]. intros rid. by rewrite Hr.
Qed.

(** X16: the renderer is called at most once per request, and only by
    [tailor] on a validating submission of a signed-in account with a
    complete profile; the call receives the snapshot of the stored profile
    (the account's e-mail standing in when the profile has none) and the
    trimmed URL.  No other route calls it. *)
Theorem renderer_called_at_most_once r env req sess w :
  let w' := world_after (dispatch r env req sess w) in
  renderer_calls w' = renderer_calls w
  ∨ (r = r_tailor
     ∧ validate_on_submit req (TailorForm_validate req) = true
     ∧ ∃ uid u pid p,
         current_user sess w = Some (uid, u)
         ∧ profiles (db w) !! pid = Some p
         ∧ profile_user_id p = uid
         ∧ Str.strip (full_name p) ≠ ""
         ∧ pd_email (profile_dict (uid, u) p)
           = Str.or_else (email p) (Some (user_email u))
         ∧ renderer_calls w'
           = renderer_calls w
             ++ [(profile_dict (uid, u) p,
                  Str.strip (Str.or_empty (form req !! "url")))]).
Proof.
  unfold dispatch. destruct (allows r (method req)); [|by left].
  destruct r; try (left;
    unfold index, signin, verify, profile, result, delete_resume, download,
      logout, login_required, profile_body, result_body, delete_resume_body,
      download_body; by repeat case_match).
  unfold tailor, login_required.
  destruct (current_user sess w) as [[uid u]|] eqn:Hcu; [|by left].
  unfold tailor_body, profiles_by_user. cbn [fst].
  destruct (one_or_none _) as [e|prof] eqn:Hq; [by left|].
  destruct (profile_incomplete prof) eqn:Hinc; [by left|].
  destruct prof as [[pid p]|]; [|by left].
  apply one_or_none_holds in Hq as [Hl Hk]. cbn in Hk, Hinc.
  apply bool_decide_eq_false in Hinc.
  destruct (validate_on_submit _ _); [|by left].
  case_bool_decide; [by left|]. right. split_and!; [done..|].
  exists uid, u, pid, p. split_and!; [done..|].
  destruct (generate_both _ _ _) as [e|res]; [done|].
  match goal with |- context [store_resume ?a ?b ?c ?d ?e ?f] =>
    destruct (store_resume_frame a b c d e f) as (_ & _ & _ & Hcalls & _)
  end.
  by rewrite Hcalls.
Qed.

(** The clean-up [delete_resume] performs on a scratch directory that holds
    the two artifacts and nothing else gives the earlier file system back. *)
Lemma cleanup_scratch f0 d pdf docx cp cd :
  OS.dirname pdf = d → OS.dirname docx = d →
  d ≠ "" → pdf ≠ "" → docx ≠ "" → d ≠ pdf → d ≠ docx →
  OS.nodes f0 !! d = None →
  (∀ q, OS.dirname q = d → OS.nodes f0 !! q = None) →
  pdf ∉ OS.locked f0 → docx ∉ OS.locked f0 → d ∉ OS.locked f0 →
  try_rmdir
    (foldl try_remove
       {| OS.nodes := <[docx := OS.File cd]>
                        (<[pdf := OS.File cp]> (<[d := OS.Dir]> (OS.nodes f0)));
          OS.locked := OS.locked f0 |}
       [pdf; docx]) pdf
  = f0.
Proof.
  intros Hdp Hdd Hd Hp Hx Hpd Hxd Hfree Hunder Hlp Hlx Hld.
  destruct f0 as [m lk]. cbn [OS.nodes OS.locked] in *. cbn [foldl].
  set (m3 := <[docx := OS.File cd]> (<[pdf := OS.File cp]> (<[d := OS.Dir]> m))).
  assert (H3p : ∃ c, m3 !! pdf = Some (OS.File c)).
  { unfold m3. destruct (decide (docx = pdf)) as [->|Hne].
    - rewrite lookup_insert_eq. eauto.
    - rewrite lookup_insert_ne, lookup_insert_eq by done. eauto. }
  destruct H3p as [c H3p].
  assert (H4 : try_remove {| OS.nodes := m3; OS.locked := lk |} pdf
               = {| OS.nodes := delete pdf m3; OS.locked := lk |}).
  { unfold try_remove, OS.exists_, OS.remove. cbn [OS.nodes OS.locked].
    rewrite (bool_decide_eq_false_2 (pdf = "")) by done.
    rewrite bool_decide_eq_true_2 by (rewrite H3p; eauto).
    rewrite (bool_decide_eq_false_2 (pdf ∈ lk)) by exact Hlp. by rewrite H3p. }
  rewrite H4.
  assert (H5 : OS.nodes (try_remove {| OS.nodes := delete pdf m3; OS.locked := lk |}
                           docx) = <[d := OS.Dir]> m
               ∧ OS.locked (try_remove {| OS.nodes := delete pdf m3;
                                          OS.locked := lk |} docx) = lk).
  { unfold try_remove, OS.exists_, OS.remove. cbn [OS.nodes OS.locked].
    rewrite (bool_decide_eq_false_2 (docx = "")) by done.
    rewrite (bool_decide_eq_false_2 (docx ∈ lk)) by exact Hlx.
    destruct (decide (docx = pdf)) as [->|Hne].
    - rewrite lookup_delete_eq.
      rewrite bool_decide_eq_false_2 by (by intros [? ?]). cbn. split; [|done].
      unfold m3. rewrite delete_insert_eq, delete_insert_id; [done|].
      rewrite lookup_insert_ne by done. by apply Hunder.
    - assert (H3x : m3 !! docx = Some (OS.File cd)) by apply lookup_insert_eq.
      rewrite !lookup_delete_ne, !H3x by done.
      rewrite bool_decide_eq_true_2 by eauto. cbn. split; [|done].
      unfold m3. rewrite (delete_insert_ne _ pdf docx) by done.
      rewrite delete_insert_id.
      + rewrite delete_insert_id; [done|].
        rewrite lookup_insert_ne by done. by apply Hunder.
      + rewrite lookup_delete_ne by done.
        rewrite lookup_insert_ne, lookup_insert_ne by done. by apply Hunder. }
  destruct H5 as [H5n H5l].
  set (f5 := try_remove {| OS.nodes := delete pdf m3; OS.locked := lk |} docx) in *.
  assert (Hlist : OS.listdir f5 d = []).
  { unfold OS.listdir. apply elem_of_nil_inv. intros q Hq.
    apply list_elem_of_filter in Hq as [[Hqd Hne] Hq].
    apply elem_of_elements, elem_of_dom in Hq as [n Hq].
    rewrite H5n, lookup_insert_ne in Hq by done.
    rewrite (Hunder q Hqd) in Hq. done. }
  unfold try_rmdir, OS.isdir, OS.rmdir. rewrite Hdp, Hlist, H5n, H5l.
  rewrite (bool_decide_eq_false_2 (d = "")) by done.
  rewrite lookup_insert_eq, bool_decide_eq_true_2 by done. cbn.
  rewrite (bool_decide_eq_false_2 (d ∈ lk)) by exact Hld.
  by rewrite delete_insert_id.
Qed.

(** X17: a successful generation can be downloaded.  On a validating
    request of an account with a complete profile, when the renderer returns
    documents under slash-free names and the scratch directory is new, its
    entries unused and the two paths writable, [tailor] redirects to the new
    record; the scratch directory then holds exactly the bytes the renderer
    returned, and [download] of the new id sends each stored path under the
    renderer's file name. *)
Theorem generated_record_can_be_downloaded env req sess w uid u pid p res :
  db_wf (db w) →
  current_user sess w = Some (uid, u) →
  profiles (db w) !! pid = Some p →
  profile_user_id p = uid →
  Str.strip (full_name p) ≠ "" →
  validate_on_submit req (TailorForm_validate req) = true →
  generate_both (profile_dict (uid, u) p)
    (Str.strip (Str.or_empty (form req !! "url"))) (clock env) = inr res →
  let d := scratch_dir (tmp_suffix env) in
  let pdf := d +:+ "/" +:+ r_pdf_name res in
  let docx := d +:+ "/" +:+ r_docx_name res in
  no_slash (tmp_suffix env) = true →
  no_slash (r_pdf_name res) = true →
  no_slash (r_docx_name res) = true →
  r_pdf_name res ≠ r_docx_name res →
  OS.nodes (fs w) !! d = None →
  (∀ q, OS.dirname q = d → OS.nodes (fs w) !! q = None) →
  pdf ∉ OS.locked (fs w) →
  docx ∉ OS.locked (fs w) →
  let o := tailor env req sess w in
  let w' := world_after o in
  let rid := next_id (resumes (db w)) in
  response o = Redirect (ep_result rid)
  ∧ resumes (db w) !! rid = None
  ∧ OS.isdir (fs w') d = true
  ∧ OS.nodes (fs w') !! pdf = Some (OS.File (r_pdf res))
  ∧ OS.nodes (fs w') !! docx = Some (OS.File (r_docx res))
  ∧ response (download rid "pdf" sess w') = SendFile pdf (r_pdf_name res)
  ∧ response (download rid "docx" sess w') = SendFile docx (r_docx_name res).
Proof.
  intros Hwf Hcu Hl Hk Hname Hv Hgen d pdf docx Hs Hpn Hdn Hne Hd Hunder Hlp Hlx
    o w' rid.
  assert (Hpx : pdf ≠ docx).
  { unfold pdf, docx. intros Heq. apply Hne.
    apply (inj (String.app d)) in Heq. by apply (inj (String.app "/")) in Heq. }
  assert (Hdp : d ≠ pdf) by (symmetry; by apply app_neq_self).
  assert (Hdx : d ≠ docx) by (symmetry; by apply app_neq_self).
  assert (Ho : o = store_resume env sess
                 (log_renderer_call w (profile_dict (uid, u) p)
                    (Str.strip (Str.or_empty (form req !! "url"))))
                 (uid, u) (Str.strip (Str.or_empty (form req !! "url"))) res).
  { subst o. rewrite (tailor_with_profile env req sess w uid u pid p) by done.
    rewrite Hv. cbn zeta. by rewrite Hgen. }
  rewrite store_resume_ok in Ho by done.
  cbn [db fs log_renderer_call] in Ho. fold d pdf docx rid in Ho.
  subst w'. rewrite Ho. cbn [world_after reply response].
  unfold download, login_required, current_user, OS.isdir.
  cbn [db fs set_db set_fs set_resumes users resumes OS.nodes].
  unfold current_user in Hcu. rewrite Hcu. unfold download_body.
  cbn [db set_db set_fs set_resumes resumes].
  rewrite !lookup_insert_eq. cbn [fst resume_user_id].
  rewrite (bool_decide_eq_false_2 (uid ≠ uid)) by (intros Hx; by apply Hx).
  split_and!; try done.
  - apply next_id_fresh.
  - apply bool_decide_eq_true_2.
    by rewrite !lookup_insert_ne, lookup_insert_eq by done.
  - by rewrite lookup_insert_ne, lookup_insert_eq by done.
Qed.

(** X18: generating and then deleting is a round trip.  Under the
    conditions of the previous theorem, with the scratch directory removable
    too, deleting the record just generated answers with the success redirect and leaves
    the database and the file system exactly as they were before the
    generation: no row, no file and no directory is left behind. *)
Theorem generate_then_delete_restores env req dreq sess w uid u pid p res :
  db_wf (db w) →
  current_user sess w = Some (uid, u) →
  profiles (db w) !! pid = Some p →
  profile_user_id p = uid →
  Str.strip (full_name p) ≠ "" →
  validate_on_submit req (TailorForm_validate req) = true →
  validate_on_submit dreq true = true →
  generate_both (profile_dict (uid, u) p)
    (Str.strip (Str.or_empty (form req !! "url"))) (clock env) = inr res →
  let d := scratch_dir (tmp_suffix env) in
  let pdf := d +:+ "/" +:+ r_pdf_name res in
  let docx := d +:+ "/" +:+ r_docx_name res in
  no_slash (tmp_suffix env) = true →
  no_slash (r_pdf_name res) = true →
  no_slash (r_docx_name res) = true →
  OS.nodes (fs w) !! d = None →
  (∀ q, OS.dirname q = d → OS.nodes (fs w) !! q = None) →
  pdf ∉ OS.locked (fs w) →
  docx ∉ OS.locked (fs w) →
  d ∉ OS.locked (fs w) →
  let o := tailor env req sess w in
  let o2 := delete_resume (next_id (resumes (db w))) dreq
              (session_after o) (world_after o) in
  response o = Redirect (ep_result (next_id (resumes (db w))))
  ∧ response o2 = Redirect ep_tailor
  ∧ flashed o2 = [MSG_DELETED]
  ∧ db (world_after o2) = db w
  ∧ fs (world_after o2) = fs w.
Proof.
  intros Hwf Hcu Hl Hk Hname Hv Hdv Hgen d pdf docx Hs Hpn Hdn Hd Hunder
    Hlp Hlx Hld o o2.
  destruct (scratch_dir_shape _ Hs) as [Hdne Hend]. fold d in Hdne, Hend.
  destruct (dirname_join d _ Hdne Hend Hpn) as [_ Hdp].
  destruct (dirname_join d _ Hdne Hend Hdn) as [_ Hdx].
  fold pdf in Hdp. fold docx in Hdx.
  assert (Hnp : d ≠ pdf) by (symmetry; by apply app_neq_self).
  assert (Hnx : d ≠ docx) by (symmetry; by apply app_neq_self).
  assert (Hpe : pdf ≠ "").
  { unfold pdf. intros Heq. rewrite <- Heq in Hdne. apply Hdne.
    destruct d; [done|]. discriminate Heq. }
  assert (Hxe : docx ≠ "").
  { unfold docx. intros Heq. destruct d; [done|]. discriminate Heq. }
  assert (Ho : o = store_resume env sess
                 (log_renderer_call w (profile_dict (uid, u) p)
                    (Str.strip (Str.or_empty (form req !! "url"))))
                 (uid, u) (Str.strip (Str.or_empty (form req !! "url"))) res).
  { subst o. rewrite (tailor_with_profile env req sess w uid u pid p) by done.
    rewrite Hv. cbn zeta. by rewrite Hgen. }
  rewrite store_resume_ok in Ho by done.
  cbn [db fs log_renderer_call] in Ho. fold d pdf docx in Ho.
  subst o2. rewrite Ho. cbn [world_after session_after reply response].
  split; [done|].
  unfold delete_resume, login_required, current_user.
  cbn [db fs set_db set_fs set_resumes users resumes].
  unfold current_user in Hcu. rewrite Hcu. unfold delete_resume_body.
  rewrite Hdv. cbn [negb db set_db set_resumes resumes].
  rewrite lookup_insert_eq. cbn [fst resume_user_id pdf_path docx_path].
  rewrite bool_decide_eq_false_2 by (intros Hx; by apply Hx).
  cbn [world_after reply response flashed db fs set_db set_fs set_resumes
       users profiles resumes].
  rewrite (cleanup_scratch (fs w) d pdf docx) by done.
  rewrite delete_insert_id by apply next_id_fresh.
  split_and!; try done. by destruct (db w).
Qed.

(** ** More on saving the profile *)

Lemma tailor_not_bounced env req sess w uid u :
  db_wf (db w) →
  current_user sess w = Some (uid, u) →
  has_complete_profile (db w) uid →
  response (tailor env req sess w) ≠ Redirect ep_profile.
Proof.
  intros Hwf Hcu (pid & p & Hl & Hk & Hname).
  rewrite (tailor_with_profile env req sess w uid u pid p) by done.
  destruct (validate_on_submit req _); [|done]. cbn zeta.
  destruct (generate_both _ _ _) as [e|res]; [done|].
  match goal with |- response (store_resume ?a ?b ?c ?d ?e ?f) ≠ _ =>
    by destruct (store_resume_response a b c d e f) as [[rid ->]|[q ->]]
  end.
Qed.

Lemma ProfileForm_full_name f :
  ProfileForm_validate f = true →
  Str.strip (Str.strip (Str.or_empty (f_full_name f))) ≠ "".
Proof.
  unfold ProfileForm_validate. intros Hv.
  repeat (apply andb_prop in Hv as [Hv _]).
  rewrite strip_idem. by apply DataRequired_strip.
Qed.

(** X19: a saved profile opens generation.  After a successful save the
    account has a profile whose full name is not blank (the form's required
    name, trimmed, stays non-blank), the unique constraints still hold, and
    a following [tailor] request of that session is no longer sent back to
    the profile page. *)
Theorem saved_profile_opens_generation req sess w uid u env' req' :
  db_wf (db w) →
  current_user sess w = Some (uid, u) →
  let o := profile req sess w in
  response o = Redirect ep_tailor →
  has_complete_profile (db (world_after o)) uid
  ∧ db_wf (db (world_after o))
  ∧ current_user (session_after o) (world_after o) = Some (uid, u)
  ∧ response (tailor env' req' (session_after o) (world_after o))
    ≠ Redirect ep_profile.
Proof.
  intros Hwf Hcu o Hr.
  pose proof (profile_wf req sess w Hwf) as Hwf'. fold o in Hwf'.
  assert (Hfacts : has_complete_profile (db (world_after o)) uid
                   ∧ current_user (session_after o) (world_after o) = Some (uid, u)).
  { subst o. revert Hr. unfold profile, login_required. rewrite Hcu.
    unfold profile_body, profiles_by_user. cbn [fst].
    destruct (select_cases profile_user_id (profiles (db w)) uid (proj2 Hwf))
      as [[-> _]|(pid & p & Hl & Hk & ->)];
      (destruct (validate_on_submit _ _) eqn:Hv; [|done]); intros _;
      apply andb_prop in Hv as [_ Hv]; apply ProfileForm_full_name in Hv;
      (split; [|done]); eexists _, _; cbn;
      (split; [apply lookup_insert_eq|]); by split. }
  destruct Hfacts as [Hc Hcu']. split_and!; try done.
  by apply (tailor_not_bounced env' req' _ _ uid u).
Qed.

(** X20: saving a profile writes one row and nothing else.  Accounts,
    records, files, console and session are untouched, and so is every
    profile of another account; the request either saves or shows the form
    again with the world unchanged; and for an account without a profile
    the new row sits under a free key and holds the submitted fields
    trimmed, absent ones as empty text, with [github] null. *)
Theorem profile_save_writes_one_row req sess w uid u :
  db_wf (db w) →
  current_user sess w = Some (uid, u) →
  let o := profile req sess w in
  let w' := world_after o in
  users (db w') = users (db w)
  ∧ resumes (db w') = resumes (db w)
  ∧ fs w' = fs w
  ∧ stdout w' = stdout w
  ∧ renderer_calls w' = renderer_calls w
  ∧ session_after o = sess
  ∧ (∀ pid q, profile_user_id q ≠ uid →
       profiles (db w') !! pid = Some q ↔ profiles (db w) !! pid = Some q)
  ∧ (response o = Redirect ep_tailor ∧ flashed o = [MSG_SAVED]
     ∨ response o = RenderTemplate "profile.html" ∧ w' = w)
  ∧ ((∀ pid q, profiles (db w) !! pid = Some q → profile_user_id q ≠ uid) →
     response o = Redirect ep_tailor →
     ∃ pid row,
       profiles (db w) !! pid = None
       ∧ profiles (db w') = <[pid := row]> (profiles (db w))
       ∧ profile_user_id row = uid
       ∧ full_name row = Str.strip (Str.or_empty (form req !! "full_name"))
       ∧ city row = Some (Str.strip (Str.or_empty (form req !! "city")))
       ∧ email row = Some (Str.strip (Str.or_empty (form req !! "email")))
       ∧ phone row = Some (Str.strip (Str.or_empty (form req !! "phone")))
       ∧ linkedin row = Some (Str.strip (Str.or_empty (form req !! "web")))
       ∧ github row = None).
Proof.
  intros Hwf Hcu o w'. subst w' o. unfold profile, login_required. rewrite Hcu.
  unfold profile_body, profiles_by_user. cbn [fst].
  destruct (select_cases profile_user_id (profiles (db w)) uid (proj2 Hwf))
    as [[-> Hnone]|(pid & p & Hl & Hk & ->)];
    (destruct (validate_on_submit _ _) eqn:Hv; cbn;
     [|by split_and!; try done; try (by right); intros]).
  - split_and!; try done; [|by left|].
    + intros pid q Hq.
      destruct (decide (next_id (profiles (db w)) = pid)) as [<-|Hne].
      * rewrite lookup_insert_eq, next_id_fresh. split; intros Hlq; by simplify_eq.
      * by rewrite lookup_insert_ne.
    + intros _ _. eexists _, _. split_and!; try reflexivity. apply next_id_fresh.
  - split_and!; try done; [|by left|].
    + intros pid' q Hq. destruct (decide (pid' = pid)) as [->|Hne].
      * rewrite lookup_insert_eq. split; intros Hlq; simplify_eq; done.
      * by rewrite lookup_insert_ne.
    + intros Hno _. by destruct (Hno pid p Hl).
Qed.

(** ** Start-up and the stub renderer *)

(** X21: the two schema probes are true in every application that starts.
    Whatever columns the [profiles] table had, when [create_app] gets
    through its column check both [HAS_PROFILE_ABOUT] and
    [HAS_PROFILE_GEMINI] are true and the table has its old columns plus
    [about] and [gemini_api_key]; the check fails only when an inspection
    failed: the second one, or the first one on a table that already has a
    column, which the blind [ALTER TABLE] then trips over. *)
Theorem startup_probes_are_true first_ok second_ok (cols : gset string) :
  match Startup.probe first_ok second_ok cols with
  | inr pr =>
      Startup.HAS_PROFILE_ABOUT pr = true
      ∧ Startup.HAS_PROFILE_GEMINI pr = true
      ∧ Startup.columns pr = cols ∪ {[ "about"; "gemini_api_key" ]}
  | inl Startup.InspectFailed => second_ok = false
  | inl (Startup.DuplicateColumn c) => first_ok = false ∧ c ∈ cols
  end.
Proof using Type.
  clear. unfold Startup.probe, Startup.add_column.
  destruct first_ok, second_ok; cbv beta iota zeta;
    repeat (case_bool_decide; cbn [app foldl]);
    cbn [Startup.HAS_PROFILE_ABOUT Startup.HAS_PROFILE_GEMINI Startup.columns];
    set_unfold; try done.
  all: repeat split; try intros x; intuition congruence.
Qed.

Lemma all_chars_app P a b :
  all_chars P (a +:+ b) = all_chars P a && all_chars P b.
Proof.
  induction a as [|c a IH]; [done|].
  change (String c a +:+ b) with (String c (a +:+ b)).
  cbn [all_chars]. rewrite IH. by destruct (P c).
Qed.

Lemma all_chars_rev P s : all_chars P (String.rev s) = all_chars P s.
Proof.
  induction s as [|c s IH]; [done|].
  rewrite rev_cons, all_chars_app, IH. cbn [all_chars].
  destruct (P c), (all_chars P s); done.
Qed.

Lemma no_slash_all s : no_slash s = all_chars (λ c, negb (OS.is_slash c)) s.
Proof. induction s as [|c s IH]; [done|]. cbn. by rewrite IH. Qed.

Lemma all_chars_lstrip P s :
  all_chars P s = true → all_chars P (Str.lstrip s) = true.
Proof.
  induction s as [|c s IH]; [done|]. cbn [all_chars Str.lstrip].
  intros [Hc Hs]%andb_prop. destruct (Str.isspace c); [auto|].
  cbn [all_chars]. by rewrite Hc, Hs.
Qed.

Lemma all_chars_strip P s :
  all_chars P s = true → all_chars P (Str.strip s) = true.
Proof.
  intros Hs. unfold Str.strip, Str.rstrip.
  rewrite all_chars_rev. apply all_chars_lstrip. rewrite all_chars_rev.
  by apply all_chars_lstrip.
Qed.

Lemma split_go_all P cur s :
  all_chars P cur = true → all_chars P s = true →
  Forall (λ w, all_chars P w = true) (ResumeEngine.split_go cur s).
Proof.
  revert cur. induction s as [|c s IH]; intros cur Hcur Hs.
  - cbn. destruct cur; [constructor|].
    constructor; [by rewrite all_chars_rev|constructor].
  - cbn [all_chars] in Hs. apply andb_prop in Hs as [Hc Hs].
    cbn [ResumeEngine.split_go]. destruct (Str.isspace c).
    + destruct cur; [by apply IH|].
      constructor; [by rewrite all_chars_rev|by apply IH].
    + apply IH; [|done]. cbn [all_chars]. by rewrite Hc, Hcur.
Qed.

Lemma split_go_no_space cur s :
  no_space cur = true →
  Forall (λ w, no_space w = true) (ResumeEngine.split_go cur s).
Proof.
  revert cur. induction s as [|c s IH]; intros cur Hcur.
  - cbn. destruct cur; [constructor|].
    constructor; [|constructor]. unfold no_space. by rewrite all_chars_rev.
  - cbn [ResumeEngine.split_go]. destruct (Str.isspace c) eqn:Hc.
    + destruct cur; [by apply IH|].
      constructor; [|by apply IH]. unfold no_space. by rewrite all_chars_rev.
    + apply IH. unfold no_space in *. cbn [all_chars]. by rewrite Hc, Hcur.
Qed.

Lemma join_all P sep parts :
  all_chars P sep = true →
  Forall (λ w, all_chars P w = true) parts →
  all_chars P (ResumeEngine.join sep parts) = true.
Proof.
  intros Hsep. induction 1 as [|x l Hx Hl IH]; [done|].
  cbn [ResumeEngine.join]. destruct l as [|y l]; [done|].
  by rewrite !all_chars_app, Hx, Hsep, IH.
Qed.

Lemma name_safe_no_space full_name :
  no_space (ResumeEngine.name_safe full_name) = true.
Proof.
  unfold ResumeEngine.name_safe, ResumeEngine.split.
  apply join_all; [done|]. by apply split_go_no_space.
Qed.

Lemma name_safe_no_slash full_name :
  no_slash full_name = true → no_slash (ResumeEngine.name_safe full_name) = true.
Proof.
  rewrite !no_slash_all. intros Hn.
  unfold ResumeEngine.name_safe, ResumeEngine.split.
  apply join_all; [done|]. apply split_go_all; [done|].
  case_bool_decide; [done|]. by apply all_chars_strip.
Qed.

(** X22: the names the stub renderer gives its two documents.  When
    [generate_both] returns, both documents were made from the one text of
    [_build_text]; the names are [Resume_<name>_<host>_<date>] with the
    extensions [.pdf] and [.docx], so they differ; [<name>] is the trimmed
    full name with its words joined by underscores and contains no
    whitespace; [<host>] is the host of the URL, or [job] when the URL has
    none; and names built from a slash-free full name, host and date are
    slash-free themselves. *)
Theorem renderer_file_names (C : Type) to_pdf to_docx host_of stamp (cov : C)
    profile url clock :
  match ResumeEngine.generate_both C to_pdf to_docx host_of stamp cov
          profile url clock with
  | inl e => to_pdf (ResumeEngine._build_text profile url) = inl e
             ∨ to_docx (ResumeEngine._build_text profile url) = inl e
             ∨ host_of url = inl e
  | inr res =>
      ∃ host,
        let name := ResumeEngine.name_safe (pd_full_name profile) in
        let stem := "Resume_" +:+ name +:+ "_" +:+ host +:+ "_" +:+ stamp clock in
        to_pdf (ResumeEngine._build_text profile url) = inr (r_pdf res)
        ∧ to_docx (ResumeEngine._build_text profile url) = inr (r_docx res)
        ∧ (host_of url = inr (Some host) ∧ host ≠ ""
           ∨ host = "job"
             ∧ (host_of url = inr None ∨ host_of url = inr (Some "")))
        ∧ r_pdf_name res = stem +:+ ".pdf"
        ∧ r_docx_name res = stem +:+ ".docx"
        ∧ r_pdf_name res ≠ r_docx_name res
        ∧ no_space name = true
        ∧ (no_slash (pd_full_name profile) = true → no_slash host = true →
           no_slash (stamp clock) = true →
           no_slash (r_pdf_name res) = true ∧ no_slash (r_docx_name res) = true)
  end.
Proof using Type.
  clear. unfold ResumeEngine.generate_both.
  destruct (to_pdf _) as [e|pdf_bytes]; [by left|].
  destruct (to_docx _) as [e|docx_bytes]; [by right; left|].
  destruct (host_of url) as [e|hostname] eqn:Hh; [by right; right|].
  exists (Str.or_empty (Str.or_else hostname (Some "job"))).
  cbn [r_pdf r_docx r_pdf_name r_docx_name]. unfold ResumeEngine.filename.
  set (host := Str.or_empty (Str.or_else hostname (Some "job"))).
  set (name := ResumeEngine.name_safe (pd_full_name profile)).
  split_and!; try done.
  - subst host. destruct hostname as [h|]; cbn.
    + case_decide as He.
      * subst h. right. split; [done|by right].
      * by left.
    + right. split; [done|by left].
  - by rewrite !app_assoc_s.
  - by rewrite !app_assoc_s.
  - intros Heq. do 6 apply (inj (String.app _)) in Heq. done.
  - apply name_safe_no_space.
  - intros Hn Hhost Hst. apply name_safe_no_slash in Hn. fold name in Hn.
    rewrite !no_slash_app, Hn, Hhost, Hst. done.
Qed.

End App.

(** * Concrete runs *)

Lemma db_wf_singletons (us : Z * User) (ps : Z * Profile) rs :
  db_wf {| users := {[ us.1 := us.2 ]}; profiles := {[ ps.1 := ps.2 ]};
           resumes := rs |}.
Proof. split; apply unique_on_singleton. Qed.

Lemma db_wf_no_profiles (m : gmap Z User) rs :
  unique_on user_email m → db_wf {| users := m; profiles := ∅; resumes := rs |}.
Proof. intros Hu. split; [done|apply unique_on_empty]. Qed.

(** The constraints hold in every world reached from the empty one. *)
Lemma reachable_wf validate_email tz_aware about gemini C render dumps loads parse steps :
  db_wf (db (run validate_email tz_aware about gemini C render dumps loads parse
               steps empty_world)).
Proof. apply run_wf, db_wf_no_profiles, unique_on_empty. Qed.

(** C1, the claim as stated fails: when the second draw repeats the first
    (entropy 42 twice, code 000042 both times), verifying with the first
    code after the second request signs the client in. *)
Lemma repeated_draw_keeps_first_code_valid :
  let w1 := world_after (signin has_at false (at_time 0 42) signin_jane None empty_world) in
  let w2 := world_after (signin has_at false (at_time 5 42) signin_jane None w1) in
  let o := verify has_at (at_time 9 0) (verify_jane "000042") None w2 in
  stdout w2 = ["[DEV] Verification code: 000042"; "[DEV] Verification code: 000042"]
  ∧ response o = Redirect ep_profile
  ∧ flashed o = []
  ∧ session_after o = Some 1
  ∧ users (db (world_after o)) !! 1 = Some jane_verified.
Proof. vm_compute. by split_and!. Qed.

Lemma second_request_code_invalidates_first_witness :
  let w1 := world_after (signin has_at false (at_time 0 42) signin_jane None empty_world) in
  let w2 := world_after (signin has_at false (at_time 5 43) signin_jane None w1) in
  let o := verify has_at (at_time 9 0) (verify_jane "000042") None w2 in
  invalid_credential o ∧ world_after o = w2 ∧ session_after o = None.
Proof.
  apply (second_request_code_invalidates_first has_at false
           (at_time 0 42) (at_time 5 43) (at_time 9 0) signin_jane
           (verify_jane "000042") None None None empty_world).
  - apply db_wf_no_profiles, unique_on_empty.
  - reflexivity.
  - reflexivity.
  - reflexivity.
  - reflexivity.
  - vm_compute. discriminate.
Defined.

(** The boundary of C2 on a stored naive expiry of 1000: at 1000 the code is
    still good, one microsecond later it is not. *)
Lemma verify_succeeds_until_expiry_witness :
  let o := verify has_at (at_time 1000 0) (verify_jane "123456") None pending_world in
  (logged_in_as 1 o ↔ 1000 ≤ instant_utc {| wall := 1000; tzinfo := None |})
  ∧ (invalid_credential o ∧ world_after o = pending_world
     ↔ instant_utc {| wall := 1000; tzinfo := None |} < 1000).
Proof.
  apply (verify_succeeds_until_expiry has_at (at_time 1000 0) (verify_jane "123456")
           None pending_world 1 jane_pending {| wall := 1000; tzinfo := None |}).
  - apply db_wf_no_profiles, unique_on_singleton.
  - reflexivity.
  - reflexivity.
  - reflexivity.
  - reflexivity.
  - reflexivity.
Defined.

Example verify_at_expiry :
  let o := verify has_at (at_time 1000 0) (verify_jane "123456") None pending_world in
  response o = Redirect ep_profile ∧ session_after o = Some 1.
Proof. vm_compute. done. Qed.

Example verify_just_after_expiry :
  let o := verify has_at (at_time 1001 0) (verify_jane "123456") None pending_world in
  response o = Redirect ep_signin ∧ flashed o = [MSG_INVALID_CODE]
  ∧ users (db (world_after o)) !! 1 = Some jane_pending.
Proof. vm_compute. done. Qed.

Lemma verify_atomic_and_single_use_witness :
  let o := verify has_at (at_time 1000 0) (verify_jane "123456") None pending_world in
  (world_after o = pending_world ∧ session_after o = None
   ∧ (validate_on_submit (verify_jane "123456")
        (VerifyForm_validate has_at (verify_jane "123456")) = true →
      invalid_credential o))
  ∨ ∃ uid u,
      users (db pending_world) !! uid = Some u
      ∧ logged_in_as uid o
      ∧ users (db (world_after o))
        = <[uid := {| user_email := user_email u; verified := 1;
                      verify_code := None; verify_expiry := None |}]>
            (users (db pending_world))
      ∧ profiles (db (world_after o)) = profiles (db pending_world)
      ∧ resumes (db (world_after o)) = resumes (db pending_world)
      ∧ ∀ env' sess',
          let o' := verify has_at env' (verify_jane "123456") sess' (world_after o) in
          invalid_credential o' ∧ world_after o' = world_after o
          ∧ session_after o' = sess'.
Proof.
  apply (verify_atomic_and_single_use has_at (at_time 1000 0) (verify_jane "123456")
           None pending_world).
  apply db_wf_no_profiles, unique_on_singleton.
Defined.

Example verify_twice :
  let o := verify has_at (at_time 1000 0) (verify_jane "123456") None pending_world in
  let o' := verify has_at (at_time 1000 0) (verify_jane "123456") None (world_after o) in
  session_after o = Some 1
  ∧ users (db (world_after o)) !! 1 = Some jane_verified
  ∧ response o' = Redirect ep_signin ∧ flashed o' = [MSG_INVALID_CODE]
  ∧ session_after o' = None.
Proof. vm_compute. done. Qed.

(** All other fields populated, the name blank: still profile-incomplete. *)
Lemma generate_requires_full_name_witness :
  let w := jane_world "   " empty_fs in
  let o := tailor false true true unit failing_renderer (λ _, "{}")
             (at_time 10 0) tailor_jane (Some 1) w in
  profile_incomplete_failure o
  ∧ world_after o = w
  ∧ renderer_calls (world_after o) = renderer_calls w
  ∧ resumes (db (world_after o)) = resumes (db w)
  ∧ fs (world_after o) = fs w.
Proof.
  apply (generate_requires_full_name false true true unit failing_renderer
           (λ _, "{}") (at_time 10 0) tailor_jane (Some 1)
           (jane_world "   " empty_fs) 1 jane_verified).
  - apply (db_wf_singletons (1, jane_verified) (1, jane_profile "   ")).
  - reflexivity.
  - intros pid p Hl _. cbn in Hl.
    apply lookup_singleton_Some in Hl as [_ <-]. reflexivity.
Defined.

Lemma renderer_failure_leaves_no_trace_witness :
  let w := jane_world "Jane Doe" empty_fs in
  let o := tailor false true true unit failing_renderer (λ _, "{}")
             (at_time 10 0) tailor_jane (Some 1) w in
  render_failed o
  ∧ db (world_after o) = db w
  ∧ fs (world_after o) = fs w
  ∧ session_after o = Some 1.
Proof.
  apply (renderer_failure_leaves_no_trace false true true unit failing_renderer
           (λ _, "{}") (at_time 10 0) tailor_jane (Some 1)
           (jane_world "Jane Doe" empty_fs) 1 jane_verified 1
           (jane_profile "Jane Doe") (RendererError 1)).
  - apply (db_wf_singletons (1, jane_verified) (1, jane_profile "Jane Doe")).
  - reflexivity.
  - reflexivity.
  - reflexivity.
  - vm_compute. discriminate.
  - reflexivity.
  - reflexivity.
Defined.

(** The renderer was called, and only that is recorded. *)
Example renderer_failure_run :
  let w := jane_world "Jane Doe" empty_fs in
  let o := tailor false true true unit failing_renderer (λ _, "{}")
             (at_time 10 0) tailor_jane (Some 1) w in
  length (renderer_calls (world_after o)) = 1%nat
  ∧ map_to_list (resumes (db (world_after o))) = [(7, jane_resume)]
  ∧ map_to_list (OS.nodes (fs (world_after o))) = [].
Proof. vm_compute. done. Qed.

(** Deleting while the PDF cannot be removed and the DOCX is missing. *)
Lemma delete_removes_record_despite_files_witness :
  let w := jane_world "Jane Doe" stuck_fs in
  let o := delete_resume 7 (post ∅) (Some 1) w in
  response o = Redirect ep_tailor
  ∧ flashed o = [MSG_DELETED]
  ∧ resumes (db (world_after o)) = delete 7 (resumes (db w))
  ∧ resumes (db (world_after o)) !! 7 = None
  ∧ users (db (world_after o)) = users (db w)
  ∧ profiles (db (world_after o)) = profiles (db w)
  ∧ session_after o = Some 1.
Proof.
  apply (delete_removes_record_despite_files 7 (post ∅) (Some 1)
           (jane_world "Jane Doe" stuck_fs) 1 jane_verified jane_resume);
    reflexivity.
Defined.

(** In that run the removal of the PDF raised and was swallowed: the file
    and its directory are still there, the row is gone. *)
Example delete_with_stuck_file :
  let w := jane_world "Jane Doe" stuck_fs in
  let o := delete_resume 7 (post ∅) (Some 1) w in
  OS.remove stuck_fs (pdf_path jane_resume) = inl (OSError (pdf_path jane_resume))
  ∧ OS.exists_ stuck_fs (docx_path jane_resume) = false
  ∧ OS.exists_ (fs (world_after o)) (pdf_path jane_resume) = true
  ∧ OS.isdir (fs (world_after o)) "/tmp/autotailor_a1" = true
  ∧ map_to_list (resumes (db (world_after o))) = [].
Proof. vm_compute. done. Qed.

(** With both files in place and removable, files and directory go too. *)
Example delete_with_files_present :
  let f := {| OS.nodes := {[ "/tmp/autotailor_a1" := OS.Dir;
                "/tmp/autotailor_a1/Resume_Jane.pdf" := OS.File "%PDF";
                "/tmp/autotailor_a1/Resume_Jane.docx" := OS.File "PK" ]};
              OS.locked := ∅ |} in
  let o := delete_resume 7 (post ∅) (Some 1) (jane_world "Jane Doe" f) in
  map_to_list (OS.nodes (fs (world_after o))) = []
  ∧ map_to_list (resumes (db (world_after o))) = [].
Proof. vm_compute. done. Qed.

Lemma download_not_found_iff_witness :
  let w := jane_world "Jane Doe" empty_fs in
  let o := download 7 "pdf" (Some 1) w in
  (not_found o ↔
     resumes (db w) !! 7 = None
     ∨ (∃ row, resumes (db w) !! 7 = Some row ∧ resume_user_id row ≠ 1)
     ∨ ("pdf" ≠ "pdf" ∧ "pdf" ≠ "docx"))
  ∧ (∀ row, resumes (db w) !! 7 = Some row → resume_user_id row = 1 →
       ("pdf" = "pdf" → response o = SendFile (pdf_path row) (pdf_name row))
       ∧ ("pdf" = "docx" → response o = SendFile (docx_path row) (docx_name row)))
  ∧ world_after o = w
  ∧ session_after o = Some 1.
Proof.
  apply (download_not_found_iff 7 "pdf" (Some 1) (jane_world "Jane Doe" empty_fs)
           1 jane_verified).
  reflexivity.
Defined.

(** The record of account 1 asked for by account 2, and an unknown kind. *)
Example download_cases :
  let w := world_of {| users := {[ 1 := jane_verified;
                                   2 := {| user_email := "bob@x.com"; verified := 1;
                                           verify_code := None;
                                           verify_expiry := None |} ]};
                       profiles := ∅; resumes := {[ 7 := jane_resume ]} |} empty_fs in
  response (download 7 "pdf" (Some 2) w) = Abort 404
  ∧ response (download 7 "pdf" (Some 1) w)
    = SendFile "/tmp/autotailor_a1/Resume_Jane.pdf" "Resume_Jane.pdf"
  ∧ response (download 7 "docx" (Some 1) w)
    = SendFile "/tmp/autotailor_a1/Resume_Jane.docx" "Resume_Jane.docx"
  ∧ response (download 7 "txt" (Some 1) w) = Abort 404
  ∧ response (download 8 "pdf" (Some 1) w) = Abort 404.
Proof. vm_compute. done. Qed.

Lemma account_invariant_pending : account_invariant pending_world.
Proof.
  intros uid u Hl. cbn in Hl. apply lookup_singleton_Some in Hl as [_ <-].
  split; intros _; eexists; reflexivity.
Qed.

Lemma code_and_expiry_stay_paired_witness :
  account_invariant
    (run has_at false true true unit failing_renderer (λ _, "{}")
       (λ _, true) (λ _, true) sample_run pending_world).
Proof.
  exact (proj1 (code_and_expiry_stay_paired has_at false true true unit
                  failing_renderer (λ _, "{}") (λ _, true) (λ _, true)
                  sample_run r_signin (at_time 0 42) signin_jane None
                  pending_world account_invariant_pending)).
Defined.

Lemma verified_flag_is_never_reset_witness :
  ∃ u', users (db (run has_at false true true unit failing_renderer (λ _, "{}")
                   (λ _, true) (λ _, true) sample_run
                   (jane_world "Jane Doe" empty_fs))) !! 1 = Some u'
        ∧ verified u' = 1 ∧ user_email u' = user_email jane_verified.
Proof.
  refine (proj1 (verified_flag_is_never_reset has_at false true true unit
                   failing_renderer (λ _, "{}") (λ _, true) (λ _, true)
                   sample_run (at_time 0 42) signin_jane None
                   (jane_world "Jane Doe" empty_fs) 1 jane_verified _ _));
    reflexivity.
Defined.

(** Signing in again on the verified account: a pending code, the flag kept. *)
Example signin_on_verified_account :
  users (db (world_after (signin has_at false (at_time 20 7) signin_jane None
                            (jane_world "Jane Doe" empty_fs)))) !! 1
  = Some {| user_email := "jane@x.com"; verified := 1;
            verify_code := Some "000007";
            verify_expiry := Some {| wall := 600000020; tzinfo := None |} |}.
Proof. vm_compute. done. Qed.

(** C9, the failing input: account 1 has a profile whose stored link is
    https://old.example/jane and posts a valid form with the web link
    https://new.example/jane.  The save succeeds, [github] is null, and
    [linkedin] still holds the old link: the submitted one is dropped,
    because the handler overwrote the form with the stored profile before
    reading it. *)
Theorem profile_update_drops_submitted_web_link :
  let w := jane_world "Jane Doe" empty_fs in
  let o := profile has_at true true (save_jane "  https://new.example/jane ")
             (Some 1) w in
  response o = Redirect ep_tailor
  ∧ flashed o = [MSG_SAVED]
  ∧ github <$> profiles (db (world_after o)) !! 1 = Some None
  ∧ linkedin <$> profiles (db (world_after o)) !! 1
    = Some (Some "https://old.example/jane").
Proof. vm_compute. done. Qed.

(** On the create path the submitted link is stored, trimmed. *)
Example profile_create_stores_web_link :
  let w := world_of {| users := {[ 1 := jane_verified ]}; profiles := ∅;
                       resumes := ∅ |} empty_fs in
  let o := profile has_at true true (save_jane "  https://new.example/jane ")
             (Some 1) w in
  response o = Redirect ep_tailor
  ∧ flashed o = [MSG_SAVED]
  ∧ github <$> profiles (db (world_after o)) !! 1 = Some None
  ∧ linkedin <$> profiles (db (world_after o)) !! 1
    = Some (Some "https://new.example/jane").
Proof. vm_compute. done. Qed.

(** A successful generation: the scratch directory, the two files, the row
    under the next key and the redirect to it. *)
Example generate_run :
  let w := jane_world "Jane Doe" empty_fs in
  let o := tailor false true true unit fixed_renderer (λ _, "{}")
             (at_time 10 0) tailor_jane (Some 1) w in
  response o = Redirect (ep_result 8)
  ∧ (map_to_list (OS.nodes (fs (world_after o)))).*1
    ≡ₚ [ "/tmp/autotailor_a1";
         "/tmp/autotailor_a1/Resume_Jane_Doe_boards.example.com_20260101.pdf";
         "/tmp/autotailor_a1/Resume_Jane_Doe_boards.example.com_20260101.docx" ]
  ∧ pdf_path <$> resumes (db (world_after o)) !! 8
    = Some "/tmp/autotailor_a1/Resume_Jane_Doe_boards.example.com_20260101.pdf"
  ∧ job_url <$> resumes (db (world_after o)) !! 8
    = Some "https://boards.example.com/job/42"
  ∧ length (renderer_calls (world_after o)) = 1%nat.
Proof.
  vm_compute. split_and!; try done.
  apply (bool_decide_unpack _). vm_compute. done.
Qed.

(** * The application with the stub renderer plugged in *)

(** X23: generation end to end with the stub renderer.  For a signed-in
    account whose profile has a non-blank, slash-free full name, a
    validating request whose URL has a host, with both conversions
    succeeding and a new, writable scratch directory, [tailor] redirects to
    a new record of that account for the trimmed URL; its two file names
    are [Resume_<name>_<host>_<date>] with [.pdf] and [.docx], its paths
    are those names inside the scratch directory, and the files there hold
    the converted bytes. *)
Theorem stub_generation_end_to_end tz about gemini (C : Type)
    to_pdf to_docx host_of stamp (cov : C) dumps
    env req sess w uid u pid p pdf_bytes docx_bytes host :
  let url := Str.strip (Str.or_empty (form req !! "url")) in
  let text := ResumeEngine._build_text (profile_dict about gemini (uid, u) p) url in
  let d := scratch_dir (tmp_suffix env) in
  let stem := "Resume_" +:+ ResumeEngine.name_safe (full_name p) +:+ "_"
              +:+ host +:+ "_" +:+ stamp (clock env) in
  db_wf (db w) →
  current_user sess w = Some (uid, u) →
  profiles (db w) !! pid = Some p →
  profile_user_id p = uid →
  Str.strip (full_name p) ≠ "" →
  validate_on_submit req (TailorForm_validate req) = true →
  to_pdf text = inr pdf_bytes →
  to_docx text = inr docx_bytes →
  host_of url = inr (Some host) →
  host ≠ "" →
  no_slash (full_name p) = true →
  no_slash host = true →
  no_slash (stamp (clock env)) = true →
  no_slash (tmp_suffix env) = true →
  OS.nodes (fs w) !! d = None →
  (∀ q, OS.dirname q = d → OS.nodes (fs w) !! q = None) →
  (∀ q, OS.dirname q = d → q ∉ OS.locked (fs w)) →
  let o := tailor tz about gemini C
             (ResumeEngine.generate_both C to_pdf to_docx host_of stamp cov)
             dumps env req sess w in
  let rid := next_id (resumes (db w)) in
  response o = Redirect (ep_result rid)
  ∧ ∃ row,
      resumes (db (world_after o)) !! rid = Some row
      ∧ resume_user_id row = uid
      ∧ job_url row = url
      ∧ pdf_name row = stem +:+ ".pdf"
      ∧ docx_name row = stem +:+ ".docx"
      ∧ pdf_path row = d +:+ "/" +:+ stem +:+ ".pdf"
      ∧ docx_path row = d +:+ "/" +:+ stem +:+ ".docx"
      ∧ OS.nodes (fs (world_after o)) !! pdf_path row = Some (OS.File pdf_bytes)
      ∧ OS.nodes (fs (world_after o)) !! docx_path row = Some (OS.File docx_bytes).
Proof.
  intros url text d stem Hwf Hcu Hl Hk Hname Hv Hpdf Hdocx Hhost Hhne
    Hnn Hnh Hns Hsfx Hd Hunder Hlocked o rid.
  set (res := {| r_pdf := pdf_bytes; r_docx := docx_bytes;
                 r_pdf_name := stem +:+ ".pdf"; r_docx_name := stem +:+ ".docx";
                 r_coverage := Some cov |}).
  assert (Hgen : ResumeEngine.generate_both C to_pdf to_docx host_of stamp cov
                   (profile_dict about gemini (uid, u) p) url (clock env)
                 = inr res).
  { unfold ResumeEngine.generate_both. fold text. rewrite Hpdf, Hdocx, Hhost.
    unfold ResumeEngine.filename, res, stem. cbn [pd_full_name profile_dict].
    assert (Str.or_empty (Str.or_else (Some host) (Some "job")) = host) as ->.
    { cbn. by rewrite decide_False. }
    by rewrite !app_assoc_s. }
  assert (Hstem : no_slash stem = true).
  { unfold stem. rewrite !no_slash_app, name_safe_no_slash, Hnh, Hns by done.
    done. }
  assert (Hpn : no_slash (r_pdf_name res) = true).
  { cbn. by rewrite no_slash_app, Hstem. }
  assert (Hdn : no_slash (r_docx_name res) = true).
  { cbn. by rewrite no_slash_app, Hstem. }
  destruct (scratch_dir_shape _ Hsfx) as [Hdne Hend]. fold d in Hdne, Hend.
  destruct (dirname_join d _ Hdne Hend Hpn) as [_ Hdp].
  destruct (dirname_join d _ Hdne Hend Hdn) as [_ Hdx].
  assert (Hpx : d +:+ "/" +:+ r_pdf_name res ≠ d +:+ "/" +:+ r_docx_name res).
  { cbn. intros Heq. do 3 apply (inj (String.app _)) in Heq. done. }
  assert (Ho : o = store_resume tz C dumps env sess
                 (log_renderer_call w (profile_dict about gemini (uid, u) p) url)
                 (uid, u) url res).
  { subst o.
    rewrite (tailor_with_profile tz about gemini C _ dumps env req sess w
               uid u pid p) by done.
    rewrite Hv. cbn zeta. fold url. by rewrite Hgen. }
  rewrite (store_resume_ok tz C dumps) in Ho; try done;
    [|by apply Hlocked|by apply Hlocked].
  rewrite Ho. cbn [world_after reply response db fs set_db set_fs set_resumes
                   resumes OS.nodes log_renderer_call].
  split; [done|]. eexists. rewrite lookup_insert_eq.
  split_and!; try reflexivity; cbn [pdf_path docx_path r_pdf_name r_docx_name res].
  - by rewrite lookup_insert_ne, lookup_insert_eq.
  - by rewrite lookup_insert_eq.
Qed.

(** * Concrete runs of the further properties *)

Lemma two_accounts_wf : db_wf (db two_accounts_world).
Proof.
  split; [|apply unique_on_singleton].
  intros i j a b Hi Hj He. cbn in Hi, Hj.
  apply lookup_insert_Some in Hi as [[<- <-]|[_ Hi]];
    apply lookup_insert_Some in Hj as [[<- <-]|[_ Hj]]; try done;
    try apply lookup_singleton_Some in Hi as [<- <-];
    try apply lookup_singleton_Some in Hj as [<- <-]; done.
Qed.

Lemma jane_world_wf name f : db_wf (db (jane_world name f)).
Proof. apply (db_wf_singletons (1, jane_verified) (1, jane_profile name)). Qed.

Lemma pending_world_wf : db_wf (db pending_world).
Proof. apply db_wf_no_profiles, unique_on_singleton. Qed.

Lemma fresh_jane_world_wf : db_wf (db fresh_jane_world).
Proof. apply db_wf_no_profiles, unique_on_singleton. Qed.

Lemma empty_world_wf : db_wf (db empty_world).
Proof. apply db_wf_no_profiles, unique_on_empty. Qed.

Lemma signin_touches_one_account_witness :
  let o := signin has_at false (at_time 0 42) signin_jane None pending_world in
  response o = Redirect (ep_verify "jane@x.com")
  ∧ session_after o = None
  ∧ profiles (db (world_after o)) = profiles (db pending_world).
Proof.
  pose proof (signin_touches_one_account has_at false (at_time 0 42) signin_jane
                None pending_world pending_world_wf eq_refl) as H.
  cbv zeta in H. destruct H as (H1 & H2 & H3 & _). by split_and!.
Defined.

Lemma issued_code_is_six_digits_witness :
  ∃ code,
    stdout (world_after (signin has_at false (at_time 0 42) signin_jane None
                           empty_world))
    = ["[DEV] Verification code: " +:+ code]
    ∧ String.length code = 6%nat
    ∧ all_digits code = true.
Proof.
  destruct (issued_code_is_six_digits has_at false (at_time 0 42) signin_jane
              None empty_world empty_world_wf eq_refl)
    as (code & uid & u' & Hout & _ & _ & _ & Hlen & Hdig & _).
  exists code. by split_and!.
Defined.

(** At the instant of expiry the issued code still signs in. *)
Lemma issued_code_lifetime_witness :
  let o := verify has_at (at_time 600000000 0) (verify_jane "000042") None
             (world_after (signin has_at false (at_time 0 42) signin_jane None
                             empty_world)) in
  ((∃ uid, logged_in_as uid o) ↔ 600000000 ≤ 0 + 600000000)
  ∧ (invalid_credential o ↔ 0 + 600000000 < 600000000).
Proof.
  apply (issued_code_lifetime has_at false (at_time 0 42) (at_time 600000000 0)
           signin_jane (verify_jane "000042") None None empty_world).
  - apply empty_world_wf.
  - reflexivity.
  - reflexivity.
  - reflexivity.
  - reflexivity.
Defined.

Lemma signin_redirect_email_is_normal_witness :
  ∃ e,
    response (signin has_at false (at_time 0 42) signin_jane None empty_world)
    = Redirect (ep_verify e)
    ∧ normalize_email e = e.
Proof.
  destruct (signin_redirect_email_is_normal has_at false (at_time 0 42)
              signin_jane None empty_world empty_world_wf eq_refl)
    as (e & uid & u' & Hr & Hn & _).
  exists e. by split.
Defined.

Lemma tailor_gate_iff_witness :
  let w := jane_world "   " empty_fs in
  let o := tailor false true true unit failing_renderer (λ _, "{}")
             (at_time 10 0) tailor_jane (Some 1) w in
  (profile_incomplete_failure o ↔
     ∀ pid p, profiles (db w) !! pid = Some p → profile_user_id p = 1 →
       Str.strip (full_name p) = "")
  ∧ (response o = Redirect ep_profile ↔ profile_incomplete_failure o).
Proof.
  apply (tailor_gate_iff false true true unit failing_renderer (λ _, "{}")
           (at_time 10 0) tailor_jane (Some 1) (jane_world "   " empty_fs)
           1 jane_verified).
  - apply jane_world_wf.
  - reflexivity.
Defined.

Lemma verify_routes_by_profile_witness :
  let o := verify has_at (at_time 1000 0) (verify_jane "123456") None
             pending_world in
  let o' := tailor false true true unit failing_renderer (λ _, "{}")
              (at_time 2000 0) tailor_jane (session_after o) (world_after o) in
  (response o = Redirect ep_tailor ↔ has_complete_profile (db pending_world) 1)
  ∧ (response o = Redirect ep_profile ↔ profile_incomplete_failure o')
  ∧ (response o = Redirect ep_tailor → response o' ≠ Redirect ep_profile).
Proof.
  apply (verify_routes_by_profile has_at false true true unit failing_renderer
           (λ _, "{}") (at_time 1000 0) (verify_jane "123456") None
           pending_world 1 (at_time 2000 0) tailor_jane).
  - apply pending_world_wf.
  - reflexivity.
  - split_and!; [reflexivity|left; reflexivity|reflexivity].
Defined.


Lemma protected_routes_require_login_witness :
  dispatch has_at false true true unit failing_renderer (λ _, "{}")
    (λ _, true) (λ _, true) r_tailor (at_time 10 0) tailor_jane None
    (jane_world "Jane Doe" empty_fs)
  = reply (Redirect ep_signin) [LOGIN_MESSAGE] None
      (jane_world "Jane Doe" empty_fs).
Proof.
  apply (protected_routes_require_login has_at false true true unit
           failing_renderer (λ _, "{}") (λ _, true) (λ _, true) r_tailor
           (at_time 10 0) tailor_jane None (jane_world "Jane Doe" empty_fs));
    reflexivity.
Defined.

Lemma reading_routes_change_nothing_witness :
  world_after (dispatch has_at false true true unit failing_renderer (λ _, "{}")
                 (λ _, true) (λ _, true) (r_download 7 "pdf") (at_time 10 0)
                 (mk_Request GET false ∅ ∅) (Some 1)
                 (jane_world "Jane Doe" empty_fs))
  = jane_world "Jane Doe" empty_fs.
Proof.
  refine (proj1 (reading_routes_change_nothing has_at false true true unit
                   failing_renderer (λ _, "{}") (λ _, true) (λ _, true)
                   (r_download 7 "pdf") (at_time 10 0) (mk_Request GET false ∅ ∅)
                   (Some 1) (jane_world "Jane Doe" empty_fs) _)).
  left. reflexivity.
Defined.

(** A GET on the delete route is answered 405 and deletes nothing. *)
Example delete_by_get_is_refused :
  let o := dispatch has_at false true true unit failing_renderer (λ _, "{}")
             (λ _, true) (λ _, true) (r_delete_resume 7) (at_time 10 0)
             (mk_Request GET true ∅ ∅) (Some 1)
             (jane_world "Jane Doe" empty_fs) in
  response o = Abort 405
  ∧ resumes (db (world_after o)) !! 7 = Some jane_resume.
Proof. vm_compute. done. Qed.

Lemma ownership_rule_is_shared_witness :
  let w := jane_world "Jane Doe" empty_fs in
  (not_found (result (λ _, true) (λ _, true) 7 (Some 1) w)
     ↔ ¬ owns (db w) 1 7)
  ∧ (not_found (download 7 "docx" (Some 1) w) ↔ ¬ owns (db w) 1 7)
  ∧ (not_found (delete_resume 7 (post ∅) (Some 1) w) ↔ ¬ owns (db w) 1 7).
Proof.
  apply (ownership_rule_is_shared (λ _, true) (λ _, true) 7 "docx" (post ∅)
           (Some 1) (jane_world "Jane Doe" empty_fs) 1 jane_verified).
  - reflexivity.
  - reflexivity.
  - right. reflexivity.
Defined.

(** Bob cannot delete Jane's record: the answer is 404 and nothing moves. *)
Lemma delete_removes_nothing_else_witness :
  delete_resume 7 (post ∅) (Some 2) two_accounts_world
  = reply (Abort 404) [] (Some 2) two_accounts_world.
Proof.
  pose proof (delete_removes_nothing_else 7 (post ∅) (Some 2)
                two_accounts_world 2 bob_verified eq_refl) as H.
  cbv zeta in H. destruct H as (_ & H & _).
  apply H; [reflexivity|].
  intros (row & Hr & Hu). cbn in Hr.
  apply lookup_singleton_Some in Hr as [_ <-]. discriminate Hu.
Defined.


Lemma generated_record_can_be_downloaded_witness :
  let w := jane_world "Jane Doe" empty_fs in
  let o := tailor false true true unit fixed_renderer (λ _, "{}")
             (at_time 10 0) tailor_jane (Some 1) w in
  let w' := world_after o in
  let rid := next_id (resumes (db w)) in
  response o = Redirect (ep_result rid)
  ∧ response (download rid "pdf" (Some 1) w')
    = SendFile
        "/tmp/autotailor_a1/Resume_Jane_Doe_boards.example.com_20260101.pdf"
        "Resume_Jane_Doe_boards.example.com_20260101.pdf"
  ∧ response (download rid "docx" (Some 1) w')
    = SendFile
        "/tmp/autotailor_a1/Resume_Jane_Doe_boards.example.com_20260101.docx"
        "Resume_Jane_Doe_boards.example.com_20260101.docx".
Proof.
  pose proof (generated_record_can_be_downloaded false true true unit
                fixed_renderer (λ _, "{}") (at_time 10 0) tailor_jane (Some 1)
                (jane_world "Jane Doe" empty_fs) 1 jane_verified 1
                (jane_profile "Jane Doe")
                {| r_pdf := "%PDF"; r_docx := "PK";
                   r_pdf_name := "Resume_Jane_Doe_boards.example.com_20260101.pdf";
                   r_docx_name := "Resume_Jane_Doe_boards.example.com_20260101.docx";
                   r_coverage := Some () |}) as H.
  cbv zeta in H.
  destruct H as (H1 & _ & _ & _ & _ & H6 & H7).
  - apply jane_world_wf.
  - reflexivity.
  - reflexivity.
  - reflexivity.
  - discriminate.
  - reflexivity.
  - reflexivity.
  - reflexivity.
  - reflexivity.
  - reflexivity.
  - discriminate.
  - reflexivity.
  - intros q _. reflexivity.
  - apply not_elem_of_empty.
  - apply not_elem_of_empty.
  - split_and!; [exact H1|exact H6|exact H7].
Defined.

Lemma generate_then_delete_restores_witness :
  let w := jane_world "Jane Doe" empty_fs in
  let o := tailor false true true unit fixed_renderer (λ _, "{}")
             (at_time 10 0) tailor_jane (Some 1) w in
  let o2 := delete_resume (next_id (resumes (db w))) (post ∅)
              (session_after o) (world_after o) in
  response o = Redirect (ep_result (next_id (resumes (db w))))
  ∧ response o2 = Redirect ep_tailor
  ∧ flashed o2 = [MSG_DELETED]
  ∧ db (world_after o2) = db w
  ∧ fs (world_after o2) = fs w.
Proof.
  apply (generate_then_delete_restores false true true unit
           fixed_renderer (λ _, "{}") (at_time 10 0) tailor_jane (post ∅)
           (Some 1) (jane_world "Jane Doe" empty_fs) 1 jane_verified 1
           (jane_profile "Jane Doe")
           {| r_pdf := "%PDF"; r_docx := "PK";
              r_pdf_name := "Resume_Jane_Doe_boards.example.com_20260101.pdf";
              r_docx_name := "Resume_Jane_Doe_boards.example.com_20260101.docx";
              r_coverage := Some () |}).
  - apply jane_world_wf.
  - reflexivity.
  - reflexivity.
  - reflexivity.
  - discriminate.
  - reflexivity.
  - reflexivity.
  - reflexivity.
  - reflexivity.
  - reflexivity.
  - reflexivity.
  - reflexivity.
  - intros q _. reflexivity.
  - apply not_elem_of_empty.
  - apply not_elem_of_empty.
  - apply not_elem_of_empty.
Defined.

Lemma saved_profile_opens_generation_witness :
  let o := profile has_at true true (save_jane "https://jane.example")
             (Some 1) fresh_jane_world in
  has_complete_profile (db (world_after o)) 1
  ∧ db_wf (db (world_after o))
  ∧ current_user (session_after o) (world_after o) = Some (1, jane_verified)
  ∧ response (tailor false true true unit failing_renderer (λ _, "{}")
                (at_time 10 0) tailor_jane (session_after o) (world_after o))
    ≠ Redirect ep_profile.
Proof.
  apply (saved_profile_opens_generation has_at false true true unit
           failing_renderer (λ _, "{}") (save_jane "https://jane.example")
           (Some 1) fresh_jane_world 1 jane_verified (at_time 10 0) tailor_jane).
  - apply fresh_jane_world_wf.
  - reflexivity.
  - reflexivity.
Defined.

Lemma profile_save_writes_one_row_witness :
  let o := profile has_at true true (save_jane "  https://jane.example ")
             (Some 1) fresh_jane_world in
  let w' := world_after o in
  users (db w') = users (db fresh_jane_world)
  ∧ resumes (db w') = resumes (db fresh_jane_world)
  ∧ fs w' = fs fresh_jane_world
  ∧ ∃ pid row,
      profiles (db w') = <[pid := row]> (profiles (db fresh_jane_world))
      ∧ profile_user_id row = 1
      ∧ full_name row = "Jane Doe"
      ∧ linkedin row = Some "https://jane.example"
      ∧ github row = None.
Proof.
  pose proof (profile_save_writes_one_row has_at true true
                (save_jane "  https://jane.example ") (Some 1)
                fresh_jane_world 1 jane_verified fresh_jane_world_wf eq_refl)
    as H.
  cbv zeta in H.
  destruct H as (H1 & H2 & H3 & _ & _ & _ & _ & _ & H9).
  destruct H9 as (pid & row & _ & Hp & Hu & Hn & _ & _ & _ & Hl & Hg).
  - intros pid q Hq. cbn in Hq. by rewrite lookup_empty in Hq.
  - reflexivity.
  - split_and!; [exact H1|exact H2|exact H3|].
    exists pid, row. split_and!; [exact Hp|exact Hu|exact Hn|exact Hl|exact Hg].
Defined.

Lemma stub_generation_end_to_end_witness :
  let o := tailor false true true unit
             (ResumeEngine.generate_both unit sample_pdf sample_docx
                sample_host sample_stamp ())
             (λ _, "{}") (at_time 10 0) tailor_jane (Some 1)
             (jane_world "Jane Doe" empty_fs) in
  response o = Redirect (ep_result 8)
  ∧ ∃ row,
      resumes (db (world_after o)) !! 8 = Some row
      ∧ pdf_name row = "Resume_Jane_Doe_boards.example.com_20260101.pdf"
      ∧ docx_path row
        = "/tmp/autotailor_a1/Resume_Jane_Doe_boards.example.com_20260101.docx".
Proof.
  pose proof (stub_generation_end_to_end false true true unit sample_pdf
                sample_docx sample_host sample_stamp () (λ _, "{}")
                (at_time 10 0) tailor_jane (Some 1)
                (jane_world "Jane Doe" empty_fs) 1 jane_verified 1
                (jane_profile "Jane Doe")
                ("%PDF " +:+ ResumeEngine._build_text
                   (profile_dict true true (1, jane_verified)
                      (jane_profile "Jane Doe"))
                   "https://boards.example.com/job/42")
                ("PK " +:+ ResumeEngine._build_text
                   (profile_dict true true (1, jane_verified)
                      (jane_profile "Jane Doe"))
                   "https://boards.example.com/job/42")
                "boards.example.com") as H.
  cbv zeta in H.
  destruct H as (H1 & row & Hr & _ & _ & Hpn & _ & _ & Hdp & _).
  - apply jane_world_wf.
  - reflexivity.
  - reflexivity.
  - reflexivity.
  - discriminate.
  - reflexivity.
  - reflexivity.
  - reflexivity.
  - reflexivity.
  - discriminate.
  - reflexivity.
  - reflexivity.
  - reflexivity.
  - reflexivity.
  - reflexivity.
  - intros q _. reflexivity.
  - intros q _. apply not_elem_of_empty.
  - split; [exact H1|]. exists row. split_and!; [exact Hr|exact Hpn|exact Hdp].
Defined.
